(** * DKI education data API: the data access layer and its controller

    A shallow embedding of [main.py].  The program loads one CSV table
    into a pandas DataFrame, cleans it once, and answers grouped sums
    over it.  The pandas, numpy and urllib calls the program makes are
    modelled here as far as the program uses them; inputs on which the
    behaviour of those libraries differs between releases, or lies
    outside the modelled fragment, evaluate to [OutOfModel]. *)

From Stdlib Require Import List ZArith Lia Bool String Ascii SpecFloat.
From Stdlib Require Import OrdersEx Sorted Permutation RelationClasses.
Import ListNotations.

Local Open Scope Z_scope.
Local Open Scope list_scope.

(** ** Python values and control flow *)

(** A Python [str] is represented by its UTF-8 encoding, one [ascii]
    per byte.  Bytewise lexicographic order on UTF-8 is code point
    order, which is how Python compares strings. *)
Abbreviation str := string (only parsing).

Definition str_ltb (a b : str) : bool :=
  match String_as_OT.compare a b with Lt => true | _ => false end.

(** The exceptions the program can run into. *)
Inductive exn : Type :=
| KeyError (label : str)
| ValueError
| OverflowError
| TokenError
| IndexError
| UndefinedVariableError (name : str)
| OSError.

(** What a call produces: a value, an exception, or a behaviour this
    development does not determine. *)
Inductive outcome (A : Type) : Type :=
| Ok (a : A)
| Raise (e : exn)
| OutOfModel.

Arguments Ok {A} a.
Arguments Raise {A} e.
Arguments OutOfModel {A}.

Definition obind {A B} (o : outcome A) (k : A -> outcome B) : outcome B :=
  match o with
  | Ok a => k a
  | Raise e => Raise e
  | OutOfModel => OutOfModel
  end.

Notation "'let?' x ':=' o 'in' k" := (obind o (fun x => k))
  (at level 10, x pattern, o at level 100, k at level 200).

Fixpoint omap {A B} (f : A -> outcome B) (l : list A) : outcome (list B) :=
  match l with
  | [] => Ok []
  | a :: l' =>
      let? b := f a in
      let? bs := omap f l' in
      Ok (b :: bs)
  end.

(** ** Cells, columns and frames *)

Inductive dtype : Type := object | int64 | float64 | bool_.

Definition dtype_eqb (a b : dtype) : bool :=
  match a, b with
  | object, object | int64, int64 | float64, float64 | bool_, bool_ => true
  | _, _ => false
  end.

(** A cell of the table.  A missing value is the float NaN, also in a
    column of strings. *)
Inductive cell : Type :=
| Str (s : str)
| Int (z : Z)
| Float (f : spec_float)
| Bool (b : bool).

Definition isna (c : cell) : bool :=
  match c with
  | Float S754_nan => true
  | _ => false
  end.

(** A DataFrame, row by row.  [columns] is the header, left to right,
    with the dtype of each column; every row lists its cells in header
    order. *)
Record DataFrame : Type := mkDF {
  columns : list (str * dtype);
  rows : list (list cell)
}.

Definition names (d : DataFrame) : list str := map fst (columns d).

Definition mem (s : str) (l : list str) : bool :=
  existsb (String.eqb s) l.

(** Keep the positions of [l] where the mask holds. *)
Fixpoint select {A} (mask : list bool) (l : list A) : list A :=
  match mask, l with
  | b :: mask', a :: l' => if b then a :: select mask' l' else select mask' l'
  | _, _ => []
  end.

(** [df.drop(labels, axis=1)]: every column carrying one of the labels
    goes; a label that names no column is a KeyError. *)
Definition drop (labels : list str) (d : DataFrame) : outcome DataFrame :=
  match find (fun l => negb (mem l (names d))) labels with
  | Some l => Raise (KeyError l)
  | None =>
      let keep := map (fun n => negb (mem n labels)) (names d) in
      Ok (mkDF (select keep (columns d)) (map (select keep) (rows d)))
  end.

(** [df.fillna(0)]: a missing cell becomes [0], as a float in a float
    column and as the integer itself elsewhere. *)
Definition fill0 (col : str * dtype) (c : cell) : cell :=
  if isna c then
    match snd col with
    | float64 => Float (S754_zero false)
    | _ => Int 0
    end
  else c.

Fixpoint map2 {A B C} (f : A -> B -> C) (l : list A) (m : list B) : list C :=
  match l, m with
  | a :: l', b :: m' => f a b :: map2 f l' m'
  | _, _ => []
  end.

Definition fillna (d : DataFrame) : DataFrame :=
  mkDF (columns d) (map (map2 fill0 (columns d)) (rows d)).

(** [df.select_dtypes(exclude=['object']).columns] *)
Definition select_dtypes_exclude_object (d : DataFrame) : list str :=
  map fst (filter (fun c => negb (dtype_eqb (snd c) object)) (columns d)).

Definition int64_min : Z := - 2 ^ 63.
Definition int64_max : Z := 2 ^ 63 - 1.

(** [int(x)] on a float: the integer part, towards zero. *)
Definition float_trunc (f : spec_float) : outcome Z :=
  match f with
  | S754_zero _ => Ok 0
  | S754_infinity _ => Raise OverflowError
  | S754_nan => Raise ValueError
  | S754_finite s m e =>
      let a := if 0 <=? e then Z.shiftl (Z.pos m) e
               else Z.shiftr (Z.pos m) (- e) in
      Ok (if s then - a else a)
  end.

(** [np.int64(x)] as [applymap] calls it on the cells of a numeric
    column.  Strings do not occur in such a column. *)
Definition np_int64 (c : cell) : outcome Z :=
  match c with
  | Int z => Ok z
  | Bool b => Ok (if b then 1 else 0)
  | Float f =>
      let? z := float_trunc f in
      if (int64_min <=? z) && (z <=? int64_max) then Ok z
      else Raise OverflowError
  | Str _ => OutOfModel
  end.

(** [df[cols] = df[cols].applymap(np.int64)] *)
Definition coerce (cols : list str) (col : str * dtype) (c : cell)
  : outcome cell :=
  if mem (fst col) cols then let? z := np_int64 c in Ok (Int z) else Ok c.

Fixpoint omap2 {A B C} (f : A -> B -> outcome C) (l : list A) (m : list B)
  : outcome (list C) :=
  match l, m with
  | a :: l', b :: m' =>
      let? c := f a b in
      let? cs := omap2 f l' m' in
      Ok (c :: cs)
  | _, _ => Ok []
  end.

Definition applymap_int64 (cols : list str) (d : DataFrame)
  : outcome DataFrame :=
  let? rs := omap (omap2 (coerce cols) (columns d)) (rows d) in
  Ok (mkDF (map (fun c => if mem (fst c) cols then (fst c, int64) else c)
                (columns d))
           rs).

(** ** The data access layer *)

(** The object state: [self.path] and [self.df]. *)
Record DKIEducationData : Type := mkData {
  path : str;
  df : DataFrame
}.

(** A method runs on the object and leaves an object behind, whether it
    returns or raises. *)
Definition M (A : Type) : Type :=
  DKIEducationData -> outcome A * DKIEducationData.

Definition ret {A} (a : A) : M A := fun self => (Ok a, self).

Definition bind {A B} (m : M A) (k : A -> M B) : M B :=
  fun self =>
    match m self with
    | (Ok a, self') => k a self'
    | (Raise e, self') => (Raise e, self')
    | (OutOfModel, self') => (OutOfModel, self')
    end.

Definition get_df : M DataFrame := fun self => (Ok (df self), self).

Definition set_df (d : DataFrame) : M unit :=
  fun self => (Ok tt, mkData (path self) d).

Definition lift {A} (o : outcome A) : M A := fun self => (o, self).

Notation "x <- m ;; k" := (bind m (fun x => k))
  (at level 61, m at next level, right associativity).

(** [__clean]: drop the ['tahun'] column, fill missing values with
    zero, turn every column that is not of dtype object into int64.
    Each of the three steps writes [self.df].  The guard on
    [self.df is None] never fires: [__open] has stored a frame or has
    raised. *)
Definition __clean : M unit :=
  d <- get_df ;;
  d1 <- lift (drop ["tahun"%string] d) ;;
  _ <- set_df d1 ;;
  _ <- set_df (fillna d1) ;;
  d2 <- get_df ;;
  let cols := select_dtypes_exclude_object d2 in
  d3 <- lift (applymap_int64 cols d2) ;;
  set_df d3.

(** [__open]: [read_csv] stands for [pd.read_csv] on the file system
    of the process; what it returns becomes [self.df]. *)
Definition __open (read_csv : str -> outcome DataFrame) (p : str)
  : outcome DKIEducationData :=
  let? d := read_csv p in
  Ok (mkData p d).

(** [__init__] *)
Definition __init__ (read_csv : str -> outcome DataFrame)
  : outcome DKIEducationData :=
  let p := "data-dki-menurut-pendidikan-tahun-2014.csv"%string in
  let? self := __open read_csv p in
  match __clean self with
  | (Ok _, self) => Ok self
  | (Raise e, _) => Raise e
  | (OutOfModel, _) => OutOfModel
  end.

(** ** Reading the frame *)

Definition record : Type := list (str * cell).

(** [df.to_dict('records')] *)
Definition to_dict_records (d : DataFrame) : list record :=
  map (fun r => combine (names d) r) (rows d).

(** [select_all] *)
Definition select_all : M (list record) :=
  d <- get_df ;;
  ret (to_dict_records d).

(** *** Label slices over the header *)

Fixpoint positions (s : str) (l : list str) (i : nat) : list nat :=
  match l with
  | [] => []
  | x :: l' =>
      if String.eqb s x then i :: positions s l' (S i)
      else positions s l' (S i)
  end.

Definition str_leb (a b : str) : bool := negb (str_ltb b a).

Fixpoint is_monotonic_increasing (l : list str) : bool :=
  match l with
  | a :: (b :: _) as l' => str_leb a b && is_monotonic_increasing l'
  | _ => true
  end.

Fixpoint is_monotonic_decreasing (l : list str) : bool :=
  match l with
  | a :: (b :: _) as l' => str_leb b a && is_monotonic_decreasing l'
  | _ => true
  end.

Inductive side : Type := left | right.

Definition count_lt (label : str) (l : list str) : nat :=
  List.length (filter (fun x => str_ltb x label) l).

Definition count_le (label : str) (l : list str) : nat :=
  List.length (filter (fun x => str_leb x label) l).

(** [Index._searchsorted_monotonic]; [None] is its ValueError on a
    header that is sorted neither way. *)
Definition searchsorted_monotonic (l : list str) (label : str) (sd : side)
  : option nat :=
  if is_monotonic_increasing l then
    Some (match sd with
          | left => count_lt label l
          | right => count_le label l
          end)
  else if is_monotonic_decreasing l then
    Some (match sd with
          | left => List.length l - count_le label l
          | right => List.length l - count_lt label l
          end)%nat
  else None.

(** [Index.get_slice_bound]: the position of a label that is present;
    for an absent one the insertion point when the header is sorted,
    and the KeyError of the lookup otherwise.  Repeated labels are not
    modelled ([read_csv] makes the header unique). *)
Definition get_slice_bound (l : list str) (label : str) (sd : side)
  : outcome nat :=
  match positions label l 0 with
  | [i] => Ok (match sd with left => i | right => S i end)
  | [] =>
      match searchsorted_monotonic l label sd with
      | Some i => Ok i
      | None => Raise (KeyError label)
      end
  | _ => OutOfModel
  end.

(** [list(df.loc[:, from_:until].columns)] *)
Definition loc_columns (d : DataFrame) (from_ until : str)
  : outcome (list str) :=
  let? start := get_slice_bound (names d) from_ left in
  let? stop := get_slice_bound (names d) until right in
  Ok (firstn (stop - start) (skipn start (names d))).

(** [get_column_names] *)
Definition get_column_names (from_ until : str) : M (list str) :=
  d <- get_df ;;
  lift (loc_columns d from_ until).

Definition default_from : str := "nama_provinsi"%string.
Definition default_until : str := "strata_III"%string.

(** ** Grouped sums *)

(** The [groups] argument: one column name or a list of them. *)
Inductive groups : Type :=
| ByName (g : str)
| ByNames (gs : list str).

Definition keys_of (g : groups) : list str :=
  match g with
  | ByName s => [s]
  | ByNames l => l
  end.

Definition nan : cell := Float S754_nan.

(** The order in which pandas sorts the values of a key column:
    integers first, by value, then strings, by code point. *)
Definition cell_compare (a b : cell) : comparison :=
  match a, b with
  | Int x, Int y => Z.compare x y
  | Int _, _ => Lt
  | Str _, Int _ => Gt
  | Str x, Str y => String_as_OT.compare x y
  | Str _, _ => Lt
  | _, Int _ => Gt
  | _, Str _ => Gt
  | _, _ => Eq
  end.

Fixpoint key_compare (k1 k2 : list cell) : comparison :=
  match k1, k2 with
  | [], [] => Eq
  | [], _ :: _ => Lt
  | _ :: _, [] => Gt
  | a :: k1', b :: k2' =>
      match cell_compare a b with
      | Eq => key_compare k1' k2'
      | c => c
      end
  end.

Definition key_eqb (k1 k2 : list cell) : bool :=
  match key_compare k1 k2 with Eq => true | _ => false end.

(** Key values the model orders: strings and integers.  A cleaned frame
    holds nothing else. *)
Definition groupable (c : cell) : bool :=
  match c with
  | Str _ | Int _ => true
  | _ => false
  end.

Definition row_key (pos : list nat) (r : list cell) : list cell :=
  map (fun i => nth i r nan) pos.

(** Where a group column sits in the header. *)
Definition locate (l : list str) (k : str) : outcome nat :=
  match positions k l 0 with
  | [] => Raise (KeyError k)
  | [i] => Ok i
  | _ => OutOfModel
  end.

Fixpoint has_dup (l : list str) : bool :=
  match l with
  | [] => false
  | x :: l' => mem x l' || has_dup l'
  end.

(** The distinct keys in ascending order ([sort=True]). *)
Fixpoint insert_key (k : list cell) (l : list (list cell))
  : list (list cell) :=
  match l with
  | [] => [k]
  | h :: t =>
      match key_compare k h with
      | Lt => k :: l
      | Eq => l
      | Gt => h :: insert_key k t
      end
  end.

Definition sorted_keys (ks : list (list cell)) : list (list cell) :=
  fold_right insert_key [] ks.

(** The rows that take part: a row with a missing key value belongs to
    no group. *)
Definition keyed_rows (pos : list nat) (rs : list (list cell))
  : outcome (list (list cell)) :=
  let ks := map (row_key pos) rs in
  if forallb (forallb (fun c => groupable c || isna c)) ks then
    Ok (filter (fun r => negb (existsb isna (row_key pos r))) rs)
  else OutOfModel.

(** The sum of one numeric column over the rows of one group.  Up to
    2^53 every pandas release computes the exact integer; beyond it
    releases differ (accumulation in float64, or wrapping int64). *)
Definition exact_limit : Z := 2 ^ 53.

Fixpoint ints (cs : list cell) : option (list Z) :=
  match cs with
  | [] => Some []
  | Int z :: cs' =>
      match ints cs' with
      | Some zs => Some (z :: zs)
      | None => None
      end
  | _ :: _ => None
  end.

Definition zsum (zs : list Z) : Z := fold_right Z.add 0 zs.

Definition group_sum (cs : list cell) : outcome Z :=
  match ints cs with
  | Some zs =>
      if zsum (map Z.abs zs) <=? exact_limit then Ok (zsum zs)
      else OutOfModel
  | None => OutOfModel
  end.

(** The columns that are summed: numeric ones that are not keys
    ([numeric_only], the default of the 1.x releases this program was
    written for).  Each comes with its position in the header. *)
Fixpoint indexed {A} (l : list A) (i : nat) : list (nat * A) :=
  match l with
  | [] => []
  | a :: l' => (i, a) :: indexed l' (S i)
  end.

Definition agg_columns (keys : list str) (d : DataFrame)
  : list (nat * (str * dtype)) :=
  filter (fun c => negb (dtype_eqb (snd (snd c)) object)
                   && negb (mem (fst (snd c)) keys))
         (indexed (columns d) 0).

Definition summary_record (keys : list str) (aggs : list (nat * (str * dtype)))
    (rs : list (list cell)) (pos : list nat) (k : list cell)
  : outcome record :=
  let members := filter (fun r => key_eqb (row_key pos r) k) rs in
  let? sums :=
    omap (fun c =>
            let? z := group_sum (map (fun r => nth (fst c) r nan) members) in
            Ok (fst (snd c), Int z))
         aggs in
  Ok (combine keys k ++ sums).

(** [get_grouper] reads a list of keys that has as many entries as the
    frame has rows, and of which some entry is no column, as one array
    of group labels, a label per row, and not as column names. *)
Definition label_array (g : groups) (d : DataFrame) : bool :=
  match g with
  | ByName _ => false
  | ByNames l =>
      Nat.eqb (List.length l) (List.length (rows d))
      && negb (forallb (fun k => mem k (names d)) l)
  end.

(** [frame.groupby(groups).sum().reset_index().to_dict('records')];
    grouping by an array of labels is not modelled. *)
Definition groupby_sum_records (g : groups) (d : DataFrame)
  : outcome (list record) :=
  let keys := keys_of g in
  match keys with
  | [] => Raise ValueError
  | _ =>
      if label_array g d then OutOfModel else
      let? pos := omap (locate (names d)) keys in
      if has_dup keys then OutOfModel
      else
        let aggs := agg_columns keys d in
        match aggs with
        | [] => OutOfModel
        | _ =>
            let? rs := keyed_rows pos (rows d) in
            omap (summary_record keys aggs rs pos)
                 (sorted_keys (map (row_key pos) rs))
        end
  end.

(** ** Filters: the query string and its evaluation *)

Definition chr (n : nat) : ascii := ascii_of_nat n.
Definition dquote : ascii := chr 34.
Definition backtick : ascii := chr 96.
Definition backslash : ascii := chr 92.
Definition space : ascii := chr 32.

Definition str1 (c : ascii) : str := String c EmptyString.

(** [f'`{column}` == "{value}"'] *)
Definition predicate_text (f : str * str) : str :=
  (str1 backtick ++ fst f ++ str1 backtick ++ " == "
   ++ str1 dquote ++ snd f ++ str1 dquote)%string.

(** [' | '.join([... for column, value in filters])] *)
Definition query_text (filters : list (str * str)) : str :=
  String.concat " | " (map predicate_text filters).

(** *** The tokens of the expression language that such a text uses *)

Inductive token : Type :=
| TName (n : str)
| TEq
| TOr
| TStr (s : str).

Definition in_range (lo hi : nat) (c : ascii) : bool :=
  (lo <=? nat_of_ascii c)%nat && (nat_of_ascii c <=? hi)%nat.

Definition is_digit (c : ascii) : bool := in_range 48 57 c.
Definition is_octal (c : ascii) : bool := in_range 48 55 c.
Definition is_alpha (c : ascii) : bool :=
  in_range 65 90 c || in_range 97 122 c || Ascii.eqb c (chr 95).

Definition hex_val (c : ascii) : option nat :=
  if is_digit c then Some (nat_of_ascii c - 48)%nat
  else if in_range 65 70 c then Some (nat_of_ascii c - 55)%nat
  else if in_range 97 102 c then Some (nat_of_ascii c - 87)%nat
  else None.

(** The UTF-8 bytes of a code point below 2048. *)
Definition utf8_small (cp : nat) : str :=
  if (cp <? 128)%nat then str1 (chr cp)
  else String (chr (192 + cp / 64)) (str1 (chr (128 + cp mod 64))).

Definition is_joint (c : ascii) : bool :=
  Ascii.eqb c (chr 47) || Ascii.eqb c (chr 46).

(** A backtick-quoted name, from after the opening backtick to the
    closing one.  Only names made of identifier pieces joined by [/]
    or [.] are modelled; [fresh] says that a piece starts here. *)
Fixpoint scan_name (s : str) (fresh : bool) : outcome (str * str) :=
  match s with
  | EmptyString => OutOfModel
  | String c s' =>
      if Ascii.eqb c backtick then Ok (EmptyString, s')
      else if is_alpha c || (is_digit c && negb fresh) then
        let? r := scan_name s' false in
        Ok (String c (fst r), snd r)
      else if is_joint c then
        let? r := scan_name s' true in
        Ok (String c (fst r), snd r)
      else OutOfModel
  end.

(** A character that stands for itself in a string literal: printable
    ASCII other than the quote and the backslash, or a byte of a
    character beyond ASCII. *)
Definition literal_char (c : ascii) : bool :=
  (32 <=? nat_of_ascii c)%nat && negb (Ascii.eqb c (chr 127))
  && negb (Ascii.eqb c dquote) && negb (Ascii.eqb c backslash).

(** The simple escapes of a Python string literal. *)
Definition simple_escape (c : ascii) : option ascii :=
  match nat_of_ascii c with
  | 92 => Some backslash
  | 39 => Some (chr 39)
  | 34 => Some dquote
  | 97 => Some (chr 7)
  | 98 => Some (chr 8)
  | 102 => Some (chr 12)
  | 110 => Some (chr 10)
  | 114 => Some (chr 13)
  | 116 => Some (chr 9)
  | 118 => Some (chr 11)
  | _ => None
  end%nat.

Definition oct (c : ascii) : nat := (nat_of_ascii c - 48)%nat.

(** The body of a double-quoted literal, from after the opening quote:
    the text it denotes and what follows the closing quote. *)
Fixpoint scan_body (s : str) : outcome (str * str) :=
  match s with
  | EmptyString => OutOfModel
  | String c s' =>
      if Ascii.eqb c dquote then Ok (EmptyString, s')
      else if Ascii.eqb c backslash then
        match s' with
        | EmptyString => OutOfModel
        | String e s2 =>
            match simple_escape e with
            | Some x =>
                let? r := scan_body s2 in Ok (String x (fst r), snd r)
            | None =>
                if is_octal e then
                  match s2 with
                  | String o2 s3 =>
                      if is_octal o2 then
                        match s3 with
                        | String o3 s4 =>
                            if is_octal o3 then
                              let? r := scan_body s4 in
                              Ok ((utf8_small (64 * oct e + 8 * oct o2
                                               + oct o3)
                                   ++ fst r)%string, snd r)
                            else
                              let? r := scan_body s3 in
                              Ok ((utf8_small (8 * oct e + oct o2)
                                   ++ fst r)%string, snd r)
                        | EmptyString => OutOfModel
                        end
                      else
                        let? r := scan_body s2 in
                        Ok ((utf8_small (oct e) ++ fst r)%string, snd r)
                  | EmptyString => OutOfModel
                  end
                else if Ascii.eqb e (chr 120) then
                  match s2 with
                  | String h1 (String h2 s4) =>
                      match hex_val h1, hex_val h2 with
                      | Some a, Some b =>
                          let? r := scan_body s4 in
                          Ok ((utf8_small (16 * a + b) ++ fst r)%string,
                              snd r)
                      | _, _ => OutOfModel
                      end
                  | _ => OutOfModel
                  end
                else if Ascii.eqb e (chr 78) || Ascii.eqb e (chr 117)
                        || Ascii.eqb e (chr 85) then OutOfModel
                else if literal_char e then
                  let? r := scan_body s2 in
                  Ok (String backslash (String e (fst r)), snd r)
                else OutOfModel
            end
        end
      else if literal_char c then
        let? r := scan_body s' in Ok (String c (fst r), snd r)
      else OutOfModel
  end.

Fixpoint has_char (c : ascii) (s : str) : bool :=
  match s with
  | EmptyString => false
  | String x s' => Ascii.eqb x c || has_char c s'
  end.

(** The tokenizer.  Three quotes in a row open a multi-line string;
    with no quote left to close it the tokenizer raises at the end of
    the text. *)
Fixpoint lex (fuel : nat) (s : str) : outcome (list token) :=
  match fuel with
  | O => OutOfModel
  | S fuel' =>
      match s with
      | EmptyString => Ok []
      | String c s' =>
          if Ascii.eqb c space then lex fuel' s'
          else if Ascii.eqb c backtick then
            let? r := scan_name s' true in
            match fst r with
            | EmptyString => OutOfModel
            | _ => let? ts := lex fuel' (snd r) in Ok (TName (fst r) :: ts)
            end
          else if Ascii.eqb c (chr 61) then
            match s' with
            | String c2 s2 =>
                if Ascii.eqb c2 (chr 61) then
                  let? ts := lex fuel' s2 in Ok (TEq :: ts)
                else OutOfModel
            | EmptyString => OutOfModel
            end
          else if Ascii.eqb c (chr 124) then
            match s' with
            | String c2 _ =>
                if Ascii.eqb c2 (chr 61) then OutOfModel
                else let? ts := lex fuel' s' in Ok (TOr :: ts)
            | EmptyString => let? ts := lex fuel' s' in Ok (TOr :: ts)
            end
          else if Ascii.eqb c dquote then
            match s' with
            | String q2 (String q3 s3) =>
                if Ascii.eqb q2 dquote && Ascii.eqb q3 dquote then
                  if has_char dquote s3 then OutOfModel
                  else Raise TokenError
                else
                  let? r := scan_body s' in
                  let? ts := lex fuel' (snd r) in Ok (TStr (fst r) :: ts)
            | _ =>
                let? r := scan_body s' in
                let? ts := lex fuel' (snd r) in Ok (TStr (fst r) :: ts)
            end
          else OutOfModel
      end
  end.

Definition tokenize (s : str) : outcome (list token) :=
  lex (S (String.length s)) s.

(** The expressions the program builds: comparisons of a column with a
    string literal, joined by [|].  In a query [|] between comparisons
    reads as [or]. *)
Fixpoint parse (ts : list token) : outcome (list (str * str)) :=
  match ts with
  | [TName n; TEq; TStr v] => Ok [(n, v)]
  | TName n :: TEq :: TStr v :: TOr :: ts' =>
      let? ps := parse ts' in Ok ((n, v) :: ps)
  | _ => OutOfModel
  end.

(** *** Names of the expression language *)

(** A header name the tokenizer reads as identifier pieces. *)
Fixpoint name_ok (s : str) (fresh : bool) : bool :=
  match s with
  | EmptyString => true
  | String c s' =>
      if is_alpha c || (is_digit c && negb fresh) then name_ok s' false
      else if is_joint c then name_ok s' true
      else false
  end.

Definition safe_name (s : str) : bool :=
  match s with
  | EmptyString => false
  | _ => name_ok s true
  end.

Definition bqs : str := "BACKTICK_QUOTED_STRING_"%string.

Fixpoint spell (s : str) : str :=
  match s with
  | EmptyString => EmptyString
  | String c s' =>
      if Ascii.eqb c (chr 47) then ("_SLASH_" ++ spell s')%string
      else if Ascii.eqb c (chr 46) then ("_DOT_" ++ spell s')%string
      else String c (spell s')
  end.

(** The words [keyword.iskeyword] accepts in every Python 3 release. *)
Definition py_keywords : list str :=
  ["False"; "None"; "True"; "and"; "as"; "assert"; "break"; "class";
   "continue"; "def"; "del"; "elif"; "else"; "except"; "finally"; "for";
   "from"; "global"; "if"; "import"; "in"; "is"; "lambda"; "nonlocal";
   "not"; "or"; "pass"; "raise"; "return"; "try"; "while"; "with";
   "yield"]%string.

(** [async] and [await] are keywords from Python 3.7 on only; whether a
    name is one of them, bare or spelled out, decides between releases
    what it is rewritten to. *)
Definition version_names : list str :=
  ["async"; "await"; "BACKTICK_QUOTED_STRING_async";
   "BACKTICK_QUOTED_STRING_await"]%string.

(** [create_valid_python_identifier]: the identifier under which a
    backtick-quoted name is known inside a query: the name itself when
    it is an identifier and no keyword, else a spelled-out one. *)
Definition clean_column_name (s : str) : str :=
  if has_char (chr 47) s || has_char (chr 46) s || mem s py_keywords
  then (bqs ++ spell s)%string
  else s.

(** Names that a query resolves to the index or the header rather than
    to a column. *)
Definition axis_names : list str :=
  ["index"; "columns"; "ilevel_0"; "clevel_0"]%string.

(** Names of functions of the numexpr engine; a query that uses one of
    them as a name is refused when that engine is installed. *)
Definition ne_builtins : list str :=
  ["sin"; "cos"; "exp"; "log"; "expm1"; "log1p"; "sqrt"; "sinh"; "cosh";
   "tanh"; "arcsin"; "arccos"; "arctan"; "arccosh"; "arcsinh"; "arctanh";
   "abs"; "log10"; "floor"; "ceil"; "arctan2"; "sum"; "prod"; "min";
   "max"]%string.

(** A name that a query reads as the name of a column and nothing
    else: not a numexpr function, and not marked as a local variable. *)
Definition ordinary_name (n : str) : bool :=
  negb (mem n ne_builtins)
  && negb (String.prefix "__pd_eval_local_"%string n).

(** The column a backtick-quoted name denotes.  Comparison with a
    string literal is modelled on columns of dtype object, where it is
    done value by value.  A name that is no column is reported as an
    undefined variable under the identifier it was rewritten to. *)
Definition resolve (d : DataFrame) (n : str) : outcome nat :=
  if forallb safe_name (names d)
     && negb (existsb (String.prefix bqs) (names d))
     && ordinary_name n then
    match positions (clean_column_name n)
                    (map clean_column_name (names d)) 0 with
    | [i] =>
        match nth_error (columns d) i with
        | Some (_, object) => Ok i
        | _ => OutOfModel
        end
    | [] =>
        if mem n axis_names || mem n version_names then OutOfModel
        else Raise (UndefinedVariableError (clean_column_name n))
    | _ => OutOfModel
    end
  else OutOfModel.

Definition cell_is (v : str) (c : cell) : bool :=
  match c with
  | Str x => String.eqb x v
  | _ => false
  end.

(** Before it is parsed the text is cut with [str.splitlines], which
    besides the control characters breaks at U+0085, U+2028 and
    U+2029; a text in several pieces is not a query this program
    means. *)
Fixpoint has_line_break (s : str) : bool :=
  match s with
  | EmptyString => false
  | String a s1 =>
      match s1 with
      | String b s2 =>
          (Ascii.eqb a (chr 194) && Ascii.eqb b (chr 133))
          || (Ascii.eqb a (chr 226) && Ascii.eqb b (chr 128)
              && match s2 with
                 | String c _ => Ascii.eqb c (chr 168) || Ascii.eqb c (chr 169)
                 | EmptyString => false
                 end)
          || has_line_break s1
      | EmptyString => false
      end
  end.

(** [df.query(text)] *)
Definition query (d : DataFrame) (text : str) : outcome DataFrame :=
  if has_line_break text then OutOfModel else
  let? ts := tokenize text in
  let? ps := parse ts in
  let? cs := omap (fun p => let? i := resolve d (fst p) in Ok (i, snd p)) ps in
  Ok (mkDF (columns d)
           (filter (fun r =>
                      existsb (fun c => cell_is (snd c) (nth (fst c) r nan)) cs)
                   (rows d))).

(** ** [summary_total_by] *)

(** What the method returns: one mapping, or a list of them. *)
Inductive result : Type :=
| One (r : record)
| Many (rs : list record).

(** [list.pop()] *)
Definition pop {A} (l : list A) : option (A * list A) :=
  match rev l with
  | [] => None
  | x :: r => Some (x, rev r)
  end.

(** The list [data] that the two branches of the method build. *)
Definition aggregate (g : groups) (filters : list (str * str))
    (d : DataFrame) : outcome (list record) :=
  if Nat.eqb (List.length filters) 0 then groupby_sum_records g d
  else
    let? filtered_data := query d (query_text filters) in
    groupby_sum_records g filtered_data.

Definition summary_total_by (g : groups) (filters : list (str * str))
  : M result :=
  d <- get_df ;;
  data <- lift (aggregate g filters d) ;;
  if Nat.eqb (List.length data) 1 then
    match pop data with
    | Some (r, _) => ret (One r)
    | None => lift (Raise IndexError)
    end
  else ret (Many data).

(** ** [urllib.parse.unquote] *)

(** [unquote_to_bytes] on a run of ASCII characters: [%xx] with two
    hexadecimal digits is the byte, any other [%] stays. *)
Fixpoint unquote_to_bytes (s : str) : str :=
  match s with
  | EmptyString => EmptyString
  | String c s' =>
      if Ascii.eqb c (chr 37) then
        match s' with
        | String h1 (String h2 s2) =>
            match hex_val h1, hex_val h2 with
            | Some a, Some b => String (chr (16 * a + b)) (unquote_to_bytes s2)
            | _, _ => String c (unquote_to_bytes s')
            end
        | _ => String c (unquote_to_bytes s')
        end
      else String c (unquote_to_bytes s')
  end.

(** U+FFFD, the replacement character. *)
Definition fffd : str := String (chr 239) (String (chr 191) (str1 (chr 189))).

Definition is_cont (c : ascii) : bool := in_range 128 191 c.

(** The second byte of a three-byte and of a four-byte sequence. *)
Definition second3 (b1 b2 : ascii) : bool :=
  is_cont b2
  && negb (Ascii.eqb b1 (chr 224) && (nat_of_ascii b2 <? 160)%nat)
  && negb (Ascii.eqb b1 (chr 237) && (160 <=? nat_of_ascii b2)%nat).

Definition second4 (b1 b2 : ascii) : bool :=
  is_cont b2
  && negb (Ascii.eqb b1 (chr 240) && (nat_of_ascii b2 <? 144)%nat)
  && negb (Ascii.eqb b1 (chr 244) && (144 <=? nat_of_ascii b2)%nat).

(** [bytes.decode('utf-8', 'replace')], the result again in UTF-8:
    each ill-formed stretch turns into one replacement character. *)
Fixpoint decode_replace (s : str) : str :=
  match s with
  | EmptyString => EmptyString
  | String b1 s1 =>
      let n1 := nat_of_ascii b1 in
      if (n1 <? 128)%nat then String b1 (decode_replace s1)
      else if (n1 <? 194)%nat then (fffd ++ decode_replace s1)%string
      else if (n1 <? 224)%nat then
        match s1 with
        | EmptyString => fffd
        | String b2 s2 =>
            if is_cont b2 then String b1 (String b2 (decode_replace s2))
            else (fffd ++ decode_replace s1)%string
        end
      else if (n1 <? 240)%nat then
        match s1 with
        | EmptyString => fffd
        | String b2 s2 =>
            if second3 b1 b2 then
              match s2 with
              | EmptyString => fffd
              | String b3 s3 =>
                  if is_cont b3 then
                    String b1 (String b2 (String b3 (decode_replace s3)))
                  else (fffd ++ decode_replace s2)%string
              end
            else (fffd ++ decode_replace s1)%string
        end
      else if (n1 <? 245)%nat then
        match s1 with
        | EmptyString => fffd
        | String b2 s2 =>
            if second4 b1 b2 then
              match s2 with
              | EmptyString => fffd
              | String b3 s3 =>
                  if is_cont b3 then
                    match s3 with
                    | EmptyString => fffd
                    | String b4 s4 =>
                        if is_cont b4 then
                          String b1 (String b2 (String b3
                            (String b4 (decode_replace s4))))
                        else (fffd ++ decode_replace s3)%string
                    end
                  else (fffd ++ decode_replace s2)%string
              end
            else (fffd ++ decode_replace s1)%string
        end
      else (fffd ++ decode_replace s1)%string
  end.

Definition is_ascii (c : ascii) : bool := (nat_of_ascii c <? 128)%nat.

(** The text split into maximal runs of ASCII and of other bytes. *)
Fixpoint ascii_runs (s : str) : list (bool * str) :=
  match s with
  | EmptyString => []
  | String c s' =>
      match ascii_runs s' with
      | (b, r) :: rest =>
          if Bool.eqb (is_ascii c) b then (b, String c r) :: rest
          else (is_ascii c, str1 c) :: (b, r) :: rest
      | [] => [(is_ascii c, str1 c)]
      end
  end.

(** [unquote(string)]: the escapes of every ASCII run are decoded, and
    the bytes they give are read as UTF-8. *)
Definition unquote (s : str) : str :=
  String.concat EmptyString
    (map (fun r : bool * str =>
            if fst r then decode_replace (unquote_to_bytes (snd r))
            else snd r)
         (ascii_runs s)).

(** ** The controller *)

Definition kabupaten_kota : str := "nama_kabupaten/kota"%string.
Definition kecamatan : str := "nama_kecamatan"%string.
Definition kelurahan : str := "nama_kelurahan"%string.

(** The methods of [Controller]; each runs on [self.data]. *)
Module Controller.

Definition display_raw : M (list record) := select_all.

Definition summary : M result :=
  summary_total_by (ByName "nama_provinsi"%string) [].

Definition summary_cities : M result :=
  gs <- get_column_names default_from kabupaten_kota ;;
  summary_total_by (ByNames gs) [].

Definition summary_districts (cities : list str) : M result :=
  gs <- get_column_names default_from kecamatan ;;
  let filters := map (fun city => (kabupaten_kota, unquote city)) cities in
  summary_total_by (ByNames gs) filters.

Definition summary_sub_districts (cities districts : list str)
  : M result :=
  gs <- get_column_names default_from kelurahan ;;
  let filters := map (fun city => (kabupaten_kota, unquote city)) cities in
  let filters :=
    filters ++ map (fun district => (kecamatan, unquote district))
                   districts in
  summary_total_by (ByNames gs) filters.

Definition summary_city (city : str) : M result :=
  summary_total_by (ByName kabupaten_kota) [(kabupaten_kota, unquote city)].

Definition summary_district (district : str) : M result :=
  summary_total_by (ByName kecamatan) [(kecamatan, unquote district)].

Definition summary_sub_district (sub_district : str) : M result :=
  summary_total_by (ByName kelurahan) [(kelurahan, unquote sub_district)].

End Controller.

(** ** The endpoints *)

(** What a handler hands to the framework for the response body. *)
Inductive body : Type :=
| Records (rs : list record)
| Summary (s : result).

Definition fmap {A B} (f : A -> B) (m : M A) : M B :=
  a <- m ;; ret (f a).

(** The GET handlers of [app], by path.  The framework passes path and
    query values as strings; the handlers run on the one [controller]
    of the process. *)
Module app.

Definition display_raw : M body := fmap Records Controller.display_raw.

Definition summary : M body := fmap Summary Controller.summary.

Definition summary_cities : M body := fmap Summary Controller.summary_cities.

Definition summary_districts (cities : list str) : M body :=
  fmap Summary (Controller.summary_districts cities).

Definition summary_sub_districts (cities districts : list str) : M body :=
  fmap Summary (Controller.summary_sub_districts cities districts).

Definition summary_city (city : str) : M body :=
  fmap Summary (Controller.summary_city city).

Definition summary_district (district : str) : M body :=
  fmap Summary (Controller.summary_district district).

Definition summary_sub_district (sub_district : str) : M body :=
  fmap Summary (Controller.summary_sub_district sub_district).

End app.

(** ** A small table with the layout of the source file *)

Definition f64 (s : bool) (m : positive) (e : Z) : cell :=
  Float (S754_finite s m e).

Definition sample_csv : DataFrame :=
  mkDF [("tahun", int64); ("nama_provinsi", object);
        ("nama_kabupaten/kota", object); ("nama_kecamatan", object);
        ("nama_kelurahan", object); ("tidak/blm_sekolah", int64);
        ("strata_II", float64); ("strata_III", float64)]%string
       [[Int 2014; Str "PROVINSI DKI JAKARTA"; Str "JAKARTA UTARA";
         Str "PENJARINGAN"; Str "PLUIT"; Int 100; f64 false 5 0; nan];
        [Int 2014; Str "PROVINSI DKI JAKARTA"; Str "JAKARTA PUSAT";
         Str "GAMBIR"; Str "CIDENG"; Int 7; nan; f64 false 3 (-1)];
        [Int 2014; Str "PROVINSI DKI JAKARTA"; Str "JAKARTA UTARA";
         Str "KOJA"; Str "LAGOA"; Int 20; f64 false 1 1; f64 false 1 0];
        [Int 2014; Str "PROVINSI DKI JAKARTA"; Str "JAKARTA BARAT";
         Str "KOJA"; Str "TUGU"; Int 1; nan; nan]]%string.

Definition sample_fs (p : str) : outcome DataFrame :=
  if String.eqb p "data-dki-menurut-pendidikan-tahun-2014.csv"%string
  then Ok sample_csv else Raise OSError.

Definition sample : DKIEducationData :=
  match __init__ sample_fs with
  | Ok self => self
  | _ => mkData EmptyString (mkDF [] [])
  end.

(** ** The calls of a running process *)

(** After construction the object is reached only through its three
    query methods. *)
Inductive call : Type :=
| SelectAll
| GetColumnNames (from_ until : str)
| SummaryTotalBy (g : groups) (filters : list (str * str)).

Inductive answer : Type :=
| ARecords (rs : list record)
| ANames (l : list str)
| AResult (s : result).

Definition run (c : call) : M answer :=
  match c with
  | SelectAll => fmap ARecords select_all
  | GetColumnNames a b => fmap ANames (get_column_names a b)
  | SummaryTotalBy g f => fmap AResult (summary_total_by g f)
  end.

(** The object after a sequence of calls, whatever each one produced. *)
Fixpoint after (cs : list call) (self : DKIEducationData)
  : DKIEducationData :=
  match cs with
  | [] => self
  | c :: cs' => after cs' (snd (run c self))
  end.

(** ** Properties of frames *)

Definition is_int (c : cell) : bool :=
  match c with
  | Int _ => true
  | _ => false
  end.

Definition no_nulls (d : DataFrame) : bool :=
  forallb (forallb (fun c => negb (isna c))) (rows d).

Definition dtypes_object_or_int64 (d : DataFrame) : bool :=
  forallb (fun c => dtype_eqb (snd c) object || dtype_eqb (snd c) int64)
          (columns d).

Definition numeric_cells_int (d : DataFrame) : bool :=
  forallb (fun r =>
             forallb (fun p => dtype_eqb (snd (fst p)) object
                               || is_int (snd p))
                     (combine (columns d) r))
          (rows d).

(** What [__clean] leaves behind. *)
Definition cleaned (d : DataFrame) : bool :=
  negb (mem "tahun"%string (names d))
  && no_nulls d && dtypes_object_or_int64 d && numeric_cells_int d.

(** Every row has one cell per column. *)
Definition rectangular (d : DataFrame) : bool :=
  forallb (fun r => Nat.eqb (List.length r) (List.length (columns d)))
          (rows d).

(** ** Reading summary records *)

Definition records_of (s : result) : list record :=
  match s with
  | One r => [r]
  | Many rs => rs
  end.

(** [r[k]] *)
Fixpoint field (r : record) (k : str) : option cell :=
  match r with
  | [] => None
  | (n, c) :: r' => if String.eqb n k then Some c else field r' k
  end.

Definition int_of (c : cell) : Z :=
  match c with
  | Int z => z
  | _ => 0
  end.

Definition field_int (r : record) (k : str) : Z :=
  match field r k with
  | Some c => int_of c
  | None => 0
  end.

(** The sum of field [m] over summary records, and of the column at
    position [i] over the whole frame. *)
Definition field_total (m : str) (rs : list record) : Z :=
  zsum (map (fun r => field_int r m) rs).

Definition column_total (d : DataFrame) (i : nat) : Z :=
  zsum (map (fun r => int_of (nth i r nan)) (rows d)).

(** The values of the group fields of a summary record. *)
Definition record_key (keys : list str) (r : record) : list cell :=
  map (fun k => match field r k with Some c => c | None => nan end) keys.

Definition key_lt (k1 k2 : list cell) : Prop := key_compare k1 k2 = Lt.

(** The keys of the rows in the order in which the rows first show
    them. *)
Fixpoint first_seen (ks : list (list cell)) (seen : list (list cell))
  : list (list cell) :=
  match ks with
  | [] => []
  | k :: ks' =>
      if existsb (key_eqb k) seen then first_seen ks' seen
      else k :: first_seen ks' (k :: seen)
  end.

(** ** A table whose header is in alphabetical order *)

Definition sorted_csv : DataFrame :=
  mkDF [("tahun", int64); ("nama_provinsi", object);
        ("strata_II", int64)]%string
       [[Int 2014; Str "PROVINSI DKI JAKARTA"; Int 3]]%string.

Definition sorted_sample : DKIEducationData :=
  match __init__ (fun _ => Ok sorted_csv) with
  | Ok self => self
  | _ => mkData EmptyString (mkDF [] [])
  end.

(** ** A table grouped by one of its measure columns *)

Definition measures_csv : DataFrame :=
  mkDF [("tahun", int64); ("nama_kabupaten/kota", object);
        ("tamat_sd/sederajat", int64); ("sltp/sederajat", int64)]%string
       [[Int 2014; Str "JAKARTA UTARA"; Int 5; Int 1];
        [Int 2014; Str "JAKARTA UTARA"; Int 5; Int 2];
        [Int 2014; Str "JAKARTA PUSAT"; Int 7; Int 3]]%string.

Definition measures_sample : DKIEducationData :=
  match __init__ (fun _ => Ok measures_csv) with
  | Ok self => self
  | _ => mkData EmptyString (mkDF [] [])
  end.

(** ** Filters read as the docstring has them *)

(** The predicate "field equals value" on a record, and a list of them
    joined by "or". *)
Definition holds (f : str * str) (r : record) : bool :=
  match field r (fst f) with
  | Some c => cell_is (snd f) c
  | None => false
  end.

Definition matches (filters : list (str * str)) (r : record) : bool :=
  existsb (fun f => holds f r) filters.

(** The rows of the frame whose record matches. *)
Definition matching_rows (filters : list (str * str)) (d : DataFrame)
  : list (list cell) :=
  filter (fun r => matches filters (combine (names d) r)) (rows d).

Fixpoint all_chars (p : ascii -> bool) (s : str) : bool :=
  match s with
  | EmptyString => true
  | String c s' => p c && all_chars p s'
  end.

(** A value of printable ASCII characters without quote or
    backslash. *)
Definition plain_char (c : ascii) : bool := literal_char c && is_ascii c.

Definition plain_value (v : str) : bool := all_chars plain_char v.

(** A frame whose header the expression language can name without
    ambiguity. *)
Definition queryable (d : DataFrame) : bool :=
  forallb safe_name (names d)
  && negb (existsb (String.prefix bqs) (names d))
  && negb (has_dup (map clean_column_name (names d))).

(** The tokens of the text built from a list of filters. *)
Fixpoint tokens_of (filters : list (str * str)) : list token :=
  match filters with
  | [] => []
  | [f] => [TName (fst f); TEq; TStr (snd f)]
  | f :: fs => TName (fst f) :: TEq :: TStr (snd f) :: TOr :: tokens_of fs
  end.

Fixpoint steps_of (filters : list (str * str)) : nat :=
  match filters with
  | [] => 0
  | [f] => 5
  | f :: fs => 8 + steps_of fs
  end.

(** A value with an escape sequence in it: [JAKARTA\x20UTARA], sixteen
    characters. *)
Definition escaped_utara : str :=
  ("JAKARTA" ++ str1 backslash ++ "x20UTARA")%string.

Definition starts_with (c : ascii) (s : str) : bool :=
  match s with
  | String x _ => Ascii.eqb x c
  | EmptyString => false
  end.

(** A filter the text carries unchanged: a column of strings of the
    frame, and a plain value. *)
Definition plain_filter (d : DataFrame) (f : str * str) : Prop :=
  In (fst f, object) (columns d)
  /\ ordinary_name (fst f) = true
  /\ plain_value (snd f) = true.

(** The cells of a row of the source table that stay when ['tahun']
    goes. *)
Definition kept_cells (raw : DataFrame) (r : list cell) : list cell :=
  select (map (fun n => negb (mem n ["tahun"%string])) (names raw)) r.


(** ** Tables on which every grouped sum is determined *)

(** Every cell is a string or an integer, as in a cleaned table read
    from a CSV file. *)
Definition strings_or_ints (d : DataFrame) : bool :=
  forallb (forallb groupable) (rows d).

Definition column_abs_total (d : DataFrame) (i : nat) : Z :=
  zsum (map (fun r => Z.abs (int_of (nth i r nan))) (rows d)).

(** The magnitudes of every numeric column add up to at most 2^53. *)
Definition within_exact (d : DataFrame) : bool :=
  forallb (fun c => dtype_eqb (snd (snd c)) object
                    || (column_abs_total d (fst c) <=? exact_limit))
          (indexed (columns d) 0).

(** ** Cleaning, cell by cell *)

(** The header of the source table without ['tahun']. *)
Definition kept_columns (raw : DataFrame) : list (str * dtype) :=
  select (map (fun n => negb (mem n ["tahun"%string])) (names raw))
         (columns raw).

(** Row by row, a string or an integer of the source table is the same
    cell in the cleaned one. *)
Definition values_kept (raw d : DataFrame) : Prop :=
  Forall2 (fun r r' =>
             forall (j : nat) (c : cell),
               (j < List.length (columns d))%nat ->
               nth_error (kept_cells raw r) j = Some c ->
               groupable c = true ->
               nth_error r' j = Some c)
          (rows raw) (rows d).

(** Row by row, a float that is not missing, under a column that is
    not of dtype object, is its integer part in the cleaned table. *)
Definition floats_truncated (raw d : DataFrame) : Prop :=
  Forall2 (fun r r' =>
             forall (j : nat) (f : spec_float) (n : str) (t : dtype),
               nth_error (kept_columns raw) j = Some (n, t) ->
               t <> object ->
               nth_error (kept_cells raw r) j = Some (Float f) ->
               isna (Float f) = false ->
               exists z, float_trunc f = Ok z
                         /\ nth_error r' j = Some (Int z))
          (rows raw) (rows d).

(** ** The object restricted to some of its rows *)

Definition keep_records (p : record -> bool) (self : DKIEducationData)
  : DKIEducationData :=
  mkData (path self)
         (mkDF (columns (df self))
               (filter (fun r => p (combine (names (df self)) r))
                       (rows (df self)))).

(** ** The documented layout of the source file *)

(** The four dimension columns. *)
Definition dimension_names : list str :=
  [default_from; kabupaten_kota; kecamatan; kelurahan].


(** The measure columns of the source table hold numbers: every column
    other than ['tahun'] and the dimension columns was read with a
    dtype that is not object. *)
Definition measures_numeric (raw : DataFrame) : bool :=
  forallb (fun c => String.eqb (fst c) "tahun"
                    || mem (fst c) dimension_names
                    || negb (dtype_eqb (snd c) object))
          (columns raw).

(** The province column, further right the city column, further right
    again the district column. *)
Definition layout (l : list str) : Prop :=
  exists i j k : nat,
    (i < j)%nat /\ (j < k)%nat
    /\ nth_error l i = Some default_from
    /\ nth_error l j = Some kabupaten_kota
    /\ nth_error l k = Some kecamatan.

(** A source table outside that layout: a measure column that was read
    as text. *)
Definition text_measure_csv : DataFrame :=
  mkDF [("tahun"%string, int64); ("nama_provinsi"%string, object);
        ("strata_II"%string, object)]
       [[Int 2014; Str "PROVINSI DKI JAKARTA"; Str "1,200"];
        [Int 2014; Str "PROVINSI DKI JAKARTA"; nan]].

(** ** Theorems *)

Lemma run_keeps_object (c : call) (self : DKIEducationData) :
  snd (run c self) = self.
Proof.
  destruct c as [| a b | g f];
    cbv [run fmap select_all get_column_names summary_total_by
         bind get_df lift ret].
  - reflexivity.
  - destruct (loc_columns (df self) a b); reflexivity.
  - destruct (aggregate g f (df self)) as [data | e | ]; try reflexivity.
    destruct (Nat.eqb (List.length data) 1); try reflexivity.
    destruct (pop data) as [[r rest] | ]; reflexivity.
Qed.

Lemma after_keeps_object (cs : list call) (self : DKIEducationData) :
  after cs self = self.
Proof.
  revert self; induction cs as [| c cs IH]; intros self; simpl.
  - reflexivity.
  - rewrite run_keeps_object. apply IH.
Qed.

(** C9.  Every query -- [select_all], [get_column_names] with any
    boundaries, [summary_total_by] with any groups and filters -- leaves
    the object as it found it, so that a query gives the same answer
    after any sequence of earlier queries as it gives at once. *)
Theorem queries_leave_dataset_unchanged :
  forall (c : call) (self : DKIEducationData),
    snd (run c self) = self
    /\ forall cs : list call,
         after cs self = self
         /\ run c (after cs self) = run c self.
Proof.
  intros c self. split.
  - apply run_keeps_object.
  - intros cs. rewrite after_keeps_object. split; reflexivity.
Qed.

(** *** Cleaning *)

Lemma select_map_filter {A} (p : A -> bool) (l : list A) :
  select (map p l) l = filter p l.
Proof.
  induction l as [| a l IH]; simpl; [reflexivity |].
  destruct (p a); rewrite IH; reflexivity.
Qed.

Lemma mem_In (s : str) (l : list str) : mem s l = true <-> In s l.
Proof.
  unfold mem. rewrite existsb_exists. split.
  - intros [x [Hx He]]. apply String.eqb_eq in He. subst. exact Hx.
  - intros H. exists s. split; [exact H | apply String.eqb_refl].
Qed.

Lemma mem_false_not_In (s : str) (l : list str) :
  mem s l = false <-> ~ In s l.
Proof.
  rewrite <- mem_In. destruct (mem s l); split; intros H;
    try reflexivity; try discriminate; try (intros H'; discriminate).
  exfalso. apply H. reflexivity.
Qed.


Lemma fill0_not_na (col : str * dtype) (c : cell) : isna (fill0 col c) = false.
Proof.
  unfold fill0. destruct (isna c) eqn:E; [| exact E].
  destruct (snd col); reflexivity.
Qed.

Lemma fillna_no_nulls (d : DataFrame) : no_nulls (fillna d) = true.
Proof.
  unfold no_nulls, fillna; simpl.
  apply forallb_forall. intros r Hr.
  apply in_map_iff in Hr. destruct Hr as [r0 [Hr _]]. subst r.
  generalize (columns d). intros cs. revert cs.
  induction r0 as [| c r0 IH]; intros [| col cs]; simpl; try reflexivity.
  rewrite fill0_not_na. simpl. apply IH.
Qed.

Lemma np_int64_not_na (c : cell) (z : Z) : np_int64 c = Ok z -> isna c = false.
Proof.
  destruct c as [s | x | f | b]; simpl; try reflexivity.
  destruct f; simpl; try reflexivity; discriminate.
Qed.

(** One row through [applymap]: no missing cell appears, and every
    cell under a coerced column is an integer. *)
Lemma coerce_row (cols : list str) (cs : list (str * dtype)) :
  forall row row' : list cell,
    (forall c, In c cs -> snd c <> object -> mem (fst c) cols = true) ->
    forallb (fun c => negb (isna c)) row = true ->
    omap2 (coerce cols) cs row = Ok row' ->
    forallb (fun c => negb (isna c)) row' = true
    /\ forallb (fun p => dtype_eqb (snd (fst p)) object || is_int (snd p))
         (combine (map (fun c => if mem (fst c) cols then (fst c, int64)
                                 else c) cs)
                  row') = true.
Proof.
  induction cs as [| col cs IH]; intros row row' Hcols Hna H.
  - simpl in H. inversion H; subst. split; reflexivity.
  - destruct row as [| c row]; simpl in H.
    + inversion H; subst. split; reflexivity.
    + simpl in Hna. apply andb_true_iff in Hna. destruct Hna as [Hc Hrow].
      destruct (coerce cols col c) as [c' | e | ] eqn:Ec; simpl in H;
        try discriminate.
      destruct (omap2 (coerce cols) cs row) as [rest | e | ] eqn:Er;
        simpl in H; try discriminate.
      inversion H; subst; clear H.
      destruct (IH row rest) as [IH1 IH2]; auto.
      { intros c0 Hin. apply Hcols. right. exact Hin. }
      unfold coerce in Ec. simpl.
      destruct (mem (fst col) cols) eqn:Em.
      * destruct (np_int64 c) as [z | e | ] eqn:Ez; simpl in Ec;
          try discriminate.
        inversion Ec; subst. simpl. rewrite IH1, IH2. split; reflexivity.
      * inversion Ec; subst. rewrite Hc, IH1, IH2. simpl.
        destruct (dtype_eqb (snd col) object) eqn:Ed.
        -- split; reflexivity.
        -- exfalso. assert (Hm : mem (fst col) cols = true).
           { apply Hcols; [left; reflexivity |].
             intros Ho. rewrite Ho in Ed. discriminate. }
           rewrite Hm in Em. discriminate.
Qed.

Lemma omap_Ok_In {A B} (f : A -> outcome B) (l : list A) (l' : list B) :
  omap f l = Ok l' -> forall b, In b l' -> exists a, In a l /\ f a = Ok b.
Proof.
  revert l'. induction l as [| a l IH]; intros l' H b Hb; simpl in H.
  - inversion H; subst. contradiction.
  - destruct (f a) as [b0 | e | ] eqn:Ea; simpl in H; try discriminate.
    destruct (omap f l) as [bs | e | ] eqn:El; simpl in H; try discriminate.
    inversion H; subst; clear H. destruct Hb as [Hb | Hb].
    + subst. exists a. split; [left; reflexivity | exact Ea].
    + destruct (IH bs eq_refl b Hb) as [a' [Ha Hf]].
      exists a'. split; [right; exact Ha | exact Hf].
Qed.

Lemma omap_Forall2 {A B} (f : A -> outcome B) (l : list A) (l' : list B) :
  omap f l = Ok l' -> Forall2 (fun a b => f a = Ok b) l l'.
Proof.
  revert l'. induction l as [| a l IH]; intros l' H; simpl in H.
  - inversion H; subst. constructor.
  - destruct (f a) as [b | e | ] eqn:Ea; simpl in H; try discriminate.
    destruct (omap f l) as [bs | e | ] eqn:El; simpl in H; try discriminate.
    inversion H; subst. constructor; [exact Ea | apply IH; reflexivity].
Qed.

Lemma select_dtypes_covers (d : DataFrame) (c : str * dtype) :
  In c (columns d) -> snd c <> object ->
  mem (fst c) (select_dtypes_exclude_object d) = true.
Proof.
  intros Hin Hd. apply mem_In. unfold select_dtypes_exclude_object.
  apply in_map. apply filter_In. split; [exact Hin |].
  destruct (snd c); try reflexivity. contradiction.
Qed.

Lemma applymap_cleans (d d' : DataFrame) :
  no_nulls d = true ->
  applymap_int64 (select_dtypes_exclude_object d) d = Ok d' ->
  names d' = names d /\ no_nulls d' = true
  /\ dtypes_object_or_int64 d' = true /\ numeric_cells_int d' = true.
Proof.
  unfold applymap_int64. intros Hna H.
  set (cols := select_dtypes_exclude_object d) in *.
  destruct (omap (omap2 (coerce cols) (columns d)) (rows d))
    as [rs | e | ] eqn:Ers; simpl in H; try discriminate.
  inversion H; subst; clear H.
  assert (Hrows : forall r', In r' rs ->
            forallb (fun c => negb (isna c)) r' = true
            /\ forallb (fun p => dtype_eqb (snd (fst p)) object
                                 || is_int (snd p))
                 (combine (map (fun c => if mem (fst c) cols
                                         then (fst c, int64) else c)
                               (columns d)) r') = true).
  { intros r' Hr'.
    destruct (omap_Ok_In _ _ _ Ers r' Hr') as [r [Hr Hf]].
    apply (coerce_row cols (columns d) r r').
    - intros c Hc Hd. apply select_dtypes_covers; assumption.
    - unfold no_nulls in Hna.
      apply (proj1 (forallb_forall _ _) Hna r Hr).
    - exact Hf. }
  repeat split.
  - unfold names; simpl. rewrite map_map. apply map_ext_in.
    intros c _. destruct (mem (fst c) cols); reflexivity.
  - unfold no_nulls; simpl. apply forallb_forall.
    intros r' Hr'. apply Hrows. exact Hr'.
  - unfold dtypes_object_or_int64; simpl. apply forallb_forall.
    intros c Hc. apply in_map_iff in Hc. destruct Hc as [c0 [Hc0 Hin]].
    destruct (mem (fst c0) cols) eqn:Em; subst c; simpl.
    + reflexivity.
    + destruct (dtype_eqb (snd c0) object) eqn:Ed; [reflexivity |].
      exfalso. assert (Hm : mem (fst c0) cols = true).
      { apply select_dtypes_covers; [exact Hin |].
        intros Ho. rewrite Ho in Ed. discriminate. }
      rewrite Hm in Em. discriminate.
  - unfold numeric_cells_int; simpl. apply forallb_forall.
    intros r' Hr'. apply Hrows. exact Hr'.
Qed.



Lemma Forall2_through_map {A B C} (G : A -> B) (R : B -> C -> Prop)
    (l : list A) :
  forall rs, Forall2 R (map G l) rs -> Forall2 (fun a c => R (G a) c) l rs.
Proof.
  induction l as [| a l IH]; intros rs H; inversion H; subst;
    constructor; auto.
Qed.


(** *** The shape of the table survives cleaning *)

Lemma select_length {A B} (mask : list bool) :
  forall (l : list A) (m : list B),
    List.length l = List.length m ->
    List.length (select mask l) = List.length (select mask m).
Proof.
  induction mask as [| b mask IH]; intros [| x l] [| y m] H;
    simpl in *; try reflexivity; try discriminate.
  destruct b; simpl; [f_equal |]; apply IH; lia.
Qed.

Lemma map2_length {A B C} (f : A -> B -> C) :
  forall (l : list A) (m : list B),
    List.length l = List.length m ->
    List.length (map2 f l m) = List.length l.
Proof.
  induction l as [| x l IH]; intros [| y m] H; simpl in *;
    try reflexivity; try discriminate.
  f_equal. apply IH. lia.
Qed.

Lemma omap2_length {A B C} (f : A -> B -> outcome C) :
  forall (l : list A) (m : list B) (r : list C),
    List.length l = List.length m ->
    omap2 f l m = Ok r -> List.length r = List.length l.
Proof.
  induction l as [| x l IH]; intros [| y m] r H Hr; simpl in *;
    try discriminate.
  - inversion Hr. reflexivity.
  - destruct (f x y) as [c | e | ]; cbn [obind] in Hr; try discriminate.
    destruct (omap2 f l m) as [cs | e | ] eqn:E; cbn [obind] in Hr;
      try discriminate.
    inversion Hr; subst. simpl. f_equal. apply (IH m cs); [lia | exact E].
Qed.

Lemma select_names (mask : list bool) (cs : list (string * dtype)) :
  map fst (select mask cs) = select mask (map fst cs).
Proof.
  revert cs. induction mask as [| b mask IH]; intros [| c cs]; simpl;
    try reflexivity.
  destruct b; simpl; rewrite IH; reflexivity.
Qed.

(** A source table with one cell per column in every row and no
    repeated column name gives a cleaned table of the same kind. *)
Lemma clean_keeps_shape (self self' : DKIEducationData) :
  __clean self = (Ok tt, self') ->
  rectangular (df self) = true -> NoDup (names (df self)) ->
  rectangular (df self') = true /\ NoDup (names (df self')).
Proof.
  cbv [__clean bind get_df set_df lift ret].
  destruct (drop ["tahun"%string] (df self)) as [d1 | e | ] eqn:Ed;
    try discriminate.
  cbn [df].
  destruct (applymap_int64 (select_dtypes_exclude_object (fillna d1))
              (fillna d1)) as [d3 | e | ] eqn:Ea; try discriminate.
  intros H Hrect Hnd. inversion H; subst; clear H. cbn [df].
  destruct (applymap_cleans (fillna d1) d3 (fillna_no_nulls d1) Ea)
    as [Hn _].
  unfold drop in Ed. destruct (find _ _); [discriminate |].
  inversion Ed; subst d1; clear Ed.
  set (keep := map (fun n => negb (mem n ["tahun"%string])) (names (df self)))
    in *.
  split.
  - unfold applymap_int64 in Ea. cbn [fillna columns rows] in Ea.
    destruct (omap _ _) as [rs | e | ] eqn:Ers; cbn [obind] in Ea;
      try discriminate.
    inversion Ea; subst d3; clear Ea Hn.
    unfold rectangular. cbn [rows columns]. rewrite length_map.
    apply forallb_forall. intros r' Hr'. apply Nat.eqb_eq.
    destruct (omap_Ok_In _ _ _ Ers r' Hr') as [r1 [Hr1 Hf]].
    rewrite map_map in Hr1. apply in_map_iff in Hr1.
    destruct Hr1 as [r [Hr1 Hr]]. subst r1.
    assert (Hlen : List.length (select keep r)
                   = List.length (select keep (columns (df self)))).
    { apply select_length. apply Nat.eqb_eq.
      apply (proj1 (forallb_forall _ _) Hrect r Hr). }
    apply (omap2_length _ _ _ _) in Hf; [exact Hf |].
    rewrite map2_length; [reflexivity | symmetry; exact Hlen].
  - rewrite Hn. unfold names. cbn [fillna columns].
    rewrite select_names. unfold keep, names.
    rewrite select_map_filter. apply NoDup_filter. exact Hnd.
Qed.

(** *** The shape of what [summary_total_by] returns *)

(** C3.  Whatever the groups and filters: when the aggregation yields
    exactly one summary record the method returns that record itself,
    and when it yields none or several it returns the list. *)
Theorem single_record_returned_bare :
  forall (g : groups) (f : list (str * str)) (self : DKIEducationData)
         (data : list record),
    aggregate g f (df self) = Ok data ->
    (forall r, data = [r] -> summary_total_by g f self = (Ok (One r), self))
    /\ (List.length data <> 1%nat ->
        summary_total_by g f self = (Ok (Many data), self)).
Proof.
  intros g f self data H.
  cbv [summary_total_by bind get_df lift ret]. rewrite H. split.
  - intros r Hr. subst data. reflexivity.
  - intros Hlen. apply Nat.eqb_neq in Hlen. rewrite Hlen. reflexivity.
Qed.

Lemma single_record_returned_bare_witness :
  summary_total_by (ByName kabupaten_kota)
    [(kabupaten_kota, "JAKARTA UTARA"%string)] sample
  = (Ok (One [("nama_kabupaten/kota", Str "JAKARTA UTARA");
              ("tidak/blm_sekolah", Int 120); ("strata_II", Int 7);
              ("strata_III", Int 1)]%string), sample).
Proof.
  apply (proj1 (single_record_returned_bare (ByName kabupaten_kota)
                  [(kabupaten_kota, "JAKARTA UTARA"%string)] sample
                  [[("nama_kabupaten/kota", Str "JAKARTA UTARA");
                    ("tidak/blm_sekolah", Int 120); ("strata_II", Int 7);
                    ("strata_III", Int 1)]%string]
                  ltac:(vm_compute; reflexivity))).
  reflexivity.
Defined.

(** *** The single-city endpoint *)

(** C8.  For every path value the handler of [/city/{city}] produces
    what [summary_total_by] produces on the group field
    ['nama_kabupaten/kota'] with the one filter on that field and the
    percent-decoded value; [JAKARTA%20UTARA] decodes to
    [JAKARTA UTARA], so a single mapping from the direct call is the
    single mapping of the endpoint. *)
Theorem city_endpoint_is_direct_summary :
  forall (city : str) (self : DKIEducationData),
    app.summary_city city self
    = fmap Summary
        (summary_total_by (ByName "nama_kabupaten/kota"%string)
           [("nama_kabupaten/kota"%string, unquote city)]) self
    /\ unquote "JAKARTA%20UTARA"%string = "JAKARTA UTARA"%string
    /\ forall r : record,
         summary_total_by (ByName "nama_kabupaten/kota"%string)
           [("nama_kabupaten/kota", "JAKARTA UTARA")]%string self
         = (Ok (One r), self) ->
         app.summary_city "JAKARTA%20UTARA"%string self
         = (Ok (Summary (One r)), self).
Proof.
  intros city self. split; [reflexivity | split; [reflexivity |]].
  intros r H.
  unfold app.summary_city, Controller.summary_city, fmap, bind.
  change (unquote "JAKARTA%20UTARA"%string) with "JAKARTA UTARA"%string.
  unfold kabupaten_kota. rewrite H. reflexivity.
Qed.

Lemma city_endpoint_is_direct_summary_witness :
  app.summary_city "JAKARTA%20UTARA"%string sample
  = (Ok (Summary (One [("nama_kabupaten/kota", Str "JAKARTA UTARA");
                       ("tidak/blm_sekolah", Int 120);
                       ("strata_II", Int 7);
                       ("strata_III", Int 1)]%string)), sample).
Proof.
  apply (proj2 (proj2 (city_endpoint_is_direct_summary EmptyString sample))).
  vm_compute. reflexivity.
Defined.

(** *** Label slices *)

Lemma positions_absent (s : str) (l : list str) (i : nat) :
  ~ In s l -> positions s l i = [].
Proof.
  revert i. induction l as [| x l IH]; intros i H; simpl; [reflexivity |].
  destruct (String.eqb s x) eqn:E.
  - apply String.eqb_eq in E. subst. exfalso. apply H. left; reflexivity.
  - apply IH. intros Hin. apply H. right; exact Hin.
Qed.

Lemma positions_unique (s : str) (l : list str) :
  NoDup l -> forall i k, nth_error l k = Some s ->
  positions s l i = [(i + k)%nat].
Proof.
  induction 1 as [| x l Hx Hnd IH]; intros i k Hk.
  - destruct k; discriminate.
  - destruct k as [| k]; simpl in *.
    + inversion Hk; subst. rewrite String.eqb_refl.
      rewrite positions_absent by exact Hx. rewrite Nat.add_0_r. reflexivity.
    + destruct (String.eqb s x) eqn:E.
      * apply String.eqb_eq in E. subst. exfalso. apply Hx.
        apply (nth_error_In _ _ Hk).
      * rewrite (IH (S i) k Hk). f_equal. lia.
Qed.

(** C6.  When both boundaries are columns, at positions [i] and [j] of
    the header, [get_column_names] returns the header from position
    [i] to position [j], both included, in header order: a name is
    returned exactly when it sits at a position between the two.  So
    from ['nama_provinsi'] to ['nama_kabupaten/kota'] it returns these
    and the columns the table has between them. *)
Theorem column_names_between_boundaries :
  forall (self : DKIEducationData) (from_ until : str) (i j : nat),
    NoDup (names (df self)) ->
    nth_error (names (df self)) i = Some from_ ->
    nth_error (names (df self)) j = Some until ->
    exists l : list str,
      get_column_names from_ until self = (Ok l, self)
      /\ l = firstn (S j - i) (skipn i (names (df self)))
      /\ forall k c, nth_error l k = Some c <->
                     ((i + k <= j)%nat
                      /\ nth_error (names (df self)) (i + k) = Some c).
Proof.
  intros self from_ until i j Hnd Hi Hj.
  exists (firstn (S j - i) (skipn i (names (df self)))).
  split; [| split; [reflexivity |]].
  - cbv [get_column_names bind get_df lift loc_columns get_slice_bound].
    rewrite (positions_unique from_ _ Hnd 0 i Hi).
    rewrite (positions_unique until _ Hnd 0 j Hj).
    reflexivity.
  - intros k c. rewrite nth_error_firstn, nth_error_skipn.
    destruct (Nat.ltb_spec k (S j - i)).
    + split; [intros H0; split; [lia | exact H0] | intros [_ H0]; exact H0].
    + split; [discriminate | intros [H0 _]; lia].
Qed.

Lemma column_names_between_boundaries_witness :
  exists l : list str,
    get_column_names "nama_provinsi"%string "nama_kabupaten/kota"%string
      sample
    = (Ok l, sample)
    /\ l = firstn (S 1 - 0) (skipn 0 (names (df sample)))
    /\ forall k c, nth_error l k = Some c <->
                   ((0 + k <= 1)%nat
                    /\ nth_error (names (df sample)) (0 + k)%nat = Some c).
Proof.
  apply (column_names_between_boundaries sample
           "nama_provinsi"%string "nama_kabupaten/kota"%string 0%nat 1%nat).
  - vm_compute. repeat constructor; simpl; intuition discriminate.
  - reflexivity.
  - reflexivity.
Defined.

(** *** The order of group keys *)

Lemma str_compare_refl (a : string) : String_as_OT.compare a a = Eq.
Proof.
  destruct (String_as_OT.compare_spec a a) as [_ | H | H];
    try reflexivity; exfalso;
    apply (StrictOrder_Irreflexive (R := String_as_OT.lt) a H).
Qed.

Lemma str_compare_eq (a b : string) : String_as_OT.compare a b = Eq -> a = b.
Proof.
  destruct (String_as_OT.compare_spec a b) as [H | H | H];
    try discriminate. intros _. exact H.
Qed.

Lemma str_compare_antisym (a b : string) :
  String_as_OT.compare b a = CompOpp (String_as_OT.compare a b).
Proof.
  destruct (String_as_OT.compare_spec a b) as [H | H | H];
    destruct (String_as_OT.compare_spec b a) as [H' | H' | H'];
    try reflexivity; exfalso;
    try (red in H; subst;
         apply (StrictOrder_Irreflexive (R := String_as_OT.lt) _ H'));
    try (red in H'; subst;
         apply (StrictOrder_Irreflexive (R := String_as_OT.lt) _ H));
    apply (StrictOrder_Irreflexive (R := String_as_OT.lt) a);
    apply (StrictOrder_Transitive (R := String_as_OT.lt) a b a);
    assumption.
Qed.

Lemma str_lt_trans (a b c : string) :
  String_as_OT.compare a b = Lt -> String_as_OT.compare b c = Lt ->
  String_as_OT.compare a c = Lt.
Proof.
  destruct (String_as_OT.compare_spec a b) as [H | H | H];
    try discriminate.
  destruct (String_as_OT.compare_spec b c) as [H' | H' | H'];
    try discriminate.
  intros _ _.
  assert (Hac : String_as_OT.lt a c)
    by (apply (StrictOrder_Transitive (R := String_as_OT.lt) a b c);
        assumption).
  exact Hac.
Qed.

(** *** A boundary that is no column *)

Lemma str_leb_trans (a b c : string) :
  str_leb a b = true -> str_leb b c = true -> str_leb a c = true.
Proof.
  unfold str_leb, str_ltb. intros H1 H2.
  destruct (String_as_OT.compare c a) eqn:Eca; try reflexivity.
  destruct (String_as_OT.compare b a) eqn:Eba; try discriminate.
  - apply str_compare_eq in Eba. subst b. rewrite Eca in H2. discriminate.
  - assert (Eab : String_as_OT.compare a b = Lt)
      by (rewrite str_compare_antisym, Eba; reflexivity).
    rewrite (str_lt_trans c a b Eca Eab) in H2. discriminate.
Qed.

Lemma increasing_tail (a : string) (l : list string) :
  is_monotonic_increasing (a :: l) = true -> is_monotonic_increasing l = true.
Proof.
  destruct l as [| b l]; [reflexivity |]. cbn [is_monotonic_increasing].
  intros H. apply andb_true_iff in H. apply H.
Qed.

Lemma decreasing_tail (a : string) (l : list string) :
  is_monotonic_decreasing (a :: l) = true -> is_monotonic_decreasing l = true.
Proof.
  destruct l as [| b l]; [reflexivity |]. cbn [is_monotonic_decreasing].
  intros H. apply andb_true_iff in H. apply H.
Qed.

(** In an ascending header every name is at most each name to its
    right. *)
Lemma increasing_nth (l : list string) :
  is_monotonic_increasing l = true ->
  forall (i j : nat) (a b : string),
    (i < j)%nat -> nth_error l i = Some a -> nth_error l j = Some b ->
    str_leb a b = true.
Proof.
  induction l as [| x l IH]; intros H i j a b Hij Ha Hb;
    [destruct i; discriminate |].
  assert (Hhead : forall y, In y l -> str_leb x y = true).
  { clear - H. revert x H. induction l as [| z l IHl]; intros x H y Hy;
      [contradiction |].
    cbn [is_monotonic_increasing] in H. apply andb_true_iff in H.
    destruct H as [Hxz Hrest]. destruct Hy as [Hy | Hy].
    - subst y. exact Hxz.
    - apply (str_leb_trans x z y Hxz). apply (IHl z Hrest y Hy). }
  destruct j as [| j]; [lia |]. cbn [nth_error] in Hb.
  destruct i as [| i].
  - cbn [nth_error] in Ha. inversion Ha; subst a.
    apply Hhead. apply (nth_error_In _ _ Hb).
  - cbn [nth_error] in Ha.
    apply (IH (increasing_tail x l H) i j a b); [lia | exact Ha | exact Hb].
Qed.

(** In a descending header every name is at least each name to its
    right. *)
Lemma decreasing_nth (l : list string) :
  is_monotonic_decreasing l = true ->
  forall (i j : nat) (a b : string),
    (i < j)%nat -> nth_error l i = Some a -> nth_error l j = Some b ->
    str_leb b a = true.
Proof.
  induction l as [| x l IH]; intros H i j a b Hij Ha Hb;
    [destruct i; discriminate |].
  assert (Hhead : forall y, In y l -> str_leb y x = true).
  { clear - H. revert x H. induction l as [| z l IHl]; intros x H y Hy;
      [contradiction |].
    cbn [is_monotonic_decreasing] in H. apply andb_true_iff in H.
    destruct H as [Hzx Hrest]. destruct Hy as [Hy | Hy].
    - subst y. exact Hzx.
    - apply (str_leb_trans y z x); [apply (IHl z Hrest y Hy) | exact Hzx]. }
  destruct j as [| j]; [lia |]. cbn [nth_error] in Hb.
  destruct i as [| i].
  - cbn [nth_error] in Ha. inversion Ha; subst a.
    apply Hhead. apply (nth_error_In _ _ Hb).
  - cbn [nth_error] in Ha.
    apply (IH (decreasing_tail x l H) i j a b); [lia | exact Ha | exact Hb].
Qed.

(** A header of the documented layout is sorted neither way: the
    province name is greater than the city name to its right, the city
    name less than the district name to its right. *)
Lemma layout_unsorted (l : list string) :
  layout l ->
  is_monotonic_increasing l = false /\ is_monotonic_decreasing l = false.
Proof.
  intros [i [j [k [Hij [Hjk [Hi [Hj Hk]]]]]]]. split.
  - destruct (is_monotonic_increasing l) eqn:E; [| reflexivity].
    pose proof (increasing_nth l E i j _ _ Hij Hi Hj) as H.
    vm_compute in H. discriminate.
  - destruct (is_monotonic_decreasing l) eqn:E; [| reflexivity].
    pose proof (decreasing_nth l E j k _ _ Hjk Hj Hk) as H.
    vm_compute in H. discriminate.
Qed.

(** C7.  On a table of the documented layout (the province column, to
    its right the city column, to its right the district column), a
    call of [get_column_names] in which at least one of the two
    boundaries is no column returns no list: it raises KeyError, the
    KeyError of [from_] when [from_] is no column, and else that of
    [until]. *)
Theorem absent_boundary_raises_key_error :
  forall (self : DKIEducationData) (from_ until : str),
    NoDup (names (df self)) ->
    layout (names (df self)) ->
    ~ In from_ (names (df self)) \/ ~ In until (names (df self)) ->
    get_column_names from_ until self
    = (Raise (KeyError (if mem from_ (names (df self)) then until
                        else from_)),
       self).
Proof.
  intros self from_ until Hnd Hlay Habs.
  destruct (layout_unsorted _ Hlay) as [Hinc Hdec].
  cbv [get_column_names bind get_df lift loc_columns get_slice_bound
       searchsorted_monotonic].
  rewrite Hinc, Hdec.
  destruct (mem from_ (names (df self))) eqn:Ef.
  - apply mem_In in Ef.
    destruct (In_nth_error _ _ Ef) as [i Hi].
    rewrite (positions_unique from_ _ Hnd 0 i Hi). cbn [obind].
    destruct Habs as [Ha | Ha]; [contradiction |].
    rewrite (positions_absent until _ 0 Ha). reflexivity.
  - apply mem_false_not_In in Ef.
    rewrite (positions_absent from_ _ 0 Ef). reflexivity.
Qed.

Lemma absent_boundary_raises_key_error_witness :
  get_column_names "nama_provinsi"%string "strata_IV"%string sample
  = (Raise (KeyError "strata_IV"%string), sample).
Proof.
  apply (absent_boundary_raises_key_error sample
           "nama_provinsi"%string "strata_IV"%string).
  - vm_compute. repeat constructor; simpl; intuition discriminate.
  - exists 0%nat, 1%nat, 2%nat. repeat split; lia.
  - right. vm_compute. intuition discriminate.
Defined.

(** Outside that layout, on a sorted header, the lookup falls back to
    an insertion point: there the default upper boundary
    ['strata_III'], which is no column of the table below, gives a
    list. *)
Lemma absent_boundary_on_sorted_header_returns :
  ~ In "strata_III"%string (names (df sorted_sample))
  /\ get_column_names "nama_provinsi"%string "strata_III"%string
       sorted_sample
     = (Ok ["nama_provinsi"; "strata_II"]%string, sorted_sample).
Proof.
  split; [vm_compute; intuition discriminate | vm_compute; reflexivity].
Qed.

Lemma cell_compare_refl (a : cell) : cell_compare a a = Eq.
Proof.
  destruct a; simpl; try reflexivity.
  - apply str_compare_refl.
  - apply Z.compare_refl.
Qed.

Lemma cell_compare_antisym (a b : cell) :
  cell_compare b a = CompOpp (cell_compare a b).
Proof.
  destruct a, b; simpl; try reflexivity.
  - apply str_compare_antisym.
  - apply Z.compare_antisym.
Qed.

Lemma cell_compare_eq (a b : cell) :
  groupable a = true -> cell_compare a b = Eq -> a = b.
Proof.
  destruct a, b; simpl; try discriminate; intros _ H.
  - f_equal. apply str_compare_eq. exact H.
  - f_equal. apply Z.compare_eq. exact H.
Qed.

Lemma cell_lt_trans (a b c : cell) :
  cell_compare a b = Lt -> cell_compare b c = Lt -> cell_compare a c = Lt.
Proof.
  destruct a, b, c; simpl; try discriminate; try reflexivity.
  - apply str_lt_trans.
  - rewrite !Z.compare_lt_iff. lia.
Qed.

Lemma key_compare_refl (k : list cell) : key_compare k k = Eq.
Proof.
  induction k as [| a k IH]; simpl; [reflexivity |].
  rewrite cell_compare_refl. exact IH.
Qed.

Lemma key_compare_antisym (k1 k2 : list cell) :
  key_compare k2 k1 = CompOpp (key_compare k1 k2).
Proof.
  revert k2. induction k1 as [| a k1 IH]; intros [| b k2]; simpl;
    try reflexivity.
  rewrite (cell_compare_antisym a b).
  destruct (cell_compare a b); simpl; try reflexivity. apply IH.
Qed.

Lemma key_compare_eq (k1 k2 : list cell) :
  forallb groupable k1 = true -> key_compare k1 k2 = Eq -> k1 = k2.
Proof.
  revert k2. induction k1 as [| a k1 IH]; intros [| b k2]; simpl;
    try discriminate; try reflexivity.
  intros Hg H. apply andb_true_iff in Hg. destruct Hg as [Ha Hk].
  destruct (cell_compare a b) eqn:E; try discriminate.
  apply (cell_compare_eq a b Ha) in E. subst.
  f_equal. apply IH; assumption.
Qed.

Lemma key_lt_trans (k1 k2 k3 : list cell) :
  forallb groupable k1 = true -> forallb groupable k2 = true ->
  key_lt k1 k2 -> key_lt k2 k3 -> key_lt k1 k3.
Proof.
  unfold key_lt. revert k2 k3.
  induction k1 as [| a k1 IH]; intros [| b k2] [| c k3]; simpl;
    try discriminate; try reflexivity.
  intros G1 G2 H12 H23.
  apply andb_true_iff in G1, G2. destruct G1 as [Ga G1], G2 as [Gb G2].
  destruct (cell_compare a b) eqn:Eab; try discriminate.
  - apply (cell_compare_eq a b Ga) in Eab. subst b.
    destruct (cell_compare a c) eqn:Eac; try discriminate;
      try reflexivity.
    apply (IH k2 k3); assumption.
  - destruct (cell_compare b c) eqn:Ebc; try discriminate.
    + apply (cell_compare_eq b c Gb) in Ebc. subst c.
      rewrite Eab. reflexivity.
    + rewrite (cell_lt_trans a b c Eab Ebc). reflexivity.
Qed.

Lemma insert_key_In (k x : list cell) (l : list (list cell)) :
  In x (insert_key k l) -> x = k \/ In x l.
Proof.
  induction l as [| h t IH]; simpl.
  - intros [H | []]. left; symmetry; exact H.
  - destruct (key_compare k h); simpl.
    + intros H. right; exact H.
    + intros [H | H]; [left; symmetry; exact H | right; exact H].
    + intros [H | H]; [right; left; exact H |].
      destruct (IH H) as [H' | H']; [left; exact H' | right; right; exact H'].
Qed.

Lemma insert_key_sorted (k : list cell) (l : list (list cell)) :
  forallb groupable k = true ->
  Forall (fun x => forallb groupable x = true) l ->
  StronglySorted key_lt l -> StronglySorted key_lt (insert_key k l).
Proof.
  intros Gk Gl Hs. induction Hs as [| h t Hs IH Hh]; simpl.
  - constructor; constructor.
  - inversion Gl as [| ? ? Gh Gt]; subst.
    destruct (key_compare k h) eqn:E.
    + constructor; assumption.
    + constructor; [constructor; assumption |].
      constructor; [exact E |].
      rewrite Forall_forall in Hh |- *. intros x Hx.
      apply (key_lt_trans k h x); auto.
    + constructor; [apply IH; exact Gt |].
      rewrite Forall_forall in Hh |- *. intros x Hx.
      destruct (insert_key_In k x t Hx) as [Hk | Hin].
      * subst x. unfold key_lt. rewrite (key_compare_antisym k h), E.
        reflexivity.
      * apply Hh. exact Hin.
Qed.

Lemma insert_key_groupable (k : list cell) (l : list (list cell)) :
  forallb groupable k = true ->
  Forall (fun x => forallb groupable x = true) l ->
  Forall (fun x => forallb groupable x = true) (insert_key k l).
Proof.
  intros Gk Gl. rewrite Forall_forall in Gl |- *. intros x Hx.
  destruct (insert_key_In k x l Hx) as [H | H]; [subst; exact Gk | auto].
Qed.

Lemma sorted_keys_sorted (ks : list (list cell)) :
  Forall (fun x => forallb groupable x = true) ks ->
  StronglySorted key_lt (sorted_keys ks)
  /\ Forall (fun x => forallb groupable x = true) (sorted_keys ks).
Proof.
  induction 1 as [| k ks Gk Gks [IH1 IH2]]; simpl.
  - split; constructor.
  - split.
    + apply insert_key_sorted; assumption.
    + apply insert_key_groupable; assumption.
Qed.

Lemma insert_key_has (k : list cell) (l : list (list cell)) :
  forallb groupable k = true -> In k (insert_key k l).
Proof.
  intros Gk. induction l as [| h t IH]; simpl; [left; reflexivity |].
  destruct (key_compare k h) eqn:E.
  - apply (key_compare_eq k h Gk) in E. subst. left; reflexivity.
  - left; reflexivity.
  - right; exact IH.
Qed.

Lemma insert_key_keeps (k x : list cell) (l : list (list cell)) :
  In x l -> In x (insert_key k l).
Proof.
  induction l as [| h t IH]; simpl; [intros [] |].
  destruct (key_compare k h); simpl; intros [H | H]; auto.
Qed.

Lemma sorted_keys_has (ks : list (list cell)) (k : list cell) :
  Forall (fun x => forallb groupable x = true) ks ->
  In k ks -> In k (sorted_keys ks).
Proof.
  induction 1 as [| k0 ks Gk Gks IH]; simpl; [intros [] |].
  intros [H | H].
  - subst. apply insert_key_has. exact Gk.
  - apply insert_key_keeps. apply IH. exact H.
Qed.

(** *** What a grouped sum is made of *)

Lemma groupby_sum_records_inv (g : groups) (d : DataFrame)
    (data : list record) :
  groupby_sum_records g d = Ok data ->
  exists pos rs,
    omap (locate (names d)) (keys_of g) = Ok pos
    /\ has_dup (keys_of g) = false
    /\ agg_columns (keys_of g) d <> []
    /\ keyed_rows pos (rows d) = Ok rs
    /\ omap (summary_record (keys_of g) (agg_columns (keys_of g) d) rs pos)
            (sorted_keys (map (row_key pos) rs)) = Ok data.
Proof.
  unfold groupby_sum_records.
  destruct (keys_of g) as [| k0 ks] eqn:Ek; [discriminate |].
  rewrite <- Ek.
  destruct (label_array g d); [discriminate |].
  destruct (omap (locate (names d)) (keys_of g)) as [pos | e | ];
    simpl; try discriminate.
  destruct (has_dup (keys_of g)); try discriminate.
  destruct (agg_columns (keys_of g) d) as [| c cs] eqn:Ea;
    [discriminate |].
  rewrite <- Ea.
  destruct (keyed_rows pos (rows d)) as [rs | e | ] eqn:Er;
    simpl; try discriminate.
  intros H. exists pos, rs. repeat split; try assumption; try reflexivity.
  rewrite Ea. discriminate.
Qed.

(** Group fields that are all columns are read as column names. *)
Lemma label_array_known (g : groups) (d : DataFrame) :
  Forall (fun k => In k (names d)) (keys_of g) -> label_array g d = false.
Proof.
  intros H. destruct g as [k | l]; [reflexivity |].
  cbn [label_array keys_of] in *.
  assert (E : forallb (fun k => mem k (names d)) l = true).
  { apply forallb_forall. intros k Hk.
    apply mem_In. apply (proj1 (Forall_forall _ _) H k Hk). }
  rewrite E. apply andb_false_r.
Qed.

Lemma keyed_rows_inv (pos : list nat) (rows0 rs : list (list cell)) :
  keyed_rows pos rows0 = Ok rs ->
  rs = filter (fun r => negb (existsb isna (row_key pos r))) rows0
  /\ Forall (fun k => forallb groupable k = true) (map (row_key pos) rs).
Proof.
  unfold keyed_rows.
  destruct (forallb _ (map (row_key pos) rows0)) eqn:E; [| discriminate].
  intros H. inversion H; subst; clear H. split; [reflexivity |].
  rewrite Forall_forall. intros k Hk.
  apply in_map_iff in Hk. destruct Hk as [r [Hr Hin]]. subst k.
  apply filter_In in Hin. destruct Hin as [Hin Hna].
  assert (Hg : forallb (fun c => groupable c || isna c) (row_key pos r)
               = true).
  { apply (proj1 (forallb_forall _ _) E). apply in_map. exact Hin. }
  apply negb_true_iff in Hna.
  apply forallb_forall. intros c Hc.
  assert (H1 := proj1 (forallb_forall _ _) Hg c Hc).
  cbv beta in H1. destruct (isna c) eqn:En.
  - exfalso. assert (Hex : existsb isna (row_key pos r) = true).
    { apply existsb_exists. exists c. split; assumption. }
    rewrite Hex in Hna. discriminate.
  - rewrite orb_false_r in H1. exact H1.
Qed.

Lemma has_dup_NoDup (l : list string) : has_dup l = false -> NoDup l.
Proof.
  induction l as [| x l IH]; simpl; intros H; constructor.
  - apply orb_false_iff in H. destruct H as [H _].
    apply mem_false_not_In. exact H.
  - apply orb_false_iff in H. destruct H as [_ H]. apply IH. exact H.
Qed.

Lemma field_app_absent (r1 r2 : record) (k : string) :
  ~ In k (map fst r1) -> field (r1 ++ r2) k = field r2 k.
Proof.
  induction r1 as [| [n c] r1 IH]; simpl; intros H; [reflexivity |].
  destruct (String.eqb n k) eqn:E.
  - apply String.eqb_eq in E. subst. exfalso. apply H. left; reflexivity.
  - apply IH. intros Hin. apply H. right; exact Hin.
Qed.

Lemma combine_fst_subset {A B} (l : list A) (m : list B) (x : A) :
  In x (map fst (combine l m)) -> In x l.
Proof.
  revert m. induction l as [| a l IH]; intros [| b m]; simpl;
    try contradiction.
  intros [H0 | H0]; [left; exact H0 | right; apply (IH m); exact H0].
Qed.

(** The group fields of a summary record hold the key of its group. *)
Lemma record_key_combine (keys : list string) (k : list cell) (rest : record) :
  NoDup keys -> List.length k = List.length keys ->
  record_key keys (combine keys k ++ rest) = k.
Proof.
  unfold record_key. intros Hnd. revert k.
  induction Hnd as [| x keys Hx Hnd IH]; intros [| c k] Hlen;
    simpl in *; try discriminate; try reflexivity.
  rewrite String.eqb_refl. f_equal.
  transitivity
    (map (fun y => match field (combine keys k ++ rest) y with
                   | Some c0 => c0
                   | None => nan
                   end) keys).
  - apply map_ext_in. intros y Hy.
    destruct (String.eqb x y) eqn:E; [| reflexivity].
    apply String.eqb_eq in E. subst. contradiction.
  - apply IH. lia.
Qed.

Lemma omap_length {A B} (f : A -> outcome B) (l : list A) (l' : list B) :
  omap f l = Ok l' -> List.length l' = List.length l.
Proof.
  intros H. apply omap_Forall2 in H.
  induction H; simpl; [reflexivity | f_equal; assumption].
Qed.

Lemma summary_record_key (keys : list string)
    (aggs : list (nat * (string * dtype))) (rs : list (list cell))
    (pos : list nat) (k : list cell) (r : record) :
  NoDup keys -> List.length k = List.length keys ->
  summary_record keys aggs rs pos k = Ok r -> record_key keys r = k.
Proof.
  intros Hnd Hlen. unfold summary_record.
  destruct (omap _ aggs) as [sums | e | ]; simpl; try discriminate.
  intros H. inversion H; subst. apply record_key_combine; assumption.
Qed.

Lemma groupby_keys (g : groups) (d : DataFrame) (data : list record) :
  groupby_sum_records g d = Ok data ->
  exists pos rs,
    keyed_rows pos (rows d) = Ok rs
    /\ map (record_key (keys_of g)) data = sorted_keys (map (row_key pos) rs).
Proof.
  intros H. destruct (groupby_sum_records_inv g d data H)
    as [pos [rs [Hpos [Hdup [_ [Hrs Hdata]]]]]].
  exists pos, rs. split; [exact Hrs |].
  apply has_dup_NoDup in Hdup. apply omap_length in Hpos.
  destruct (keyed_rows_inv pos (rows d) rs Hrs) as [_ Hg].
  assert (Hin : forall k, In k (sorted_keys (map (row_key pos) rs)) ->
                          List.length k = List.length (keys_of g)).
  { intros k Hk.
    assert (Hk' : In k (map (row_key pos) rs)).
    { clear - Hk. induction (map (row_key pos) rs) as [| k0 ks IH];
        simpl in Hk; [contradiction |].
      destruct (insert_key_In k0 k _ Hk) as [E | E];
        [left; symmetry; exact E | right; apply IH; exact E]. }
    apply in_map_iff in Hk'. destruct Hk' as [r [Hr _]]. subst k.
    unfold row_key. rewrite length_map. exact Hpos. }
  apply omap_Forall2 in Hdata. clear H Hrs Hg.
  set (K := sorted_keys (map (row_key pos) rs)) in *. clearbody K.
  revert Hin.
  induction Hdata as [| k r ks rs' Hk Hrest IH]; intros Hin; simpl;
    [reflexivity |].
  f_equal.
  - eapply summary_record_key; [exact Hdup | | exact Hk].
    apply Hin. left; reflexivity.
  - apply IH. intros k' Hk'. apply Hin. right; exact Hk'.
Qed.

Lemma summary_records (g : groups) (f : list (string * string))
    (self self' : DKIEducationData) (res : result) :
  summary_total_by g f self = (Ok res, self') ->
  aggregate g f (df self) = Ok (records_of res).
Proof.
  cbv [summary_total_by bind get_df lift ret].
  destruct (aggregate g f (df self)) as [data | e | ]; try discriminate.
  destruct data as [| r [| r' data]]; simpl; intros H; inversion H;
    reflexivity.
Qed.

Lemma aggregate_is_groupby (g : groups) (f : list (string * string))
    (d : DataFrame) (data : list record) :
  aggregate g f d = Ok data ->
  exists d', groupby_sum_records g d' = Ok data
             /\ (f = [] -> d' = d)
             /\ (f <> [] -> query d (query_text f) = Ok d').
Proof.
  unfold aggregate. destruct f as [| p f]; simpl.
  - intros H. exists d. repeat split; auto. intros E; contradiction.
  - destruct (query d (query_text (p :: f))) as [d' | e | ]; simpl;
      try discriminate.
    intros H. exists d'. repeat split; auto. discriminate.
Qed.

(** C10.  Whatever the groups and filters, the summary records come
    in strictly ascending order of the values of their group fields,
    compared field by field; on the sample table this is not the order
    in which the rows first show the cities. *)
Theorem summaries_sorted_by_group_key :
  (forall (g : groups) (f : list (string * string))
          (self : DKIEducationData) (res : result),
     summary_total_by g f self = (Ok res, self) ->
     StronglySorted key_lt (map (record_key (keys_of g)) (records_of res)))
  /\ (exists rs : list record,
        summary_total_by (ByName kabupaten_kota) [] sample
        = (Ok (Many rs), sample)
        /\ map (record_key [kabupaten_kota]) rs
           = [[Str "JAKARTA BARAT"]; [Str "JAKARTA PUSAT"];
              [Str "JAKARTA UTARA"]]%string
        /\ first_seen (map (row_key [1%nat]) (rows (df sample))) []
           = [[Str "JAKARTA UTARA"]; [Str "JAKARTA PUSAT"];
              [Str "JAKARTA BARAT"]]%string).
Proof.
  split.
  - intros g f self res H. apply summary_records in H.
    destruct (aggregate_is_groupby g f (df self) _ H) as [d' [Hg _]].
    destruct (groupby_keys g d' _ Hg) as [pos [rs [Hrs Hk]]].
    rewrite Hk. destruct (keyed_rows_inv pos (rows d') rs Hrs) as [_ Hgr].
    apply sorted_keys_sorted. exact Hgr.
  - eexists. split; [vm_compute; reflexivity |].
    split; vm_compute; reflexivity.
Qed.

Lemma summaries_sorted_by_group_key_witness :
  StronglySorted key_lt
    (map (record_key (keys_of (ByName kabupaten_kota)))
         (records_of
            (Many [[("nama_kabupaten/kota", Str "JAKARTA BARAT");
                    ("tidak/blm_sekolah", Int 1); ("strata_II", Int 0);
                    ("strata_III", Int 0)];
                   [("nama_kabupaten/kota", Str "JAKARTA PUSAT");
                    ("tidak/blm_sekolah", Int 7); ("strata_II", Int 0);
                    ("strata_III", Int 1)];
                   [("nama_kabupaten/kota", Str "JAKARTA UTARA");
                    ("tidak/blm_sekolah", Int 120); ("strata_II", Int 7);
                    ("strata_III", Int 1)]]%string))).
Proof.
  apply (proj1 summaries_sorted_by_group_key (ByName kabupaten_kota) []
           sample).
  vm_compute. reflexivity.
Defined.

(** *** Conservation of totals *)

Lemma zsum_app (l1 l2 : list Z) : zsum (l1 ++ l2) = zsum l1 + zsum l2.
Proof.
  induction l1 as [| a l1 IH]; simpl; [reflexivity | rewrite IH; lia].
Qed.

Lemma zsum_map_add {A} (f g : A -> Z) (l : list A) :
  zsum (map (fun a => f a + g a) l) = zsum (map f l) + zsum (map g l).
Proof.
  induction l as [| a l IH]; simpl; [reflexivity | rewrite IH; lia].
Qed.

Lemma zsum_map_zero {A} (f : A -> Z) (l : list A) :
  (forall a, In a l -> f a = 0) -> zsum (map f l) = 0.
Proof.
  induction l as [| a l IH]; simpl; intros H; [reflexivity |].
  rewrite (H a) by (left; reflexivity). rewrite IH; [reflexivity |].
  intros b Hb. apply H. right; exact Hb.
Qed.

(** In a strictly ascending list of keys a key of the list is matched
    once. *)
Lemma one_group_per_key (k0 : list cell) (x : Z) (K : list (list cell)) :
  StronglySorted key_lt K -> In k0 K ->
  zsum (map (fun k => if key_eqb k0 k then x else 0) K) = x.
Proof.
  induction 1 as [| h t Hs IH Hh]; simpl; [intros [] |].
  rewrite Forall_forall in Hh. intros [E | Hin].
  - subst h. unfold key_eqb at 1. rewrite key_compare_refl.
    rewrite zsum_map_zero; [lia |].
    intros k Hk. unfold key_eqb. rewrite (Hh k Hk). reflexivity.
  - rewrite (IH Hin). unfold key_eqb.
    rewrite (key_compare_antisym h k0), (Hh k0 Hin). simpl. lia.
Qed.

(** The groups split the rows: summing a value group by group is
    summing it over all rows. *)
Lemma groups_partition_rows (v : list cell -> Z) (key : list cell -> list cell)
    (K : list (list cell)) (rs : list (list cell)) :
  StronglySorted key_lt K ->
  (forall r, In r rs -> In (key r) K) ->
  zsum (map (fun k => zsum (map v (filter (fun r => key_eqb (key r) k) rs)))
            K)
  = zsum (map v rs).
Proof.
  intros Hs. induction rs as [| r rs IH]; intros Hin; simpl.
  - apply zsum_map_zero. reflexivity.
  - rewrite <- IH by (intros r' Hr'; apply Hin; right; exact Hr').
    rewrite <- (one_group_per_key (key r) (v r) K Hs)
      by (apply Hin; left; reflexivity).
    rewrite <- zsum_map_add. f_equal. apply map_ext. intros k.
    destruct (key_eqb (key r) k); simpl; lia.
Qed.

Lemma positions_bound (s : string) (l : list string) :
  forall o i, In i (positions s l o) -> (o <= i < o + List.length l)%nat.
Proof.
  induction l as [| x l IH]; intros o i H; simpl in *; [contradiction |].
  destruct (String.eqb s x).
  - destruct H as [H | H]; [subst; lia |]. apply IH in H. lia.
  - apply IH in H. lia.
Qed.

Lemma locate_bound (l : list string) (k : string) (i : nat) :
  locate l k = Ok i -> (i < List.length l)%nat.
Proof.
  unfold locate. destruct (positions k l 0) as [| j [| j' ps]] eqn:E;
    try discriminate.
  intros H. inversion H; subst.
  assert (Hin : In i (positions k l 0)) by (rewrite E; left; reflexivity).
  apply positions_bound in Hin. lia.
Qed.

Lemma filter_all {A} (p : A -> bool) (l : list A) :
  (forall a, In a l -> p a = true) -> filter p l = l.
Proof.
  induction l as [| a l IH]; simpl; intros H; [reflexivity |].
  rewrite (H a) by (left; reflexivity). f_equal.
  apply IH. intros b Hb. apply H. right; exact Hb.
Qed.

(** On a cleaned frame every row has a key. *)
Lemma all_rows_keyed (d : DataFrame) (pos : list nat) :
  no_nulls d = true -> rectangular d = true ->
  (forall i, In i pos -> (i < List.length (columns d))%nat) ->
  filter (fun r => negb (existsb isna (row_key pos r))) (rows d) = rows d.
Proof.
  intros Hna Hrect Hpos. apply filter_all. intros r Hr.
  apply negb_true_iff.
  destruct (existsb isna (row_key pos r)) eqn:E; [| reflexivity].
  exfalso. apply existsb_exists in E. destruct E as [c [Hc Hn]].
  unfold row_key in Hc. apply in_map_iff in Hc.
  destruct Hc as [i [Hi Hin]]. subst c.
  assert (Hlen : List.length r = List.length (columns d)).
  { apply Nat.eqb_eq.
    apply (proj1 (forallb_forall _ _) Hrect r Hr). }
  assert (Hc : In (nth i r nan) r).
  { apply nth_In. rewrite Hlen. apply Hpos. exact Hin. }
  assert (Hr' := proj1 (forallb_forall _ _) Hna r Hr).
  assert (Hc' := proj1 (forallb_forall _ _) Hr' _ Hc).
  cbv beta in Hc'. rewrite Hn in Hc'. discriminate.
Qed.

Lemma ints_int_of (cs : list cell) (zs : list Z) :
  ints cs = Some zs -> zs = map int_of cs.
Proof.
  revert zs. induction cs as [| c cs IH]; intros zs H; simpl in H.
  - inversion H. reflexivity.
  - destruct c; try discriminate.
    destruct (ints cs) as [zs' |]; try discriminate.
    inversion H; subst. simpl. f_equal. apply IH. reflexivity.
Qed.

Lemma group_sum_exact (cs : list cell) (z : Z) :
  group_sum cs = Ok z -> z = zsum (map int_of cs).
Proof.
  unfold group_sum. destruct (ints cs) as [zs |] eqn:E; [| discriminate].
  destruct (_ <=? _); [| discriminate].
  intros H. inversion H; subst. rewrite (ints_int_of cs zs E). reflexivity.
Qed.

Lemma indexed_In {A} (l : list A) :
  forall o i a, nth_error l i = Some a -> In ((o + i)%nat, a) (indexed l o).
Proof.
  induction l as [| x l IH]; intros o i a H; destruct i; simpl in *;
    try discriminate.
  - inversion H; subst. left. f_equal. lia.
  - right. replace (o + S i)%nat with (S o + i)%nat by lia.
    apply IH. exact H.
Qed.

Lemma indexed_names {A} (l : list A) (o : nat) :
  map snd (indexed l o) = l.
Proof.
  revert o. induction l as [| x l IH]; intros o; simpl;
    [reflexivity | rewrite IH; reflexivity].
Qed.

Lemma filter_keeps_distinct {A B} (keep : A -> bool) (proj : A -> B) :
  forall l : list A,
    NoDup (map proj l) -> NoDup (map proj (filter keep l)).
Proof.
  intros l. induction l as [| a l IH]; simpl; intros H; [constructor |].
  inversion H as [| ? ? Hn Hd]; subst.
  destruct (keep a); simpl; [| apply IH; exact Hd].
  constructor; [| apply IH; exact Hd].
  intros Hin. apply Hn. apply in_map_iff in Hin.
  destruct Hin as [b [Hb Hf]]. apply filter_In in Hf.
  rewrite <- Hb. apply in_map. apply Hf.
Qed.

Lemma agg_names_NoDup (keys : list string) (d : DataFrame) :
  NoDup (names d) ->
  NoDup (map (fun c => fst (snd c)) (agg_columns keys d)).
Proof.
  intros H. unfold agg_columns. apply filter_keeps_distinct.
  rewrite <- (map_map snd fst), indexed_names. exact H.
Qed.

(** The field of a summed column holds the sum the column got. *)
Lemma summed_field (G : nat * (string * dtype) -> outcome Z)
    (aggs : list (nat * (string * dtype))) (sums : record)
    (c0 : nat * (string * dtype)) :
  omap (fun c => let? z := G c in Ok (fst (snd c), Int z)) aggs = Ok sums ->
  NoDup (map (fun c => fst (snd c)) aggs) -> In c0 aggs ->
  exists z, G c0 = Ok z /\ field sums (fst (snd c0)) = Some (Int z).
Proof.
  revert sums. induction aggs as [| c aggs IH]; intros sums H Hnd Hin;
    [contradiction |].
  simpl in H. destruct (G c) as [z | e | ] eqn:Ez; simpl in H;
    try discriminate.
  destruct (omap _ aggs) as [rest | e | ] eqn:Er; simpl in H;
    try discriminate.
  inversion H; subst; clear H. inversion Hnd as [| ? ? Hn Hd]; subst.
  destruct Hin as [E | Hin].
  - subst c0. exists z. split; [exact Ez |].
    simpl. rewrite String.eqb_refl. reflexivity.
  - destruct (IH rest eq_refl Hd Hin) as [z0 [Hz0 Hf]].
    exists z0. split; [exact Hz0 |]. simpl.
    destruct (String.eqb (fst (snd c)) (fst (snd c0))) eqn:E; [| exact Hf].
    apply String.eqb_eq in E. exfalso. apply Hn. rewrite E.
    apply (in_map (fun c => fst (snd c))). exact Hin.
Qed.

Lemma summary_record_field (keys : list string)
    (aggs : list (nat * (string * dtype))) (rs : list (list cell))
    (pos : list nat) (k : list cell) (r : record)
    (i : nat) (m : string) (t : dtype) :
  summary_record keys aggs rs pos k = Ok r ->
  NoDup (map (fun c => fst (snd c)) aggs) ->
  In (i, (m, t)) aggs -> ~ In m keys ->
  field_int r m
  = zsum (map (fun r0 => int_of (nth i r0 nan))
              (filter (fun r0 => key_eqb (row_key pos r0) k) rs)).
Proof.
  unfold summary_record. intros H Hnd Hin Hm.
  set (members := filter (fun r0 => key_eqb (row_key pos r0) k) rs) in *.
  destruct (omap _ aggs) as [sums | e | ] eqn:Es; simpl in H;
    try discriminate.
  inversion H; subst; clear H.
  destruct (summed_field
              (fun c => group_sum (map (fun r0 => nth (fst c) r0 nan) members))
              aggs sums (i, (m, t)) Es Hnd Hin) as [z [Hz Hf]].
  simpl in Hz, Hf. unfold field_int.
  rewrite field_app_absent
    by (intros Hc; apply Hm; apply (combine_fst_subset _ _ _ Hc)).
  rewrite Hf. simpl. apply group_sum_exact in Hz.
  rewrite Hz, map_map. reflexivity.
Qed.

(** C1, as the code has it.  On the cleaned table, for a call without
    filters and for every numeric column that is not itself one of the
    group fields, the sum of that field over the returned summary
    records is the sum of the column over all rows of the table. *)
Theorem totals_conserved_under_grouping :
  forall (g : groups) (self : DKIEducationData) (res : result)
         (i : nat) (m : string) (t : dtype),
    cleaned (df self) = true ->
    rectangular (df self) = true ->
    NoDup (names (df self)) ->
    summary_total_by g [] self = (Ok res, self) ->
    nth_error (columns (df self)) i = Some (m, t) ->
    t <> object ->
    ~ In m (keys_of g) ->
    field_total m (records_of res) = column_total (df self) i.
Proof.
  intros g self res i m t Hc Hrect Hnd H Hi Ht Hm.
  apply summary_records in H. unfold aggregate in H. simpl in H.
  destruct (groupby_sum_records_inv g (df self) _ H)
    as [pos [rs [Hpos [_ [_ [Hrs Hdata]]]]]].
  destruct (keyed_rows_inv _ _ _ Hrs) as [Hrs_eq Hg].
  assert (Hna : no_nulls (df self) = true).
  { unfold cleaned in Hc. repeat (apply andb_true_iff in Hc;
      destruct Hc as [Hc ?]). assumption. }
  assert (Hall : rs = rows (df self)).
  { rewrite Hrs_eq. apply all_rows_keyed; try assumption.
    intros j Hj.
    destruct (omap_Ok_In _ _ _ Hpos j Hj) as [k [_ Hk]].
    apply locate_bound in Hk. unfold names in Hk.
    rewrite length_map in Hk. exact Hk. }
  assert (Hagg : In (i, (m, t)) (agg_columns (keys_of g) (df self))).
  { unfold agg_columns. apply filter_In. split.
    - apply (indexed_In _ 0%nat i). exact Hi.
    - simpl. apply andb_true_iff. split.
      + destruct t; try reflexivity. contradiction.
      + apply negb_true_iff. apply mem_false_not_In. exact Hm. }
  assert (Hagn := agg_names_NoDup (keys_of g) (df self) Hnd).
  destruct (sorted_keys_sorted _ Hg) as [HsK _].
  unfold field_total, column_total. rewrite <- Hall.
  rewrite <- (groups_partition_rows (fun r => int_of (nth i r nan))
                (row_key pos) _ rs HsK)
    by (intros r Hr; apply sorted_keys_has;
        [exact Hg | apply in_map; exact Hr]).
  f_equal. apply omap_Forall2 in Hdata.
  clear - Hdata Hagn Hagg Hm.
  induction Hdata as [| k r ks rs' Hk Hrest IH]; simpl; [reflexivity |].
  f_equal; [| exact IH].
  apply (summary_record_field _ _ _ _ _ _ i m t Hk Hagn Hagg Hm).
Qed.

Lemma totals_conserved_under_grouping_witness :
  field_total "tidak/blm_sekolah"
    (records_of
       (Many [[("nama_kabupaten/kota", Str "JAKARTA BARAT");
               ("tidak/blm_sekolah", Int 1); ("strata_II", Int 0);
               ("strata_III", Int 0)];
              [("nama_kabupaten/kota", Str "JAKARTA PUSAT");
               ("tidak/blm_sekolah", Int 7); ("strata_II", Int 0);
               ("strata_III", Int 1)];
              [("nama_kabupaten/kota", Str "JAKARTA UTARA");
               ("tidak/blm_sekolah", Int 120); ("strata_II", Int 7);
               ("strata_III", Int 1)]]%string))
  = column_total (df sample) 4.
Proof.
  apply (totals_conserved_under_grouping (ByName kabupaten_kota) sample
           _ 4%nat "tidak/blm_sekolah"%string int64).
  - vm_compute. reflexivity.
  - vm_compute. reflexivity.
  - vm_compute. repeat constructor; simpl; intuition discriminate.
  - vm_compute. reflexivity.
  - reflexivity.
  - discriminate.
  - vm_compute. intuition discriminate.
Defined.

(** C1 as stated fails for a measure column used as the group field:
    its values come back as the keys of the groups, one per group. *)
Lemma totals_not_conserved_for_group_field :
  nth_error (columns (df measures_sample)) 1
  = Some ("tamat_sd/sederajat"%string, int64)
  /\ summary_total_by (ByName "tamat_sd/sederajat"%string) [] measures_sample
     = (Ok (Many [[("tamat_sd/sederajat", Int 5); ("sltp/sederajat", Int 3)];
                  [("tamat_sd/sederajat", Int 7); ("sltp/sederajat", Int 3)]
                 ]%string), measures_sample)
  /\ field_total "tamat_sd/sederajat"
       [[("tamat_sd/sederajat", Int 5); ("sltp/sederajat", Int 3)];
        [("tamat_sd/sederajat", Int 7); ("sltp/sederajat", Int 3)]]%string
     = 12
  /\ column_total (df measures_sample) 1 = 17.
Proof.
  repeat split; vm_compute; reflexivity.
Qed.

(** *** Filter values inside the query text *)

(** C2 at a value with an escape sequence.  The filter value
    [JAKARTA\x20UTARA] is the field of no record of the sample table,
    yet the query built from it keeps the two rows of
    [JAKARTA UTARA] and the method returns their summary: inside the
    query text the value is read as a string literal. *)
Theorem escaped_filter_value_matches_other_text :
  matching_rows [(kabupaten_kota, escaped_utara)] (df sample) = []
  /\ query_text [(kabupaten_kota, escaped_utara)]
     = ("`nama_kabupaten/kota` == " ++ str1 dquote ++ "JAKARTA"
        ++ str1 backslash ++ "x20UTARA" ++ str1 dquote)%string
  /\ (exists d, query (df sample) (query_text [(kabupaten_kota, escaped_utara)])
                = Ok d
                /\ rows d = matching_rows
                              [(kabupaten_kota, "JAKARTA UTARA"%string)]
                              (df sample)
                /\ List.length (rows d) = 2%nat)
  /\ summary_total_by (ByName kabupaten_kota)
       [(kabupaten_kota, escaped_utara)] sample
     = (Ok (One [("nama_kabupaten/kota", Str "JAKARTA UTARA");
                 ("tidak/blm_sekolah", Int 120); ("strata_II", Int 7);
                 ("strata_III", Int 1)]%string), sample).
Proof.
  split; [vm_compute; reflexivity |].
  split; [vm_compute; reflexivity |].
  split; [| vm_compute; reflexivity].
  eexists. split; [vm_compute; reflexivity |].
  split; vm_compute; reflexivity.
Qed.

(** C4 at a value that is one double quote.  No record of the sample
    table has that city, yet the method does not return an empty list:
    the quote opens a multi-line string in the query text and the
    tokenizer raises.  The same happens through the endpoint at
    [/city/%22]. *)
Theorem quote_filter_value_raises :
  matching_rows [(kabupaten_kota, str1 dquote)] (df sample) = []
  /\ summary_total_by (ByName kabupaten_kota)
       [(kabupaten_kota, str1 dquote)] sample
     = (Raise TokenError, sample)
  /\ app.summary_city "%22"%string sample = (Raise TokenError, sample).
Proof.
  repeat split; vm_compute; reflexivity.
Qed.

(** *** The tokenizer has fuel enough *)

Ltac split_match H :=
  match type of H with
  | context [match ?x with _ => _ end] =>
      destruct x eqn:?; cbn [obind fst snd] in H; try discriminate
  end.

Lemma scan_body_shorter (n : nat) :
  forall (s : string) (r : string * string),
    (String.length s <= n)%nat -> scan_body s = Ok r ->
    (String.length (snd r) < String.length s)%nat.
Proof.
  induction n as [| n IH]; intros s r Hlen H;
    (destruct s as [| c s]; [discriminate |]); cbn [String.length] in *;
    [lia |].
  cbn [scan_body] in H. unfold obind in H.
  repeat split_match H; inversion H; subst; clear H; cbn [snd String.length];
    try lia;
    match goal with
    | E : scan_body ?t = Ok ?p |- _ =>
        apply IH in E; [cbn [snd String.length] in *; lia |
                        cbn [String.length] in *; lia]
    end.
Qed.

Lemma scan_name_shorter (s : string) :
  forall (fresh : bool) (r : string * string),
    scan_name s fresh = Ok r ->
    (String.length (snd r) < String.length s)%nat.
Proof.
  induction s as [| c s IH]; intros fresh r H; [discriminate |].
  cbn [scan_name] in H. unfold obind in H.
  repeat split_match H; inversion H; subst; clear H; cbn [snd String.length];
    try lia;
    match goal with
    | E : scan_name s _ = Ok ?p |- _ =>
        apply IH in E; cbn [snd] in E; lia
    end.
Qed.

Lemma lex_fuel_enough (f : nat) :
  forall (s : string) (f' : nat),
    (String.length s < f)%nat -> (String.length s < f')%nat ->
    lex f s = lex f' s.
Proof.
  induction f as [| f IH]; intros s f' Hf Hf'; [lia |].
  destruct f' as [| f']; [lia |].
  destruct s as [| c s]; [reflexivity |].
  cbn [String.length] in *. cbn [lex].
  destruct (Ascii.eqb c space); [apply IH; lia |].
  destruct (Ascii.eqb c backtick).
  { destruct (scan_name s true) as [r | e | ] eqn:E; cbn [obind];
      try reflexivity.
    apply scan_name_shorter in E.
    destruct (fst r); [reflexivity |].
    rewrite (IH (snd r) f') by lia. reflexivity. }
  destruct (Ascii.eqb c (chr 61)).
  { destruct s as [| c2 s2]; [reflexivity |].
    destruct (Ascii.eqb c2 (chr 61)); [| reflexivity].
    cbn [String.length] in *. rewrite (IH s2 f') by lia. reflexivity. }
  destruct (Ascii.eqb c (chr 124)).
  { destruct s as [| c2 s2].
    - rewrite (IH EmptyString f') by (cbn; lia). reflexivity.
    - destruct (Ascii.eqb c2 (chr 61)); [reflexivity |].
      rewrite (IH (String c2 s2) f') by lia. reflexivity. }
  destruct (Ascii.eqb c dquote); [| reflexivity].
  assert (Hb : (let? r := scan_body s in
                let? ts := lex f (snd r) in Ok (TStr (fst r) :: ts))
               = (let? r := scan_body s in
                  let? ts := lex f' (snd r) in Ok (TStr (fst r) :: ts))).
  { destruct (scan_body s) as [r | e | ] eqn:E; cbn [obind];
      try reflexivity.
    apply (scan_body_shorter (String.length s)) in E; [| lia].
    rewrite (IH (snd r) f') by lia. reflexivity. }
  destruct s as [| q2 [| q3 s3]]; try exact Hb.
  destruct (Ascii.eqb q2 dquote && Ascii.eqb q3 dquote);
    [reflexivity | exact Hb].
Qed.

(** The tokenizer never stops for want of fuel: more of it changes
    nothing. *)
Lemma tokenize_fuel (s : string) (k : nat) :
  lex (S (String.length s) + k) s = tokenize s.
Proof.
  unfold tokenize. apply lex_fuel_enough; lia.
Qed.

(** *** Plain filter values: the text is read back as the filters *)

Lemma append_assoc (a b c : string) :
  ((a ++ b) ++ c = a ++ (b ++ c))%string.
Proof.
  induction a as [| x a IH]; simpl; [reflexivity | rewrite IH; reflexivity].
Qed.

Lemma append_empty (a : string) : (a ++ EmptyString = a)%string.
Proof.
  induction a as [| x a IH]; simpl; [reflexivity | rewrite IH; reflexivity].
Qed.

Lemma length_append (a b : string) :
  String.length (a ++ b)%string = (String.length a + String.length b)%nat.
Proof.
  induction a as [| x a IH]; simpl; [reflexivity | rewrite IH; reflexivity].
Qed.

Lemma scan_name_safe (n rest : string) :
  forall fresh, name_ok n fresh = true ->
  scan_name (n ++ String backtick rest)%string fresh = Ok (n, rest).
Proof.
  induction n as [| c n IH]; intros fresh H.
  - reflexivity.
  - assert (Hb : Ascii.eqb c backtick = false).
    { destruct (Ascii.eqb c backtick) eqn:E; [| reflexivity].
      apply Ascii.eqb_eq in E. subst c. simpl in H. discriminate. }
    cbn [append scan_name name_ok] in *. rewrite Hb.
    destruct (is_alpha c || is_digit c && negb fresh).
    + rewrite (IH false H). reflexivity.
    + destruct (is_joint c); [| discriminate].
      rewrite (IH true H). reflexivity.
Qed.

Lemma literal_char_not_special (c : ascii) :
  literal_char c = true ->
  Ascii.eqb c dquote = false /\ Ascii.eqb c backslash = false.
Proof.
  unfold literal_char. intros H.
  apply andb_true_iff in H. destruct H as [H Hb].
  apply andb_true_iff in H. destruct H as [_ Hq].
  apply negb_true_iff in Hb, Hq. split; assumption.
Qed.

Lemma scan_body_plain (v rest : string) :
  plain_value v = true ->
  scan_body (v ++ String dquote rest)%string = Ok (v, rest).
Proof.
  unfold plain_value. induction v as [| c v IH]; intros H.
  - reflexivity.
  - cbn [all_chars] in H. apply andb_true_iff in H. destruct H as [Hc Hv].
    apply andb_true_iff in Hc. destruct Hc as [Hc _].
    destruct (literal_char_not_special c Hc) as [Hq Hb].
    cbn [append scan_body]. rewrite Hq, Hb, Hc, (IH Hv). reflexivity.
Qed.

Lemma lex_space (f : nat) (s : string) :
  lex (S f) (String space s) = lex f s.
Proof. reflexivity. Qed.

Lemma lex_name (f : nat) (n rest : string) :
  safe_name n = true ->
  lex (S f) (String backtick (n ++ String backtick rest)%string)
  = let? ts := lex f rest in Ok (TName n :: ts).
Proof.
  intros H. cbn [lex].
  change (Ascii.eqb backtick space) with false.
  change (Ascii.eqb backtick backtick) with true. cbv iota.
  destruct n as [| c n]; [discriminate |].
  rewrite (scan_name_safe (String c n) rest true H). reflexivity.
Qed.

Lemma lex_eq (f : nat) (s : string) :
  lex (S f) (String (chr 61) (String (chr 61) s))
  = let? ts := lex f s in Ok (TEq :: ts).
Proof. reflexivity. Qed.

Lemma lex_or (f : nat) (s : string) :
  lex (S f) (String (chr 124) (String space s))
  = let? ts := lex f (String space s) in Ok (TOr :: ts).
Proof. reflexivity. Qed.

Lemma lex_literal (f : nat) (v rest : string) :
  plain_value v = true -> starts_with dquote rest = false ->
  lex (S f) (String dquote (v ++ String dquote rest)%string)
  = let? ts := lex f rest in Ok (TStr v :: ts).
Proof.
  intros Hv Hr. cbn [lex].
  change (Ascii.eqb dquote space) with false.
  change (Ascii.eqb dquote backtick) with false.
  change (Ascii.eqb dquote (chr 61)) with false.
  change (Ascii.eqb dquote (chr 124)) with false.
  change (Ascii.eqb dquote dquote) with true. cbv iota.
  assert (Hs := scan_body_plain v rest Hv).
  destruct v as [| c v].
  - cbn [append] in *. destruct rest as [| x rest].
    + rewrite Hs. reflexivity.
    + cbn [starts_with] in Hr.
      change (Ascii.eqb dquote dquote) with true. rewrite Hr.
      cbn [andb]. rewrite Hs. reflexivity.
  - cbn [append] in *. unfold plain_value in Hv. cbn [all_chars] in Hv.
    apply andb_true_iff in Hv. destruct Hv as [Hc _].
    apply andb_true_iff in Hc. destruct Hc as [Hc _].
    destruct (literal_char_not_special c Hc) as [Hq _].
    destruct (v ++ String dquote rest)%string as [| x s] eqn:E.
    + rewrite Hs. reflexivity.
    + rewrite Hq. cbn [andb]. rewrite Hs. reflexivity.
Qed.

Lemma predicate_text_app (n v rest : string) :
  (predicate_text (n, v) ++ rest)%string
  = String backtick
      (n ++ String backtick
         (String space (String (chr 61) (String (chr 61) (String space
            (String dquote (v ++ String dquote rest)))))))%string.
Proof.
  unfold predicate_text, str1. cbn [fst snd].
  repeat (rewrite append_assoc; cbn [append]). reflexivity.
Qed.

Lemma lex_predicate (f : nat) (n v rest : string) :
  safe_name n = true -> plain_value v = true ->
  starts_with dquote rest = false ->
  lex (5 + f) (predicate_text (n, v) ++ rest)%string
  = let? ts := lex f rest in Ok (TName n :: TEq :: TStr v :: ts).
Proof.
  intros Hn Hv Hr. rewrite predicate_text_app.
  change (5 + f)%nat with (S (S (S (S (S f))))).
  rewrite (lex_name _ n _ Hn), lex_space, lex_eq, lex_space.
  rewrite (lex_literal f v rest Hv Hr).
  destruct (lex f rest); reflexivity.
Qed.

Lemma query_text_cons (p q : string * string) (qs : list (string * string)) :
  query_text (p :: q :: qs)
  = (predicate_text p
     ++ String space (String (chr 124) (String space (query_text (q :: qs)))))
    %string.
Proof. reflexivity. Qed.

Lemma lex_query_text (filters : list (string * string)) :
  filters <> [] ->
  Forall (fun p => safe_name (fst p) = true /\ plain_value (snd p) = true)
         filters ->
  forall f, lex (steps_of filters + S f) (query_text filters)
            = Ok (tokens_of filters).
Proof.
  intros Hne H. induction H as [| [n v] ps [Hn Hv] Hps IH];
    [contradiction |].
  intros f. destruct ps as [| q qs].
  - change (query_text [(n, v)]) with (predicate_text (n, v)).
    rewrite <- (append_empty (predicate_text (n, v))).
    change (steps_of [(n, v)] + S f)%nat with (5 + S f)%nat.
    cbn [fst snd] in *.
    rewrite (lex_predicate (S f) n v EmptyString Hn Hv eq_refl).
    reflexivity.
  - rewrite query_text_cons.
    change (steps_of ((n, v) :: q :: qs) + S f)%nat
      with (5 + S (S (S (steps_of (q :: qs) + S f))))%nat.
    cbn [fst snd] in *.
    rewrite (lex_predicate _ n v
               (String space (String (chr 124) (String space
                  (query_text (q :: qs))))) Hn Hv eq_refl).
    rewrite lex_space, lex_or, lex_space.
    rewrite (IH ltac:(discriminate) f). reflexivity.
Qed.

Lemma steps_within_text (filters : list (string * string)) :
  (steps_of filters <= String.length (query_text filters))%nat.
Proof.
  induction filters as [| [n v] ps IH]; [apply Nat.le_0_l |].
  destruct ps as [| q qs].
  - change (query_text [(n, v)]) with (predicate_text (n, v)).
    rewrite <- (append_empty (predicate_text (n, v))), predicate_text_app.
    cbn [String.length steps_of]. rewrite !length_append.
    cbn [String.length]. lia.
  - rewrite query_text_cons, predicate_text_app.
    cbn [String.length]. rewrite !length_append. cbn [String.length].
    rewrite !length_append. cbn [String.length].
    change (steps_of ((n, v) :: q :: qs)) with (8 + steps_of (q :: qs))%nat.
    lia.
Qed.

Lemma tokenize_query_text (filters : list (string * string)) :
  filters <> [] ->
  Forall (fun p => safe_name (fst p) = true /\ plain_value (snd p) = true)
         filters ->
  tokenize (query_text filters) = Ok (tokens_of filters).
Proof.
  intros Hne H. unfold tokenize.
  assert (Hs := steps_within_text filters).
  replace (S (String.length (query_text filters)))
    with (steps_of filters
          + S (String.length (query_text filters) - steps_of filters))%nat
    by lia.
  apply lex_query_text; assumption.
Qed.

Lemma parse_tokens_of (filters : list (string * string)) :
  filters <> [] -> parse (tokens_of filters) = Ok filters.
Proof.
  induction filters as [| [n v] ps IH]; intros Hne; [contradiction |].
  destruct ps as [| q qs]; [reflexivity |].
  change (tokens_of ((n, v) :: q :: qs))
    with (TName n :: TEq :: TStr v :: TOr :: tokens_of (q :: qs)).
  cbn [parse fst snd]. rewrite (IH ltac:(discriminate)). reflexivity.
Qed.

(** A text of ASCII characters has no line break beyond ASCII. *)
Lemma ascii_no_line_break (s : string) :
  all_chars is_ascii s = true -> has_line_break s = false.
Proof.
  induction s as [| a s IH]; intros H; [reflexivity |].
  cbn [all_chars] in H. apply andb_true_iff in H. destruct H as [Ha Hs].
  cbn [has_line_break]. destruct s as [| b s2]; [reflexivity |].
  rewrite (IH Hs).
  assert (H1 : Ascii.eqb a (chr 194) = false).
  { destruct (Ascii.eqb a (chr 194)) eqn:E; [| reflexivity].
    apply Ascii.eqb_eq in E. subst a. discriminate. }
  assert (H2 : Ascii.eqb a (chr 226) = false).
  { destruct (Ascii.eqb a (chr 226)) eqn:E; [| reflexivity].
    apply Ascii.eqb_eq in E. subst a. discriminate. }
  rewrite H1, H2. reflexivity.
Qed.

Lemma all_chars_app (p : ascii -> bool) (a b : string) :
  all_chars p (a ++ b)%string = all_chars p a && all_chars p b.
Proof.
  induction a as [| x a IH]; cbn [append all_chars]; [reflexivity |].
  rewrite IH. apply andb_assoc.
Qed.

Lemma name_ok_ascii (n : string) :
  forall fresh, name_ok n fresh = true -> all_chars is_ascii n = true.
Proof.
  induction n as [| c n IH]; intros fresh H; [reflexivity |].
  cbn [name_ok all_chars] in *.
  assert (Hc : is_alpha c || is_digit c || is_joint c = true).
  { destruct (is_alpha c); [reflexivity |].
    destruct (is_digit c); [reflexivity |].
    cbn [orb andb] in H |- *. destruct (is_joint c);
      [reflexivity | discriminate]. }
  assert (Ha : is_ascii c = true).
  { unfold is_alpha, is_digit, is_joint, in_range, is_ascii in *.
    destruct (Ascii.eqb c (chr 95)) eqn:E1;
      [apply Ascii.eqb_eq in E1; subst c; reflexivity |].
    destruct (Ascii.eqb c (chr 47)) eqn:E2;
      [apply Ascii.eqb_eq in E2; subst c; reflexivity |].
    destruct (Ascii.eqb c (chr 46)) eqn:E3;
      [apply Ascii.eqb_eq in E3; subst c; reflexivity |].
    apply Nat.ltb_lt.
    repeat rewrite orb_false_r in Hc.
    repeat (apply orb_true_iff in Hc; destruct Hc as [Hc | Hc]);
      try discriminate;
      apply andb_true_iff in Hc; destruct Hc as [_ Hc];
      apply Nat.leb_le in Hc; lia. }
  rewrite Ha. cbn [andb].
  destruct (is_alpha c || is_digit c && negb fresh); [apply (IH false H) |].
  destruct (is_joint c); [apply (IH true H) | discriminate].
Qed.

Lemma plain_value_ascii (v : string) :
  plain_value v = true -> all_chars is_ascii v = true.
Proof.
  unfold plain_value. induction v as [| c v IH]; intros H; [reflexivity |].
  cbn [all_chars] in *. apply andb_true_iff in H. destruct H as [Hc Hv].
  apply andb_true_iff in Hc. destruct Hc as [_ Hc].
  rewrite Hc, (IH Hv). reflexivity.
Qed.

Lemma query_text_ascii (filters : list (string * string)) :
  Forall (fun p => safe_name (fst p) = true /\ plain_value (snd p) = true)
         filters ->
  all_chars is_ascii (query_text filters) = true.
Proof.
  induction 1 as [| [n v] ps [Hn Hv] Hps IH]; [reflexivity |].
  cbn [fst snd] in *.
  assert (Hp : forall rest, all_chars is_ascii rest = true ->
             all_chars is_ascii (predicate_text (n, v) ++ rest)%string = true).
  { intros rest Hrest. rewrite predicate_text_app.
    cbn [all_chars]. rewrite all_chars_app. cbn [all_chars].
    rewrite all_chars_app. cbn [all_chars].
    rewrite (plain_value_ascii v Hv), Hrest.
    destruct n as [| c n]; [discriminate |].
    rewrite (name_ok_ascii (String c n) true Hn). reflexivity. }
  destruct ps as [| q qs].
  - change (query_text [(n, v)]) with (predicate_text (n, v)).
    rewrite <- (append_empty (predicate_text (n, v))). apply Hp. reflexivity.
  - rewrite query_text_cons. apply Hp. cbn [all_chars]. rewrite IH.
    reflexivity.
Qed.

Lemma queryable_inv (d : DataFrame) :
  queryable d = true ->
  forallb safe_name (names d) = true
  /\ existsb (String.prefix bqs) (names d) = false
  /\ NoDup (map clean_column_name (names d))
  /\ NoDup (names d).
Proof.
  unfold queryable. intros H.
  apply andb_true_iff in H. destruct H as [H H3].
  apply andb_true_iff in H. destruct H as [H1 H2].
  apply negb_true_iff in H2, H3. apply has_dup_NoDup in H3.
  repeat split; try assumption.
  apply (NoDup_map_inv clean_column_name). exact H3.
Qed.

Lemma resolve_column (d : DataFrame) (n : string) (i : nat) :
  queryable d = true ->
  ordinary_name n = true ->
  nth_error (columns d) i = Some (n, object) ->
  resolve d n = Ok i.
Proof.
  intros Hq Hb Hi. destruct (queryable_inv d Hq) as [H1 [H2 [H3 _]]].
  unfold resolve. rewrite H1, H2, Hb. cbn [negb andb].
  assert (Hn : nth_error (map clean_column_name (names d)) i
               = Some (clean_column_name n)).
  { apply map_nth_error. unfold names.
    apply (map_nth_error fst) in Hi. exact Hi. }
  rewrite (positions_unique _ _ H3 0%nat i Hn). cbn [Nat.add].
  rewrite Hi. reflexivity.
Qed.

Lemma resolve_filters (d : DataFrame) (filters : list (string * string)) :
  queryable d = true ->
  Forall (plain_filter d) filters ->
  exists cs,
    omap (fun p => let? i := resolve d (fst p) in Ok (i, snd p)) filters
    = Ok cs
    /\ Forall2 (fun p c => nth_error (names d) (fst c) = Some (fst p)
                           /\ snd c = snd p) filters cs.
Proof.
  intros Hq H. induction H as [| p ps [Hin [Hb _]] Hps [cs [Hcs HF]]].
  - exists []. split; [reflexivity | constructor].
  - destruct (In_nth_error _ _ Hin) as [i Hi].
    exists ((i, snd p) :: cs). split.
    + cbn [omap]. rewrite (resolve_column d (fst p) i Hq Hb Hi).
      cbn [obind]. rewrite Hcs. reflexivity.
    + constructor; [| exact HF]. split; [| reflexivity].
      unfold names. apply (map_nth_error fst) in Hi. exact Hi.
Qed.

(** A field of the record of a row is the cell under the column. *)
Lemma holds_at_position (l : list string) (v n : string) :
  NoDup l -> forall (i : nat) (r : list cell),
  nth_error l i = Some n ->
  holds (n, v) (combine l r) = cell_is v (nth i r nan).
Proof.
  unfold holds. cbn [fst snd].
  induction 1 as [| x l Hx Hnd IH]; intros i r Hi.
  - destruct i; discriminate.
  - destruct i as [| i], r as [| c r]; cbn in *; try reflexivity.
    + inversion Hi; subst. rewrite String.eqb_refl. reflexivity.
    + destruct (String.eqb x n) eqn:E.
      * apply String.eqb_eq in E. subst. exfalso. apply Hx.
        apply (nth_error_In _ _ Hi).
      * apply (IH i r Hi).
Qed.

Lemma plain_filters_safe (d : DataFrame) (filters : list (string * string)) :
  queryable d = true ->
  Forall (plain_filter d) filters ->
  Forall (fun p => safe_name (fst p) = true /\ plain_value (snd p) = true)
         filters.
Proof.
  intros Hq H. destruct (queryable_inv d Hq) as [H1 _].
  rewrite Forall_forall in H |- *. intros p Hp.
  destruct (H p Hp) as [Hin [_ Hv]]. split; [| exact Hv].
  apply (proj1 (forallb_forall _ _) H1). unfold names.
  apply (in_map fst) in Hin. exact Hin.
Qed.

(** For filters on columns of strings with plain values, the query
    keeps the rows of which one of the predicates "field equals value"
    holds, in their order, and nothing else. *)
Lemma query_keeps_matching_rows (d : DataFrame)
    (filters : list (string * string)) :
  filters <> [] ->
  queryable d = true ->
  Forall (plain_filter d) filters ->
  query d (query_text filters)
  = Ok (mkDF (columns d) (matching_rows filters d)).
Proof.
  intros Hne Hq H. unfold query.
  rewrite (ascii_no_line_break _
             (query_text_ascii _ (plain_filters_safe d _ Hq H))).
  rewrite (tokenize_query_text filters Hne (plain_filters_safe d _ Hq H)).
  cbn [obind]. rewrite (parse_tokens_of filters Hne). cbn [obind].
  destruct (resolve_filters d filters Hq H) as [cs [Hcs HF]].
  rewrite Hcs. cbn [obind]. f_equal. f_equal.
  unfold matching_rows. apply filter_ext. intros r.
  destruct (queryable_inv d Hq) as [_ [_ [_ Hnd]]].
  clear - HF Hnd. unfold matches.
  induction HF as [| [n v] [i w] ps cs' [Hi Hw] _ IH]; [reflexivity |].
  cbn [existsb fst snd] in *. subst w.
  rewrite (holds_at_position _ v n Hnd i r Hi), IH. reflexivity.
Qed.

Lemma query_keeps_matching_rows_example :
  query (df sample)
    (query_text [(kabupaten_kota, "JAKARTA BARAT"%string);
                 (kecamatan, "GAMBIR"%string)])
  = Ok (mkDF (columns (df sample))
             [[Str "PROVINSI DKI JAKARTA"; Str "JAKARTA PUSAT";
               Str "GAMBIR"; Str "CIDENG"; Int 7; Int 0; Int 1];
              [Str "PROVINSI DKI JAKARTA"; Str "JAKARTA BARAT";
               Str "KOJA"; Str "TUGU"; Int 1; Int 0; Int 0]]%string).
Proof.
  rewrite query_keeps_matching_rows.
  - vm_compute. reflexivity.
  - discriminate.
  - vm_compute. reflexivity.
  - repeat (constructor;
            [split; [vm_compute; auto 10 | split; reflexivity] |]).
    constructor.
Qed.

(** X18.  With plain filters on string columns, when no row matches a
    filter, [summary_total_by] returns the empty list and leaves the
    object as it was. *)
Theorem no_match_returns_empty_list (g : groups)
    (filters : list (string * string)) (self : DKIEducationData) :
  filters <> [] ->
  queryable (df self) = true ->
  Forall (plain_filter (df self)) filters ->
  matching_rows filters (df self) = [] ->
  keys_of g <> [] ->
  has_dup (keys_of g) = false ->
  Forall (fun k => In k (names (df self))) (keys_of g) ->
  agg_columns (keys_of g) (df self) <> [] ->
  summary_total_by g filters self = (Ok (Many []), self).
Proof.
  intros Hne Hq Hf Hm Hk Hd Hin Ha.
  cbv [summary_total_by bind get_df lift ret]. unfold aggregate.
  destruct filters as [| p ps]; [contradiction |].
  cbn [List.length Nat.eqb].
  rewrite (query_keeps_matching_rows (df self) (p :: ps) Hne Hq Hf), Hm.
  cbn [obind]. unfold groupby_sum_records.
  rewrite (label_array_known g (mkDF (columns (df self)) []) Hin).
  destruct (keys_of g) as [| k0 ks] eqn:Ek; [contradiction |].
  destruct (queryable_inv _ Hq) as [_ [_ [_ Hnd]]].
  assert (Hpos : exists pos,
            omap (locate (names (df self))) (k0 :: ks) = Ok pos).
  { clear - Hin Hnd. induction Hin as [| k ks' Hk _ [pos Hpos]].
    - exists []. reflexivity.
    - destruct (In_nth_error _ _ Hk) as [i Hi].
      exists (i :: pos). cbn [omap]. unfold locate at 1.
      rewrite (positions_unique k _ Hnd 0%nat i Hi). cbn [Nat.add obind].
      rewrite Hpos. reflexivity. }
  destruct Hpos as [pos Hpos].
  change (names {| columns := columns (df self); rows := [] |})
    with (names (df self)).
  rewrite Hpos. cbn [obind]. rewrite Hd.
  change (agg_columns (k0 :: ks) {| columns := columns (df self); rows := [] |})
    with (agg_columns (k0 :: ks) (df self)).
  destruct (agg_columns (k0 :: ks) (df self)) as [| a aggs];
    [contradiction |].
  reflexivity.
Qed.

(** *** Grouped sums are returned *)

Lemma omap_total {A B} (f : A -> outcome B) (l : list A) :
  (forall a, In a l -> exists b, f a = Ok b) -> exists l', omap f l = Ok l'.
Proof.
  induction l as [| a l IH]; intros H.
  - exists []. reflexivity.
  - destruct (H a (or_introl eq_refl)) as [b Hb].
    destruct IH as [bs Hbs]; [intros a' Ha'; apply H; right; exact Ha' |].
    exists (b :: bs). cbn [omap]. rewrite Hb. cbn [obind]. rewrite Hbs.
    reflexivity.
Qed.

Lemma locate_all (l keys : list string) :
  NoDup l -> Forall (fun k => In k l) keys ->
  exists pos, omap (locate l) keys = Ok pos.
Proof.
  intros Hnd H. apply omap_total. intros k Hk.
  rewrite Forall_forall in H. destruct (In_nth_error _ _ (H k Hk)) as [i Hi].
  exists i. unfold locate.
  rewrite (positions_unique k l Hnd 0%nat i Hi). reflexivity.
Qed.

Lemma indexed_nth {A} (l : list A) :
  forall o i a, In (i, a) (indexed l o) ->
                (o <= i)%nat /\ nth_error l (i - o) = Some a.
Proof.
  induction l as [| x l IH]; intros o i a H; simpl in H; [contradiction |].
  destruct H as [H | H].
  - inversion H; subst. rewrite Nat.sub_diag. split; [lia | reflexivity].
  - destruct (IH (S o) i a H) as [Hle Hn]. split; [lia |].
    replace (i - o)%nat with (S (i - S o)) by lia. exact Hn.
Qed.

Lemma combine_nth_In {A} (cs : list A) :
  forall (i : nat) (c : A) (r : list cell),
    nth_error cs i = Some c -> (i < List.length r)%nat ->
    In (c, nth i r nan) (combine cs r).
Proof.
  induction cs as [| x cs IH]; intros i c r Hi Hlen;
    [destruct i; discriminate |].
  destruct r as [| y r]; [simpl in Hlen; lia |].
  destruct i as [| i]; simpl in *.
  - inversion Hi; subst. left; reflexivity.
  - right. apply IH; [exact Hi | lia].
Qed.

Lemma ints_total (cs : list cell) :
  (forall c, In c cs -> is_int c = true) -> exists zs, ints cs = Some zs.
Proof.
  induction cs as [| c cs IH]; intros H.
  - exists []. reflexivity.
  - destruct IH as [zs Hzs]; [intros c' Hc'; apply H; right; exact Hc' |].
    assert (Hc := H c (or_introl eq_refl)).
    destruct c; try discriminate. exists (z :: zs). cbn [ints].
    rewrite Hzs. reflexivity.
Qed.

Lemma zsum_filter_le {A} (f : A -> Z) (p : A -> bool) (l : list A) :
  (forall a, 0 <= f a) -> zsum (map f (filter p l)) <= zsum (map f l).
Proof.
  intros Hf. induction l as [| a l IH]; simpl; [lia |].
  specialize (Hf a). destruct (p a); simpl; lia.
Qed.

(** X19.  On a cleaned table of strings and integers with one cell per
    column, unique column names and sums within the exact range, a
    call without filters on known, distinct group fields that leaves
    a numeric column to sum returns a result. *)
Theorem summary_total_by_returns (g : groups) (self : DKIEducationData) :
  cleaned (df self) = true ->
  rectangular (df self) = true ->
  NoDup (names (df self)) ->
  strings_or_ints (df self) = true ->
  within_exact (df self) = true ->
  keys_of g <> [] ->
  has_dup (keys_of g) = false ->
  Forall (fun k => In k (names (df self))) (keys_of g) ->
  agg_columns (keys_of g) (df self) <> [] ->
  exists res, summary_total_by g [] self = (Ok res, self).
Proof.
  intros Hc Hrect Hnd Hsi Hex Hk Hd Hin Ha.
  assert (Hdata : exists data, groupby_sum_records g (df self) = Ok data).
  { unfold groupby_sum_records.
    rewrite (label_array_known g (df self) Hin).
    destruct (keys_of g) as [| k0 ks] eqn:Ek; [contradiction |].
    destruct (locate_all _ _ Hnd Hin) as [pos Hpos].
    rewrite Hpos. cbn [obind]. rewrite Hd.
    destruct (agg_columns (k0 :: ks) (df self)) as [| a0 aggs0] eqn:Ea;
      [contradiction |].
    rewrite <- Ea. clear Ha.
    assert (Hbound : forall j, In j pos ->
                       (j < List.length (columns (df self)))%nat).
    { intros j Hj. destruct (omap_Ok_In _ _ _ Hpos j Hj) as [k [_ Hl]].
      apply locate_bound in Hl. unfold names in Hl.
      rewrite length_map in Hl. exact Hl. }
    assert (Hlen : forall r, In r (rows (df self)) ->
                     List.length r = List.length (columns (df self))).
    { intros r Hr. apply Nat.eqb_eq.
      apply (proj1 (forallb_forall _ _) Hrect r Hr). }
    assert (Hkr : keyed_rows pos (rows (df self)) = Ok (rows (df self))).
    { unfold keyed_rows.
      assert (Hall : forallb (forallb (fun c => groupable c || isna c))
                       (map (row_key pos) (rows (df self))) = true).
      { apply forallb_forall. intros k Hk0.
        apply in_map_iff in Hk0. destruct Hk0 as [r [Hr0 Hr]]. subst k.
        apply forallb_forall. intros c Hc0. unfold row_key in Hc0.
        apply in_map_iff in Hc0. destruct Hc0 as [j [Hj0 Hj]]. subst c.
        assert (Hcell : In (nth j r nan) r).
        { apply nth_In. rewrite (Hlen r Hr). apply Hbound. exact Hj. }
        assert (Hr' := proj1 (forallb_forall _ _) Hsi r Hr).
        rewrite (proj1 (forallb_forall _ _) Hr' _ Hcell). reflexivity. }
      rewrite Hall. f_equal. apply all_rows_keyed; try assumption.
      unfold cleaned in Hc.
      repeat (apply andb_true_iff in Hc; destruct Hc as [Hc ?]).
      assumption. }
    rewrite Hkr. cbn [obind].
    apply omap_total. intros k _. unfold summary_record.
    set (members := filter (fun r => key_eqb (row_key pos r) k)
                           (rows (df self))).
    assert (Hsums : exists sums,
              omap (fun c : nat * (string * dtype) =>
                      let? z := group_sum (map (fun r => nth (fst c) r nan)
                                               members) in
                      Ok (fst (snd c), Int z))
                   (agg_columns (k0 :: ks) (df self)) = Ok sums).
    { apply omap_total. intros [i [n t]] Hagg. cbn [fst snd].
      unfold agg_columns in Hagg. apply filter_In in Hagg.
      destruct Hagg as [Hidx Ht]. cbn [fst snd] in Ht.
      apply andb_true_iff in Ht. destruct Ht as [Ht _].
      destruct (indexed_nth _ _ _ _ Hidx) as [_ Hi].
      rewrite Nat.sub_0_r in Hi.
      assert (Hi_lt : (i < List.length (columns (df self)))%nat).
      { apply nth_error_Some. rewrite Hi. discriminate. }
      assert (Hints : forall c, In c (map (fun r => nth i r nan) members) ->
                                is_int c = true).
      { intros c Hc0. apply in_map_iff in Hc0.
        destruct Hc0 as [r [Hr0 Hr]]. subst c.
        apply filter_In in Hr. destruct Hr as [Hr _].
        unfold cleaned in Hc. apply andb_true_iff in Hc.
        destruct Hc as [_ Hnum].
        assert (Hrow := proj1 (forallb_forall _ _) Hnum r Hr).
        assert (Hp := proj1 (forallb_forall _ _) Hrow
                        ((n, t), nth i r nan)
                        (combine_nth_In _ i (n, t) r Hi
                           ltac:(rewrite (Hlen r Hr); exact Hi_lt))).
        cbn [fst snd] in Hp. destruct t; try discriminate; exact Hp. }
      destruct (ints_total _ Hints) as [zs Hzs].
      unfold group_sum. rewrite Hzs.
      assert (Hle : zsum (map Z.abs zs) <= exact_limit).
      { rewrite (ints_int_of _ _ Hzs), !map_map.
        assert (Hcol := proj1 (forallb_forall _ _) Hex _ Hidx).
        cbn [fst snd] in Hcol.
        destruct (dtype_eqb t object); [discriminate |].
        cbn [orb] in Hcol. apply Z.leb_le in Hcol.
        unfold column_abs_total in Hcol.
        eapply Z.le_trans; [| exact Hcol].
        apply (zsum_filter_le (fun r => Z.abs (int_of (nth i r nan)))).
        intros r. apply Z.abs_nonneg. }
      apply Z.leb_le in Hle. rewrite Hle.
      eexists. reflexivity. }
    destruct Hsums as [sums Hsums]. rewrite Hsums. cbn [obind].
    eexists. reflexivity. }
  destruct Hdata as [data Hdata].
  cbv [summary_total_by bind get_df lift ret]. unfold aggregate.
  cbn [List.length Nat.eqb]. rewrite Hdata.
  destruct data as [| r [| r' data]]; eexists; reflexivity.
Qed.

Lemma summary_total_by_returns_witness :
  exists res,
    summary_total_by (ByNames ["nama_provinsi"; "nama_kabupaten/kota"]%string)
      [] sample = (Ok res, sample).
Proof.
  apply summary_total_by_returns; try (vm_compute; reflexivity).
  - vm_compute. repeat constructor; simpl; intuition discriminate.
  - discriminate.
  - constructor; [vm_compute; auto 10 |].
    constructor; [vm_compute; auto 10 | constructor].
  - vm_compute. discriminate.
Defined.

(** ** Further properties of the data access layer *)

(** *** Construction *)

Lemma clean_inv (self self' : DKIEducationData) :
  __clean self = (Ok tt, self') ->
  let keep := map (fun n => negb (mem n ["tahun"%string])) (names (df self)) in
  let cs := select keep (columns (df self)) in
  exists cols rs,
    (forall col, In col cs -> snd col <> object -> mem (fst col) cols = true)
    /\ Forall2 (fun r r' =>
                  omap2 (coerce cols) cs (map2 fill0 cs (select keep r)) = Ok r')
               (rows (df self)) rs
    /\ df self'
       = mkDF (map (fun c => if mem (fst c) cols then (fst c, int64) else c) cs)
              rs.
Proof.
  cbv [__clean bind get_df set_df lift ret].
  destruct (drop ["tahun"%string] (df self)) as [d1 | e | ] eqn:Ed;
    try discriminate.
  cbn [df].
  destruct (applymap_int64 (select_dtypes_exclude_object (fillna d1))
              (fillna d1)) as [d3 | e | ] eqn:Ea; try discriminate.
  intros H. inversion H; subst; clear H. cbn [df].
  unfold drop in Ed. destruct (find _ _); [discriminate |].
  inversion Ed; subst d1; clear Ed.
  unfold applymap_int64 in Ea.
  set (cols := select_dtypes_exclude_object _) in *.
  cbn [fillna columns rows] in Ea.
  destruct (omap _ _) as [rs | e | ] eqn:Ers; cbn [obind] in Ea;
    try discriminate.
  inversion Ea; subst d3; clear Ea.
  exists cols, rs. split; [| split; [| reflexivity]].
  - intros col Hin Hd.
    apply (select_dtypes_covers
             (fillna {| columns := select
                                     (map (fun n => negb (mem n ["tahun"%string]))
                                          (names (df self)))
                                     (columns (df self));
                        rows := map (select
                                       (map (fun n =>
                                               negb (mem n ["tahun"%string]))
                                            (names (df self))))
                                    (rows (df self)) |}));
      assumption.
  - apply omap_Forall2 in Ers. rewrite map_map in Ers.
    apply Forall2_through_map in Ers. exact Ers.
Qed.

Lemma init_inv (read_csv : string -> outcome DataFrame) (raw : DataFrame)
    (self : DKIEducationData) :
  read_csv "data-dki-menurut-pendidikan-tahun-2014.csv"%string = Ok raw ->
  __init__ read_csv = Ok self ->
  __clean (mkData "data-dki-menurut-pendidikan-tahun-2014.csv"%string raw)
  = (Ok tt, self).
Proof.
  intros Hraw H. unfold __init__, __open in H. rewrite Hraw in H.
  cbn [obind] in H.
  destruct (__clean _) as [[[] | e | ] self0]; try discriminate.
  inversion H; subst. reflexivity.
Qed.

(** X1.  A source table without a ['tahun'] column cannot be loaded:
    construction raises the KeyError of that label. *)
Theorem load_without_tahun_raises :
  forall (read_csv : string -> outcome DataFrame) (raw : DataFrame),
    read_csv "data-dki-menurut-pendidikan-tahun-2014.csv"%string = Ok raw ->
    ~ In "tahun"%string (names raw) ->
    __init__ read_csv = Raise (KeyError "tahun"%string).
Proof.
  intros read_csv raw Hraw Hno.
  unfold __init__, __open. rewrite Hraw. cbn [obind].
  cbv [__clean bind get_df set_df lift ret]. cbn [df]. unfold drop.
  cbn [find]. apply mem_false_not_In in Hno. rewrite Hno. reflexivity.
Qed.

Lemma load_without_tahun_raises_witness :
  __init__ (fun _ => Ok (df sample)) = Raise (KeyError "tahun"%string).
Proof.
  apply (load_without_tahun_raises (fun _ => Ok (df sample)) (df sample)).
  - reflexivity.
  - vm_compute. intuition discriminate.
Defined.

Lemma Forall2_same_length {A B} (R : A -> B -> Prop) (l : list A)
    (m : list B) :
  Forall2 R l m -> List.length l = List.length m.
Proof.
  induction 1; simpl; [reflexivity | f_equal; assumption].
Qed.

Lemma Forall2_in_right {A B} (R : A -> B -> Prop) (l : list A)
    (m : list B) :
  Forall2 R l m -> forall b, In b m -> exists a, In a l /\ R a b.
Proof.
  induction 1 as [| a b l m Hab _ IH]; intros b0 Hb; [contradiction |].
  destruct Hb as [Hb | Hb].
  - subst. exists a. split; [left; reflexivity | exact Hab].
  - destruct (IH b0 Hb) as [a0 [Ha0 HR]].
    exists a0. split; [right; exact Ha0 | exact HR].
Qed.

Lemma retag_names (cols : list string) (cs : list (string * dtype)) :
  map fst (map (fun c : string * dtype =>
                  if mem (fst c) cols then (fst c, int64) else c) cs)
  = map fst cs.
Proof.
  rewrite map_map. apply map_ext. intros c.
  destruct (mem (fst c) cols); reflexivity.
Qed.

(** X2.  Loading keeps every column other than ['tahun'], in the order
    of the source table, and keeps every row; when every row of the
    source has one cell per column, so has every row afterwards. *)
Theorem load_keeps_columns_and_rows :
  forall (read_csv : string -> outcome DataFrame) (raw : DataFrame)
         (self : DKIEducationData),
    read_csv "data-dki-menurut-pendidikan-tahun-2014.csv"%string = Ok raw ->
    __init__ read_csv = Ok self ->
    names (df self)
    = filter (fun n => negb (String.eqb n "tahun")) (names raw)
    /\ List.length (rows (df self)) = List.length (rows raw)
    /\ (rectangular raw = true -> rectangular (df self) = true).
Proof.
  intros read_csv raw self Hraw H.
  assert (Hc := init_inv read_csv raw self Hraw H).
  destruct (clean_inv _ _ Hc) as [cols [rs [_ [HF Hd]]]]. cbn [df] in *.
  split; [| split].
  - rewrite Hd. unfold names. cbn [columns]. rewrite retag_names.
    rewrite select_names, select_map_filter.
    apply filter_ext. intros n. cbn [mem existsb].
    rewrite orb_false_r. reflexivity.
  - rewrite Hd. cbn [rows]. symmetry. apply (Forall2_same_length _ _ _ HF).
  - intros Hrect. rewrite Hd. unfold rectangular. cbn [rows columns].
    rewrite length_map. apply forallb_forall. intros r' Hr'.
    apply Nat.eqb_eq.
    destruct (Forall2_in_right _ _ _ HF r' Hr') as [r [Hr Hf]].
    assert (Hlen : List.length
                     (select (map (fun n => negb (mem n ["tahun"%string]))
                                  (names raw)) r)
                   = List.length (kept_columns raw)).
    { apply select_length. apply Nat.eqb_eq.
      apply (proj1 (forallb_forall _ _) Hrect r Hr). }
    apply omap2_length in Hf; [exact Hf |].
    rewrite map2_length; [reflexivity | symmetry; exact Hlen].
Qed.

Lemma load_keeps_columns_and_rows_witness :
  names (df sample)
  = filter (fun n => negb (String.eqb n "tahun")) (names sample_csv)
  /\ List.length (rows (df sample)) = List.length (rows sample_csv)
  /\ (rectangular sample_csv = true -> rectangular (df sample) = true).
Proof.
  apply (load_keeps_columns_and_rows sample_fs sample_csv sample).
  - reflexivity.
  - vm_compute. reflexivity.
Defined.

(** One row through [fillna] and [applymap]: strings and integers
    stay, floats under a coerced column become their integer part. *)
Lemma cleaned_row (cols : list string) (cs : list (string * dtype)) :
  forall (r r' : list cell),
    omap2 (coerce cols) cs (map2 fill0 cs r) = Ok r' ->
    forall (j : nat) (c : cell),
      (j < List.length cs)%nat -> nth_error r j = Some c ->
      (groupable c = true -> nth_error r' j = Some c)
      /\ (forall f col,
            c = Float f -> isna c = false ->
            nth_error cs j = Some col -> mem (fst col) cols = true ->
            exists z, float_trunc f = Ok z /\ nth_error r' j = Some (Int z)).
Proof.
  induction cs as [| col cs IH]; intros r r' H j c Hj Hc.
  - simpl in Hj. lia.
  - destruct r as [| c0 r]; [destruct j; discriminate |].
    cbn [map2 omap2] in H.
    destruct (coerce cols col (fill0 col c0)) as [c1 | e | ] eqn:E1;
      cbn [obind] in H; try discriminate.
    destruct (omap2 (coerce cols) cs (map2 fill0 cs r)) as [rest | e | ]
      eqn:E2; cbn [obind] in H; try discriminate.
    inversion H; subst; clear H. destruct j as [| j].
    + cbn in Hc. inversion Hc; subst c0. cbn [nth_error]. split.
      * intros Hg. f_equal. unfold fill0, coerce in E1.
        destruct c; try discriminate; cbn [isna] in E1;
          destruct (mem (fst col) cols); cbn in E1; try discriminate;
          inversion E1; reflexivity.
      * intros f col0 Hf Hna Hcol Hm. subst c. cbn in Hcol.
        inversion Hcol; subst col0. unfold fill0 in E1.
        rewrite Hna in E1. unfold coerce in E1. rewrite Hm in E1.
        cbn [np_int64] in E1.
        destruct (float_trunc f) as [z | e | ]; cbn [obind] in E1;
          try discriminate.
        destruct ((int64_min <=? z) && (z <=? int64_max));
          cbn [obind] in E1; try discriminate.
        inversion E1. exists z. split; reflexivity.
    + cbn in Hc. cbn [nth_error]. simpl in Hj.
      apply (IH r rest E2 j c); [lia | exact Hc].
Qed.

(** X3.  Loading alters no value that is there: a string or an integer
    of the source table is the same cell afterwards, and a float under
    a column that is not of dtype object is cut to its integer part,
    towards zero. *)
Theorem load_keeps_values :
  forall (read_csv : string -> outcome DataFrame) (raw : DataFrame)
         (self : DKIEducationData),
    read_csv "data-dki-menurut-pendidikan-tahun-2014.csv"%string = Ok raw ->
    __init__ read_csv = Ok self ->
    values_kept raw (df self) /\ floats_truncated raw (df self).
Proof.
  intros read_csv raw self Hraw H.
  assert (Hc := init_inv read_csv raw self Hraw H).
  destruct (clean_inv _ _ Hc) as [cols [rs [Hcov [HF Hd]]]]. cbn [df] in *.
  rewrite Hd. unfold values_kept, floats_truncated. cbn [rows columns].
  rewrite length_map. split.
  - revert HF. apply Forall2_impl. intros r r' Hr j c Hj Hcell Hg.
    apply (cleaned_row cols _ _ r' Hr j c Hj Hcell). exact Hg.
  - revert HF. apply Forall2_impl. intros r r' Hr j f n t Hcol Ht Hcell Hna.
    assert (Hj : (j < List.length (kept_columns raw))%nat).
    { apply nth_error_Some. rewrite Hcol. discriminate. }
    apply (proj2 (cleaned_row cols _ _ r' Hr j (Float f) Hj Hcell)
             f (n, t) eq_refl Hna Hcol).
    apply Hcov; [apply (nth_error_In _ _ Hcol) | exact Ht].
Qed.

Lemma load_keeps_values_witness :
  values_kept sample_csv (df sample) /\ floats_truncated sample_csv (df sample).
Proof.
  apply (load_keeps_values sample_fs sample_csv sample).
  - reflexivity.
  - vm_compute. reflexivity.
Defined.

(** *** What loading establishes *)




(** Outside the documented layout, a measure column that was read as
    text is left as text by the load: its strings stay, and a missing
    value in it becomes the integer zero among them. *)
Lemma text_measure_column_stays_text :
  measures_numeric text_measure_csv = false
  /\ exists self : DKIEducationData,
       __init__ (fun _ => Ok text_measure_csv) = Ok self
       /\ columns (df self)
          = [("nama_provinsi"%string, object); ("strata_II"%string, object)]
       /\ rows (df self)
          = [[Str "PROVINSI DKI JAKARTA"; Str "1,200"];
             [Str "PROVINSI DKI JAKARTA"; Int 0]]
       /\ cleaned (df self) = true.
Proof.
  split; [reflexivity |]. eexists. split; [vm_compute; reflexivity |].
  repeat split.
Qed.

(** *** Reading records and column names *)

Lemma positions_nth (s : string) (l : list string) :
  forall o i, In i (positions s l o) ->
              (o <= i)%nat /\ nth_error l (i - o) = Some s.
Proof.
  induction l as [| x l IH]; intros o i H; simpl in H; [contradiction |].
  destruct (String.eqb s x) eqn:E.
  - destruct H as [H | H].
    + subst i. rewrite Nat.sub_diag. apply String.eqb_eq in E. subst x.
      split; [lia | reflexivity].
    + destruct (IH (S o) i H) as [Hle Hn]. split; [lia |].
      replace (i - o)%nat with (S (i - S o)) by lia. exact Hn.
  - destruct (IH (S o) i H) as [Hle Hn]. split; [lia |].
    replace (i - o)%nat with (S (i - S o)) by lia. exact Hn.
Qed.

Lemma locate_nth (l : list string) (k : string) (i : nat) :
  locate l k = Ok i -> nth_error l i = Some k.
Proof.
  unfold locate. destruct (positions k l 0) as [| j [| j' ps]] eqn:E;
    try discriminate.
  intros H. inversion H; subst.
  assert (Hin : In i (positions k l 0)) by (rewrite E; left; reflexivity).
  apply positions_nth in Hin. rewrite Nat.sub_0_r in Hin. apply Hin.
Qed.

(** Looking a column name up in the record of a row gives the cell
    under that column. *)
Lemma field_combine (l : list string) (n : string) :
  NoDup l -> forall (i : nat) (r : list cell),
  nth_error l i = Some n -> (i < List.length r)%nat ->
  field (combine l r) n = Some (nth i r nan).
Proof.
  induction 1 as [| x l Hx Hnd IH]; intros i r Hi Hlen.
  - destruct i; discriminate.
  - destruct r as [| c r]; [simpl in Hlen; lia |].
    destruct i as [| i]; cbn in *.
    + inversion Hi; subst. rewrite String.eqb_refl. reflexivity.
    + destruct (String.eqb x n) eqn:E.
      * apply String.eqb_eq in E. subst. exfalso. apply Hx.
        apply (nth_error_In _ _ Hi).
      * apply IH; [exact Hi | lia].
Qed.

(** X4.  On a table with unique column names and one cell per column,
    [select_all] returns one record per row, in row order, and each
    record answers every column name with the cell of its row under
    that column. *)
Theorem select_all_records_answer_every_column :
  forall self : DKIEducationData,
    NoDup (names (df self)) ->
    rectangular (df self) = true ->
    exists rs : list record,
      select_all self = (Ok rs, self)
      /\ List.length rs = List.length (rows (df self))
      /\ forall (k : nat) (r : list cell),
           nth_error (rows (df self)) k = Some r ->
           exists rec : record,
             nth_error rs k = Some rec
             /\ forall (i : nat) (n : string),
                  nth_error (names (df self)) i = Some n ->
                  field rec n = Some (nth i r nan).
Proof.
  intros self Hnd Hrect. exists (to_dict_records (df self)).
  split; [reflexivity | split].
  - unfold to_dict_records. apply length_map.
  - intros k r Hk. exists (combine (names (df self)) r). split.
    + unfold to_dict_records. apply map_nth_error. exact Hk.
    + intros i n Hi. apply (field_combine _ n Hnd i r Hi).
      assert (Hlen : List.length r = List.length (columns (df self))).
      { apply Nat.eqb_eq.
        apply (proj1 (forallb_forall _ _) Hrect r (nth_error_In _ _ Hk)). }
      rewrite Hlen. unfold names in Hi.
      assert (Hs : nth_error (map fst (columns (df self))) i <> None)
        by (rewrite Hi; discriminate).
      apply nth_error_Some in Hs. rewrite length_map in Hs. exact Hs.
Qed.

Lemma select_all_records_answer_every_column_witness :
  exists rs : list record,
    select_all sample = (Ok rs, sample)
    /\ List.length rs = List.length (rows (df sample))
    /\ forall (k : nat) (r : list cell),
         nth_error (rows (df sample)) k = Some r ->
         exists rec : record,
           nth_error rs k = Some rec
           /\ forall (i : nat) (n : string),
                nth_error (names (df sample)) i = Some n ->
                field rec n = Some (nth i r nan).
Proof.
  apply (select_all_records_answer_every_column sample).
  - vm_compute. repeat constructor; simpl; intuition discriminate.
  - vm_compute. reflexivity.
Defined.

(** X5.  Whatever the two boundaries, a list that [get_column_names]
    returns is a stretch of the header: the header is some columns,
    then the list, then the remaining columns. *)
Theorem column_names_are_a_stretch_of_the_header :
  forall (self self' : DKIEducationData) (from_ until : string)
         (l : list string),
    get_column_names from_ until self = (Ok l, self') ->
    exists before rest : list string,
      names (df self) = before ++ l ++ rest.
Proof.
  intros self self' from_ until l.
  cbv [get_column_names bind get_df lift loc_columns].
  destruct (get_slice_bound (names (df self)) from_ left) as [a | e | ];
    cbn [obind]; try discriminate.
  destruct (get_slice_bound (names (df self)) until right) as [b | e | ];
    cbn [obind]; try discriminate.
  intros H. inversion H; subst; clear H.
  exists (firstn a (names (df self'))),
         (skipn (b - a) (skipn a (names (df self')))).
  rewrite (firstn_skipn (b - a)). rewrite (firstn_skipn a). reflexivity.
Qed.

Lemma column_names_are_a_stretch_of_the_header_witness :
  exists before rest : list string,
    names (df sample)
    = before ++ ["nama_kabupaten/kota"; "nama_kecamatan"]%string ++ rest.
Proof.
  apply (column_names_are_a_stretch_of_the_header sample sample
           "nama_kabupaten/kota"%string "nama_kecamatan"%string).
  vm_compute. reflexivity.
Defined.

(** X6.  When both boundaries are columns and the first one sits to
    the right of the second, [get_column_names] returns the empty list
    and raises nothing. *)
Theorem column_names_of_reversed_boundaries_are_empty :
  forall (self : DKIEducationData) (from_ until : string) (i j : nat),
    NoDup (names (df self)) ->
    nth_error (names (df self)) i = Some from_ ->
    nth_error (names (df self)) j = Some until ->
    (j < i)%nat ->
    get_column_names from_ until self = (Ok [], self).
Proof.
  intros self from_ until i j Hnd Hi Hj Hlt.
  cbv [get_column_names bind get_df lift loc_columns get_slice_bound].
  rewrite (positions_unique from_ _ Hnd 0 i Hi).
  rewrite (positions_unique until _ Hnd 0 j Hj).
  cbn [obind Nat.add]. replace (S j - i)%nat with 0%nat by lia.
  reflexivity.
Qed.

Lemma column_names_of_reversed_boundaries_are_empty_witness :
  get_column_names "nama_kecamatan"%string "nama_provinsi"%string sample
  = (Ok [], sample).
Proof.
  apply (column_names_of_reversed_boundaries_are_empty sample
           "nama_kecamatan"%string "nama_provinsi"%string 2%nat 0%nat).
  - vm_compute. repeat constructor; simpl; intuition discriminate.
  - reflexivity.
  - reflexivity.
  - lia.
Defined.

(** *** Unknown group and filter fields *)

Lemma omap_stops_at_raise {A B} (f : A -> outcome B) (pre post : list A)
    (x : A) (bs : list B) (e : exn) :
  omap f pre = Ok bs -> f x = Raise e ->
  omap f (pre ++ x :: post) = Raise e.
Proof.
  revert bs. induction pre as [| a pre IH]; intros bs Hpre Hx.
  - cbn [app omap]. rewrite Hx. reflexivity.
  - cbn [app omap] in *.
    destruct (f a) as [b | e0 | ]; cbn [obind] in *; try discriminate.
    destruct (omap f pre) as [bs0 | e0 | ] eqn:E; cbn [obind] in *;
      try discriminate.
    rewrite (IH bs0 eq_refl Hx). reflexivity.
Qed.

(** X7.  A call without filters whose group fields name a column that
    the table does not have raises the KeyError of the first such
    name, and leaves the object as it was; this when the groups are
    one name, or a list that is not as long as the table has rows (a
    list of that length with an unknown entry is taken for an array of
    labels, one per row, and raises nothing of the kind). *)
Theorem unknown_group_field_raises :
  forall (g : groups) (self : DKIEducationData) (pre post : list string)
         (k : string),
    keys_of g = pre ++ k :: post ->
    (forall l : list string,
        g = ByNames l -> List.length l <> List.length (rows (df self))) ->
    NoDup (names (df self)) ->
    Forall (fun x => In x (names (df self))) pre ->
    ~ In k (names (df self)) ->
    summary_total_by g [] self = (Raise (KeyError k), self).
Proof.
  intros g self pre post k Hk Hlen Hnd Hpre Hno.
  assert (Hla : label_array g (df self) = false).
  { destruct g as [n | l]; [reflexivity |]. cbn [label_array].
    rewrite (proj2 (Nat.eqb_neq _ _) (Hlen l eq_refl)). reflexivity. }
  cbv [summary_total_by bind get_df lift ret]. unfold aggregate.
  cbn [List.length Nat.eqb]. unfold groupby_sum_records.
  rewrite Hla, Hk.
  destruct (pre ++ k :: post) as [| k0 ks] eqn:E;
    [destruct pre; discriminate |].
  rewrite <- E.
  destruct (locate_all _ pre Hnd Hpre) as [pos Hpos].
  rewrite (omap_stops_at_raise _ pre post k pos (KeyError k) Hpos).
  - reflexivity.
  - unfold locate. rewrite (positions_absent k _ 0 Hno). reflexivity.
Qed.

Lemma unknown_group_field_raises_witness :
  summary_total_by (ByNames ["nama_provinsi"; "nama_desa"]%string) [] sample
  = (Raise (KeyError "nama_desa"%string), sample).
Proof.
  apply (unknown_group_field_raises
           (ByNames ["nama_provinsi"; "nama_desa"]%string) sample
           ["nama_provinsi"%string] [] "nama_desa"%string).
  - reflexivity.
  - intros l E. inversion E; subst l. vm_compute. discriminate.
  - vm_compute. repeat constructor; simpl; intuition discriminate.
  - constructor; [vm_compute; auto 10 | constructor].
  - vm_compute. intuition discriminate.
Defined.

Lemma Forall_app_cons {A} (P : A -> Prop) (pre post : list A) (x : A) :
  Forall P pre -> P x -> Forall P post -> Forall P (pre ++ x :: post).
Proof.
  intros H1 H2 H3. apply Forall_app. split; [exact H1 |].
  constructor; assumption.
Qed.

(** X8.  A filter on a name that the query language reads as no
    column of the table makes [summary_total_by] raise
    UndefinedVariableError, and the error names the identifier the
    name was rewritten to: the name itself when it is a Python
    identifier and no keyword, the spelled-out
    [BACKTICK_QUOTED_STRING_] form when it holds [/] or [.] or is a
    keyword.  This when the filters before it are on string columns
    and all values are plain. *)
Theorem unknown_filter_field_raises :
  forall (g : groups) (self : DKIEducationData)
         (pre post : list (string * string)) (n v : string),
    queryable (df self) = true ->
    Forall (plain_filter (df self)) pre ->
    safe_name n = true -> ordinary_name n = true -> plain_value v = true ->
    mem n axis_names = false ->
    mem n version_names = false ->
    ~ In (clean_column_name n) (map clean_column_name (names (df self))) ->
    Forall (fun p => safe_name (fst p) = true /\ plain_value (snd p) = true)
           post ->
    summary_total_by g (pre ++ (n, v) :: post) self
    = (Raise (UndefinedVariableError (clean_column_name n)), self).
Proof.
  intros g self pre post n v Hq Hpre Hn Ho Hv Hax Hver Hno Hpost.
  assert (Hne : pre ++ (n, v) :: post <> []) by (destruct pre; discriminate).
  assert (Hall : Forall (fun p => safe_name (fst p) = true
                                  /\ plain_value (snd p) = true)
                        (pre ++ (n, v) :: post)).
  { apply Forall_app_cons; [| split; assumption | exact Hpost].
    apply (plain_filters_safe _ _ Hq Hpre). }
  cbv [summary_total_by bind get_df lift ret]. unfold aggregate.
  destruct (pre ++ (n, v) :: post) as [| p0 ps] eqn:E; [contradiction |].
  cbn [List.length Nat.eqb]. rewrite <- E in *. unfold query.
  rewrite (ascii_no_line_break _ (query_text_ascii _ Hall)).
  rewrite (tokenize_query_text _ Hne Hall). cbn [obind].
  rewrite (parse_tokens_of _ Hne). cbn [obind].
  destruct (resolve_filters (df self) pre Hq Hpre) as [cs [Hcs _]].
  rewrite (omap_stops_at_raise _ pre post (n, v) cs
             (UndefinedVariableError (clean_column_name n)) Hcs).
  - reflexivity.
  - cbn [fst snd]. unfold resolve.
    destruct (queryable_inv _ Hq) as [H1 [H2 _]].
    rewrite H1, H2, Ho. cbn [negb andb].
    rewrite (positions_absent _ _ 0 Hno), Hax, Hver. reflexivity.
Qed.

Lemma unknown_filter_field_raises_witness :
  summary_total_by (ByName kabupaten_kota)
    [(kabupaten_kota, "JAKARTA UTARA"%string);
     ("nama_desa/kota"%string, "PLUIT"%string)] sample
  = (Raise (UndefinedVariableError
              "BACKTICK_QUOTED_STRING_nama_desa_SLASH_kota"%string), sample).
Proof.
  apply (unknown_filter_field_raises (ByName kabupaten_kota) sample
           [(kabupaten_kota, "JAKARTA UTARA"%string)] []
           "nama_desa/kota"%string "PLUIT"%string).
  - vm_compute. reflexivity.
  - constructor; [| constructor].
    split; [vm_compute; auto 10 | split; reflexivity].
  - reflexivity.
  - reflexivity.
  - reflexivity.
  - reflexivity.
  - reflexivity.
  - vm_compute. intuition discriminate.
  - constructor.
Defined.

(** *** Filters and sums together *)

(** With plain filters on string columns the list the method
    aggregates is the grouped sum of the matching rows. *)
Lemma aggregate_plain_filters (g : groups) (filters : list (string * string))
    (d : DataFrame) :
  filters <> [] ->
  queryable d = true ->
  Forall (plain_filter d) filters ->
  aggregate g filters d
  = groupby_sum_records g (mkDF (columns d) (matching_rows filters d)).
Proof.
  intros Hne Hq H. unfold aggregate.
  destruct filters as [| p ps]; [contradiction |].
  cbn [List.length Nat.eqb].
  rewrite (query_keeps_matching_rows d (p :: ps) Hne Hq H). reflexivity.
Qed.

(** X9.  With plain filters on string columns, [summary_total_by]
    returns what the same call without filters returns on the table
    that holds only the matching rows: filtering and summing
    compose. *)
Theorem filtered_summary_is_summary_of_matching_rows :
  forall (g : groups) (filters : list (string * string))
         (self : DKIEducationData),
    filters <> [] ->
    queryable (df self) = true ->
    Forall (plain_filter (df self)) filters ->
    fst (summary_total_by g filters self)
    = fst (summary_total_by g [] (keep_records (matches filters) self)).
Proof.
  intros g filters self Hne Hq H.
  cbv [summary_total_by bind get_df lift ret].
  rewrite (aggregate_plain_filters g filters (df self) Hne Hq H).
  unfold aggregate at 1. cbn [List.length Nat.eqb].
  change (df (keep_records (matches filters) self))
    with (mkDF (columns (df self)) (matching_rows filters (df self))).
  destruct (groupby_sum_records g _) as [data | e | ]; try reflexivity.
  destruct (Nat.eqb (List.length data) 1); try reflexivity.
  destruct (pop data) as [[r rest] | ]; reflexivity.
Qed.

Lemma filtered_summary_is_summary_of_matching_rows_witness :
  fst (summary_total_by (ByName kecamatan)
         [(kabupaten_kota, "JAKARTA UTARA"%string)] sample)
  = fst (summary_total_by (ByName kecamatan) []
           (keep_records
              (matches [(kabupaten_kota, "JAKARTA UTARA"%string)]) sample)).
Proof.
  apply (filtered_summary_is_summary_of_matching_rows (ByName kecamatan)
           [(kabupaten_kota, "JAKARTA UTARA"%string)] sample).
  - discriminate.
  - vm_compute. reflexivity.
  - constructor; [| constructor].
    split; [vm_compute; auto 10 | split; reflexivity].
Defined.

(** The totals of a grouped sum, on any frame. *)
Lemma groupby_totals (g : groups) (d : DataFrame) (data : list record)
    (i : nat) (m : string) (t : dtype) :
  groupby_sum_records g d = Ok data ->
  no_nulls d = true -> rectangular d = true -> NoDup (names d) ->
  nth_error (columns d) i = Some (m, t) -> t <> object ->
  ~ In m (keys_of g) ->
  field_total m data = column_total d i.
Proof.
  intros H Hna Hrect Hnd Hi Ht Hm.
  destruct (groupby_sum_records_inv g d _ H)
    as [pos [rs [Hpos [_ [_ [Hrs Hdata]]]]]].
  destruct (keyed_rows_inv _ _ _ Hrs) as [Hrs_eq Hg].
  assert (Hall : rs = rows d).
  { rewrite Hrs_eq. apply all_rows_keyed; try assumption.
    intros j Hj. destruct (omap_Ok_In _ _ _ Hpos j Hj) as [k [_ Hk]].
    apply locate_bound in Hk. unfold names in Hk.
    rewrite length_map in Hk. exact Hk. }
  assert (Hagg : In (i, (m, t)) (agg_columns (keys_of g) d)).
  { unfold agg_columns. apply filter_In. split.
    - apply (indexed_In _ 0%nat i). exact Hi.
    - cbn [fst snd]. apply andb_true_iff. split.
      + destruct t; try reflexivity. contradiction.
      + apply negb_true_iff. apply mem_false_not_In. exact Hm. }
  assert (Hagn := agg_names_NoDup (keys_of g) d Hnd).
  destruct (sorted_keys_sorted _ Hg) as [HsK _].
  unfold field_total, column_total. rewrite <- Hall.
  rewrite <- (groups_partition_rows (fun r => int_of (nth i r nan))
                (row_key pos) _ rs HsK)
    by (intros r Hr; apply sorted_keys_has;
        [exact Hg | apply in_map; exact Hr]).
  f_equal. apply omap_Forall2 in Hdata.
  clear - Hdata Hagn Hagg Hm.
  induction Hdata as [| k r ks rs' Hk Hrest IH]; simpl; [reflexivity |].
  f_equal; [| exact IH].
  apply (summary_record_field _ _ _ _ _ _ i m t Hk Hagn Hagg Hm).
Qed.

Lemma forallb_filter {A} (p q : A -> bool) (l : list A) :
  forallb p l = true -> forallb p (filter q l) = true.
Proof.
  intros H. apply forallb_forall. intros x Hx.
  apply filter_In in Hx. apply (proj1 (forallb_forall _ _) H x), Hx.
Qed.

(** X10.  With plain filters on string columns of a cleaned table, for
    every numeric column that is not a group field, the sum of that
    field over the returned summary records is the sum of the column
    over the rows that match a filter. *)
Theorem filtered_totals_are_totals_of_matching_rows :
  forall (g : groups) (filters : list (string * string))
         (self : DKIEducationData) (res : result)
         (i : nat) (m : string) (t : dtype),
    filters <> [] ->
    queryable (df self) = true ->
    Forall (plain_filter (df self)) filters ->
    cleaned (df self) = true ->
    rectangular (df self) = true ->
    summary_total_by g filters self = (Ok res, self) ->
    nth_error (columns (df self)) i = Some (m, t) ->
    t <> object ->
    ~ In m (keys_of g) ->
    field_total m (records_of res)
    = zsum (map (fun r => int_of (nth i r nan))
                (matching_rows filters (df self))).
Proof.
  intros g filters self res i m t Hne Hq Hf Hc Hrect H Hi Ht Hm.
  apply summary_records in H.
  rewrite (aggregate_plain_filters g filters (df self) Hne Hq Hf) in H.
  destruct (queryable_inv _ Hq) as [_ [_ [_ Hnd]]].
  assert (Hna : no_nulls (df self) = true).
  { unfold cleaned in Hc. repeat (apply andb_true_iff in Hc;
      destruct Hc as [Hc ?]). assumption. }
  apply (groupby_totals g _ _ i m t H); try assumption.
  - unfold no_nulls, matching_rows. cbn [rows].
    apply forallb_filter. exact Hna.
  - unfold rectangular, matching_rows. cbn [rows columns].
    apply forallb_filter. exact Hrect.
Qed.

Lemma filtered_totals_are_totals_of_matching_rows_witness :
  field_total "tidak/blm_sekolah"
    (records_of
       (Many [[("nama_kecamatan", Str "KOJA");
               ("tidak/blm_sekolah", Int 20); ("strata_II", Int 2);
               ("strata_III", Int 1)];
              [("nama_kecamatan", Str "PENJARINGAN");
               ("tidak/blm_sekolah", Int 100); ("strata_II", Int 5);
               ("strata_III", Int 0)]]%string))
  = zsum (map (fun r => int_of (nth 4 r nan))
              (matching_rows [(kabupaten_kota, "JAKARTA UTARA"%string)]
                 (df sample))).
Proof.
  apply (filtered_totals_are_totals_of_matching_rows (ByName kecamatan)
           [(kabupaten_kota, "JAKARTA UTARA"%string)] sample _ 4%nat
           "tidak/blm_sekolah"%string int64).
  - discriminate.
  - vm_compute. reflexivity.
  - constructor; [| constructor].
    split; [vm_compute; auto 10 | split; reflexivity].
  - vm_compute. reflexivity.
  - vm_compute. reflexivity.
  - vm_compute. reflexivity.
  - reflexivity.
  - discriminate.
  - vm_compute. intuition discriminate.
Defined.

Lemma existsb_permutation {A} (p : A -> bool) (l l' : list A) :
  Permutation l l' -> existsb p l = existsb p l'.
Proof.
  induction 1 as [| x l l' _ IH | x y l | l l' l'' _ IH1 _ IH2];
    cbn [existsb].
  - reflexivity.
  - rewrite IH. reflexivity.
  - destruct (p x), (p y); reflexivity.
  - rewrite IH1. exact IH2.
Qed.

(** X11.  With plain filters on string columns, the order in which the
    filters are given does not matter: a list of filters and any
    rearrangement of it give the same result. *)
Theorem filter_order_is_irrelevant :
  forall (g : groups) (filters filters' : list (string * string))
         (self : DKIEducationData),
    Permutation filters filters' ->
    filters <> [] ->
    queryable (df self) = true ->
    Forall (plain_filter (df self)) filters ->
    summary_total_by g filters self = summary_total_by g filters' self.
Proof.
  intros g filters filters' self Hp Hne Hq H.
  assert (Hne' : filters' <> []).
  { intros E. subst filters'. apply Permutation_sym in Hp.
    apply Permutation_nil in Hp. contradiction. }
  assert (H' : Forall (plain_filter (df self)) filters').
  { rewrite Forall_forall in H |- *. intros p Hin. apply H.
    apply (Permutation_in _ (Permutation_sym Hp) Hin). }
  cbv [summary_total_by bind get_df lift ret].
  rewrite (aggregate_plain_filters g filters (df self) Hne Hq H).
  rewrite (aggregate_plain_filters g filters' (df self) Hne' Hq H').
  replace (matching_rows filters' (df self))
    with (matching_rows filters (df self)); [reflexivity |].
  unfold matching_rows. apply filter_ext. intros r.
  unfold matches. apply existsb_permutation. exact Hp.
Qed.

Lemma filter_order_is_irrelevant_witness :
  summary_total_by (ByName kecamatan)
    [(kabupaten_kota, "JAKARTA BARAT"%string); (kecamatan, "GAMBIR"%string)]
    sample
  = summary_total_by (ByName kecamatan)
      [(kecamatan, "GAMBIR"%string); (kabupaten_kota, "JAKARTA BARAT"%string)]
      sample.
Proof.
  apply filter_order_is_irrelevant.
  - apply perm_swap.
  - discriminate.
  - vm_compute. reflexivity.
  - repeat (constructor;
            [split; [vm_compute; auto 10 | split; reflexivity] |]).
    constructor.
Defined.

(** *** The groups of a summary *)

Lemma sorted_keys_In (ks : list (list cell)) (k : list cell) :
  In k (sorted_keys ks) -> In k ks.
Proof.
  induction ks as [| k0 ks IH]; simpl; [intros [] |].
  intros H. destruct (insert_key_In k0 k _ H) as [E | E];
    [left; symmetry; exact E | right; apply IH; exact E].
Qed.

Lemma groupby_keys_located (g : groups) (d : DataFrame)
    (data : list record) :
  groupby_sum_records g d = Ok data ->
  exists pos rs,
    omap (locate (names d)) (keys_of g) = Ok pos
    /\ NoDup (keys_of g)
    /\ keyed_rows pos (rows d) = Ok rs
    /\ Forall2 (fun k r => summary_record (keys_of g)
                             (agg_columns (keys_of g) d) rs pos k = Ok r)
               (sorted_keys (map (row_key pos) rs)) data
    /\ map (record_key (keys_of g)) data = sorted_keys (map (row_key pos) rs).
Proof.
  intros H. destruct (groupby_sum_records_inv g d data H)
    as [pos [rs [Hpos [Hdup [_ [Hrs Hdata]]]]]].
  exists pos, rs. apply has_dup_NoDup in Hdup.
  apply omap_Forall2 in Hdata.
  repeat (split; [assumption |]).
  assert (Hlen := omap_length _ _ _ Hpos).
  assert (Hin : forall k, In k (sorted_keys (map (row_key pos) rs)) ->
                          List.length k = List.length (keys_of g)).
  { intros k Hk. apply sorted_keys_In in Hk. apply in_map_iff in Hk.
    destruct Hk as [r [Hr _]]. subst k.
    unfold row_key. rewrite length_map. exact Hlen. }
  clear H Hrs.
  set (K := sorted_keys (map (row_key pos) rs)) in *. clearbody K.
  revert Hin.
  induction Hdata as [| k r ks rs' Hk Hrest IH]; intros Hin; simpl;
    [reflexivity |].
  f_equal.
  - eapply summary_record_key; [exact Hdup | | exact Hk].
    apply Hin. left; reflexivity.
  - apply IH. intros k' Hk'. apply Hin. right; exact Hk'.
Qed.

(** The group fields of the record of a row are the key of the row. *)
Lemma record_key_of_row (l keys : list string) (pos : list nat)
    (r : list cell) :
  NoDup l -> omap (locate l) keys = Ok pos ->
  List.length r = List.length l ->
  record_key keys (combine l r) = row_key pos r.
Proof.
  intros Hnd Hpos Hlen. apply omap_Forall2 in Hpos.
  unfold record_key, row_key.
  induction Hpos as [| k i keys pos Hk _ IH]; [reflexivity |].
  cbn [map]. rewrite IH. f_equal.
  rewrite (field_combine l k Hnd i r (locate_nth _ _ _ Hk)); [reflexivity |].
  rewrite Hlen. apply (locate_bound _ _ _ Hk).
Qed.

Lemma cleaned_no_nulls (d : DataFrame) :
  cleaned d = true -> no_nulls d = true.
Proof.
  unfold cleaned. intros Hc.
  repeat (apply andb_true_iff in Hc; destruct Hc as [Hc ?]). assumption.
Qed.

Lemma row_length (d : DataFrame) (r : list cell) :
  rectangular d = true -> In r (rows d) ->
  List.length r = List.length (names d).
Proof.
  intros Hrect Hr. unfold names. rewrite length_map. apply Nat.eqb_eq.
  apply (proj1 (forallb_forall _ _) Hrect r Hr).
Qed.

(** On a cleaned table all rows take part in a grouped sum, and their
    keys are what the records of the rows say. *)
Lemma groupby_rows (g : groups) (d : DataFrame) (pos : list nat)
    (rs : list (list cell)) :
  no_nulls d = true -> rectangular d = true -> NoDup (names d) ->
  omap (locate (names d)) (keys_of g) = Ok pos ->
  keyed_rows pos (rows d) = Ok rs ->
  rs = rows d
  /\ map (row_key pos) (rows d)
     = map (record_key (keys_of g)) (to_dict_records d)
  /\ Forall (fun k => forallb groupable k = true) (map (row_key pos) (rows d)).
Proof.
  intros Hna Hrect Hnd Hpos Hrs.
  destruct (keyed_rows_inv _ _ _ Hrs) as [Hrs_eq Hg].
  assert (Hall : rs = rows d).
  { rewrite Hrs_eq. apply all_rows_keyed; try assumption.
    intros j Hj. destruct (omap_Ok_In _ _ _ Hpos j Hj) as [k [_ Hk]].
    apply locate_bound in Hk. unfold names in Hk.
    rewrite length_map in Hk. exact Hk. }
  clear Hrs_eq. subst rs. split; [reflexivity | split; [| exact Hg]].
  unfold to_dict_records. rewrite map_map. apply map_ext_in.
  intros r Hr. symmetry.
  apply (record_key_of_row _ _ _ _ Hnd Hpos (row_length d r Hrect Hr)).
Qed.

(** X12.  On a cleaned table a call without filters returns one
    summary record for each combination of group-field values that
    occurs in the table and for no other: the group fields of the
    summary records are exactly the group fields of the records of the
    table. *)
Theorem summary_has_every_group_of_the_table :
  forall (g : groups) (self : DKIEducationData) (res : result),
    cleaned (df self) = true ->
    rectangular (df self) = true ->
    NoDup (names (df self)) ->
    summary_total_by g [] self = (Ok res, self) ->
    forall k : list cell,
      In k (map (record_key (keys_of g)) (records_of res))
      <-> In k (map (record_key (keys_of g)) (to_dict_records (df self))).
Proof.
  intros g self res Hc Hrect Hnd H k.
  apply summary_records in H. unfold aggregate in H.
  cbn [List.length Nat.eqb] in H.
  destruct (groupby_keys_located g _ _ H)
    as [pos [rs [Hpos [_ [Hrs [_ Hkeys]]]]]].
  destruct (groupby_rows g _ pos rs (cleaned_no_nulls _ Hc) Hrect Hnd
              Hpos Hrs) as [Hall [Hrec Hg]].
  subst rs. rewrite Hkeys, <- Hrec. split.
  - apply sorted_keys_In.
  - apply sorted_keys_has. exact Hg.
Qed.

Lemma summary_has_every_group_of_the_table_witness :
  In [Str "JAKARTA UTARA"]
     (map (record_key (keys_of (ByName kabupaten_kota)))
          (records_of
             (Many [[("nama_kabupaten/kota", Str "JAKARTA BARAT");
                     ("tidak/blm_sekolah", Int 1); ("strata_II", Int 0);
                     ("strata_III", Int 0)];
                    [("nama_kabupaten/kota", Str "JAKARTA PUSAT");
                     ("tidak/blm_sekolah", Int 7); ("strata_II", Int 0);
                     ("strata_III", Int 1)];
                    [("nama_kabupaten/kota", Str "JAKARTA UTARA");
                     ("tidak/blm_sekolah", Int 120); ("strata_II", Int 7);
                     ("strata_III", Int 1)]]%string)))
  <-> In [Str "JAKARTA UTARA"]
         (map (record_key (keys_of (ByName kabupaten_kota)))
              (to_dict_records (df sample))).
Proof.
  apply (summary_has_every_group_of_the_table (ByName kabupaten_kota) sample).
  - vm_compute. reflexivity.
  - vm_compute. reflexivity.
  - vm_compute. repeat constructor; simpl; intuition discriminate.
  - vm_compute. reflexivity.
Defined.

Lemma key_eqb_eq (k1 k2 : list cell) :
  forallb groupable k1 = true -> key_eqb k1 k2 = true -> k1 = k2.
Proof.
  unfold key_eqb. intros Hg H.
  destruct (key_compare k1 k2) eqn:E; try discriminate.
  apply (key_compare_eq k1 k2 Hg E).
Qed.

Lemma no_member (key : list cell -> list cell) (l : list (list cell))
    (k : list cell) :
  ~ In k (map key l) ->
  Forall (fun k0 => forallb groupable k0 = true) (map key l) ->
  filter (fun r => key_eqb (key r) k) l = [].
Proof.
  induction l as [| b l IH]; intros Hno Hg; [reflexivity |].
  cbn [map] in Hno, Hg. inversion Hg as [| ? ? Hgb Hgl]; subst.
  cbn [filter]. destruct (key_eqb (key b) k) eqn:E.
  - apply (key_eqb_eq _ _ Hgb) in E. exfalso. apply Hno. left; exact E.
  - apply IH; [| exact Hgl]. intros Hin. apply Hno. right; exact Hin.
Qed.

(** Among rows with distinct keys, the rows of the key of a row are
    that row alone. *)
Lemma only_member (key : list cell -> list cell) (l : list (list cell))
    (x : list cell) :
  NoDup (map key l) ->
  Forall (fun k => forallb groupable k = true) (map key l) ->
  In x l ->
  filter (fun r => key_eqb (key r) (key x)) l = [x].
Proof.
  induction l as [| a l IH]; intros Hnd Hg Hin; [contradiction |].
  cbn [map] in Hnd, Hg. inversion Hnd as [| ? ? Hna Hnd']; subst.
  inversion Hg as [| ? ? Hga Hg']; subst. cbn [filter].
  destruct Hin as [E | Hin].
  - subst a. unfold key_eqb at 1. rewrite key_compare_refl. f_equal.
    apply no_member; assumption.
  - destruct (key_eqb (key a) (key x)) eqn:E.
    + apply (key_eqb_eq _ _ Hga) in E. exfalso. apply Hna.
      rewrite E. apply in_map. exact Hin.
    + apply IH; assumption.
Qed.

(** X13.  On a cleaned table, when no two rows agree on all group
    fields, a call without filters returns for every summary record a
    row of the table with the same group fields, and every numeric
    field of the record that is not a group field is the cell of that
    row: the measures come back as they are. *)
Theorem one_row_groups_return_the_rows :
  forall (g : groups) (self : DKIEducationData) (res : result),
    cleaned (df self) = true ->
    rectangular (df self) = true ->
    NoDup (names (df self)) ->
    NoDup (map (record_key (keys_of g)) (to_dict_records (df self))) ->
    summary_total_by g [] self = (Ok res, self) ->
    forall rec : record,
      In rec (records_of res) ->
      exists r : list cell,
        In r (rows (df self))
        /\ record_key (keys_of g) rec
           = record_key (keys_of g) (combine (names (df self)) r)
        /\ forall (i : nat) (m : string) (t : dtype),
             nth_error (columns (df self)) i = Some (m, t) ->
             t <> object -> ~ In m (keys_of g) ->
             field rec m = Some (nth i r nan).
Proof.
  intros g self res Hc Hrect Hnd Huniq H rec Hrec.
  apply summary_records in H. unfold aggregate in H.
  cbn [List.length Nat.eqb] in H.
  destruct (groupby_keys_located g _ _ H)
    as [pos [rs [Hpos [Hkn [Hrs [HF _]]]]]].
  destruct (groupby_rows g _ pos rs (cleaned_no_nulls _ Hc) Hrect Hnd
              Hpos Hrs) as [Hall [Hkeys Hg]].
  subst rs. rewrite <- Hkeys in Huniq.
  destruct (Forall2_in_right _ _ _ HF rec Hrec) as [k [Hk Hsum]].
  apply sorted_keys_In in Hk. apply in_map_iff in Hk.
  destruct Hk as [r [Hkr Hr]]. subst k.
  exists r. split; [exact Hr | split].
  - rewrite (record_key_of_row _ _ _ _ Hnd Hpos (row_length _ r Hrect Hr)).
    eapply summary_record_key; [exact Hkn | | exact Hsum].
    unfold row_key. rewrite length_map. apply (omap_length _ _ _ Hpos).
  - intros i m t Hi Ht Hm.
    unfold summary_record in Hsum.
    rewrite (only_member (row_key pos) _ r Huniq Hg Hr) in Hsum.
    destruct (omap _ (agg_columns (keys_of g) (df self)))
      as [sums | e | ] eqn:Es; cbn [obind] in Hsum; try discriminate.
    inversion Hsum; subst rec; clear Hsum.
    assert (Hagg : In (i, (m, t)) (agg_columns (keys_of g) (df self))).
    { unfold agg_columns. apply filter_In. split.
      - apply (indexed_In _ 0%nat i). exact Hi.
      - cbn [fst snd]. apply andb_true_iff. split.
        + destruct t; try reflexivity. contradiction.
        + apply negb_true_iff. apply mem_false_not_In. exact Hm. }
    destruct (summed_field
                (fun c => group_sum (map (fun r0 => nth (fst c) r0 nan) [r]))
                _ sums (i, (m, t)) Es
                (agg_names_NoDup (keys_of g) (df self) Hnd) Hagg)
      as [z [Hz Hf]].
    cbn [fst snd map] in Hz, Hf.
    rewrite field_app_absent
      by (intros Hin; apply Hm; apply (combine_fst_subset _ _ _ Hin)).
    rewrite Hf. f_equal. unfold group_sum in Hz.
    destruct (nth i r nan); cbn [ints] in Hz; try discriminate.
    destruct (_ <=? _); try discriminate.
    inversion Hz. cbn [zsum fold_right]. f_equal. lia.
Qed.

Lemma one_row_groups_return_the_rows_witness :
  exists r : list cell,
    In r (rows (df sample))
    /\ record_key (keys_of (ByName kelurahan))
         [("nama_kelurahan", Str "LAGOA"); ("tidak/blm_sekolah", Int 20);
          ("strata_II", Int 2); ("strata_III", Int 1)]%string
       = record_key (keys_of (ByName kelurahan))
           (combine (names (df sample)) r)
    /\ forall (i : nat) (m : string) (t : dtype),
         nth_error (columns (df sample)) i = Some (m, t) ->
         t <> object -> ~ In m (keys_of (ByName kelurahan)) ->
         field [("nama_kelurahan", Str "LAGOA"); ("tidak/blm_sekolah", Int 20);
                ("strata_II", Int 2); ("strata_III", Int 1)]%string m
         = Some (nth i r nan).
Proof.
  apply (one_row_groups_return_the_rows (ByName kelurahan) sample
           (Many [[("nama_kelurahan", Str "CIDENG");
                   ("tidak/blm_sekolah", Int 7); ("strata_II", Int 0);
                   ("strata_III", Int 1)];
                  [("nama_kelurahan", Str "LAGOA");
                   ("tidak/blm_sekolah", Int 20); ("strata_II", Int 2);
                   ("strata_III", Int 1)];
                  [("nama_kelurahan", Str "PLUIT");
                   ("tidak/blm_sekolah", Int 100); ("strata_II", Int 5);
                   ("strata_III", Int 0)];
                  [("nama_kelurahan", Str "TUGU");
                   ("tidak/blm_sekolah", Int 1); ("strata_II", Int 0);
                   ("strata_III", Int 0)]]%string)).
  - vm_compute. reflexivity.
  - vm_compute. reflexivity.
  - vm_compute. repeat constructor; simpl; intuition discriminate.
  - vm_compute. repeat constructor; simpl; intuition discriminate.
  - vm_compute. reflexivity.
  - right. left. reflexivity.
Defined.

(** *** The layout of a summary record *)

Lemma query_columns (d d' : DataFrame) (text : string) :
  query d text = Ok d' -> columns d' = columns d.
Proof.
  unfold query. destruct (has_line_break text); [discriminate |].
  destruct (tokenize text) as [ts | e | ]; cbn [obind]; try discriminate.
  destruct (parse ts) as [ps | e | ]; cbn [obind]; try discriminate.
  destruct (omap _ ps) as [cs | e | ]; cbn [obind]; try discriminate.
  intros H. inversion H. reflexivity.
Qed.

Lemma combine_names {A B} (l : list A) (m : list B) :
  List.length m = List.length l -> map fst (combine l m) = l.
Proof.
  revert m. induction l as [| a l IH]; intros [| b m] H; simpl in *;
    try reflexivity; try discriminate.
  f_equal. apply IH. lia.
Qed.

Lemma sums_names (G : nat * (string * dtype) -> outcome Z)
    (aggs : list (nat * (string * dtype))) (sums : record) :
  omap (fun c => let? z := G c in Ok (fst (snd c), Int z)) aggs = Ok sums ->
  map fst sums = map (fun c => fst (snd c)) aggs.
Proof.
  revert sums. induction aggs as [| c aggs IH]; intros sums H;
    cbn [omap] in H.
  - inversion H. reflexivity.
  - destruct (G c) as [z | e | ]; cbn [obind] in H; try discriminate.
    destruct (omap _ aggs) as [rest | e | ] eqn:E; cbn [obind] in H;
      try discriminate.
    inversion H; subst. cbn [map fst]. f_equal. apply IH. reflexivity.
Qed.

(** X14.  When the group fields are columns of the table and some
    column that is not of dtype object is left besides them, every
    summary record that is returned, with or without filters, lists the
    group fields first, in the order given, and then every column of
    the table that is not of dtype object and is not a group field, in
    header order; a column of strings that is not a group field is
    left out.  (With no numeric column left to sum the records are not
    of this form.) *)
Theorem summary_record_fields :
  forall (g : groups) (f : list (string * string))
         (self : DKIEducationData) (res : result),
    Forall (fun k => In k (names (df self))) (keys_of g) ->
    agg_columns (keys_of g) (df self) <> [] ->
    summary_total_by g f self = (Ok res, self) ->
    forall rec : record,
      In rec (records_of res) ->
      map fst rec
      = keys_of g
        ++ map (fun c => fst (snd c)) (agg_columns (keys_of g) (df self)).
Proof.
  intros g f self res _ _ H rec Hrec.
  apply summary_records in H.
  destruct (aggregate_is_groupby g f (df self) _ H) as [d' [Hg [H0 H1]]].
  assert (Hcols : columns d' = columns (df self)).
  { destruct f as [| p ps].
    - rewrite (H0 eq_refl). reflexivity.
    - apply (query_columns _ _ _ (H1 ltac:(discriminate))). }
  destruct (groupby_keys_located g _ _ Hg)
    as [pos [rs [Hpos [_ [_ [HF _]]]]]].
  destruct (Forall2_in_right _ _ _ HF rec Hrec) as [k [Hk Hsum]].
  apply sorted_keys_In in Hk. apply in_map_iff in Hk.
  destruct Hk as [r [Hkr _]]. subst k.
  unfold summary_record in Hsum.
  destruct (omap _ (agg_columns (keys_of g) d')) as [sums | e | ] eqn:Es;
    cbn [obind] in Hsum; try discriminate.
  inversion Hsum; subst rec; clear Hsum.
  rewrite map_app. f_equal.
  - apply combine_names. unfold row_key. rewrite length_map.
    apply (omap_length _ _ _ Hpos).
  - rewrite (sums_names _ _ _ Es). unfold agg_columns. rewrite Hcols.
    reflexivity.
Qed.

Lemma summary_record_fields_witness :
  map fst [("nama_kabupaten/kota", Str "JAKARTA UTARA");
           ("tidak/blm_sekolah", Int 120); ("strata_II", Int 7);
           ("strata_III", Int 1)]%string
  = keys_of (ByName kabupaten_kota)
    ++ map (fun c => fst (snd c))
           (agg_columns (keys_of (ByName kabupaten_kota)) (df sample)).
Proof.
  apply (summary_record_fields (ByName kabupaten_kota)
           [(kabupaten_kota, "JAKARTA UTARA"%string)] sample
           (One [("nama_kabupaten/kota", Str "JAKARTA UTARA");
                 ("tidak/blm_sekolah", Int 120); ("strata_II", Int 7);
                 ("strata_III", Int 1)]%string)).
  - constructor; [vm_compute; auto 10 | constructor].
  - vm_compute. discriminate.
  - vm_compute. reflexivity.
  - left. reflexivity.
Defined.

(** *** One named entity *)

Lemma sorted_keys_of_one_key (k0 : list cell) (ks : list (list cell)) :
  ks <> [] -> (forall k, In k ks -> k = k0) -> sorted_keys ks = [k0].
Proof.
  induction ks as [| k ks IH]; intros Hne Hall; [contradiction |].
  cbn [sorted_keys fold_right].
  rewrite (Hall k (or_introl eq_refl)).
  destruct ks as [| k' ks'].
  - reflexivity.
  - change (fold_right insert_key [] (k' :: ks'))
      with (sorted_keys (k' :: ks')).
    rewrite IH; [| discriminate | intros x Hx; apply Hall; right; exact Hx].
    cbn [insert_key]. rewrite key_compare_refl. reflexivity.
Qed.

(** X15.  A call that groups by one string column and filters on a
    plain value of that same column, as the single-entity endpoints
    make it, returns, when some row matches and a result is returned,
    one bare mapping, whose group field is that value. *)
Theorem single_entity_summary_is_one_mapping :
  forall (self : DKIEducationData) (c v : string) (res : result),
    queryable (df self) = true ->
    plain_filter (df self) (c, v) ->
    matching_rows [(c, v)] (df self) <> [] ->
    summary_total_by (ByName c) [(c, v)] self = (Ok res, self) ->
    exists rec : record, res = One rec /\ field rec c = Some (Str v).
Proof.
  intros self c v res Hq Hf Hsome H.
  assert (Hagg := summary_records _ _ _ _ _ H).
  assert (Hfs : Forall (plain_filter (df self)) [(c, v)])
    by (constructor; [exact Hf | constructor]).
  rewrite (aggregate_plain_filters (ByName c) [(c, v)] (df self)
             ltac:(discriminate) Hq Hfs) in Hagg.
  destruct (groupby_keys_located _ _ _ Hagg)
    as [pos [rs [Hpos [_ [Hrs [_ Hkeys]]]]]].
  cbn [keys_of names columns rows] in *.
  destruct (queryable_inv _ Hq) as [_ [_ [_ Hnd]]].
  cbn [omap] in Hpos.
  change (names _) with (names (df self)) in Hpos.
  destruct (locate (names (df self)) c) as [i | e | ] eqn:Hi;
    cbn [obind] in Hpos; try discriminate.
  injection Hpos as Epos. subst pos.
  assert (Hni := locate_nth _ _ _ Hi).
  assert (Hkey : forall r, In r (matching_rows [(c, v)] (df self)) ->
                           row_key [i] r = [Str v]).
  { intros r Hr. unfold matching_rows in Hr. apply filter_In in Hr.
    destruct Hr as [_ Hm]. unfold matches in Hm. cbn [existsb] in Hm.
    rewrite orb_false_r in Hm.
    rewrite (holds_at_position _ v c Hnd i r Hni) in Hm.
    unfold row_key. cbn [map]. f_equal.
    destruct (nth i r nan); cbn [cell_is] in Hm; try discriminate.
    apply String.eqb_eq in Hm. subst. reflexivity. }
  assert (Hall : rs = matching_rows [(c, v)] (df self)).
  { destruct (keyed_rows_inv _ _ _ Hrs) as [E _]. rewrite E.
    apply filter_all. intros r Hr. rewrite (Hkey r Hr). reflexivity. }
  subst rs.
  rewrite (sorted_keys_of_one_key [Str v]) in Hkeys.
  - destruct (records_of res) as [| rec [| rec' recs]] eqn:Er;
      try discriminate.
    cbn [map] in Hkeys. inversion Hkeys as [Hk].
    cbv [summary_total_by bind get_df lift ret] in H.
    unfold aggregate in H. cbn [List.length Nat.eqb] in H.
    rewrite (query_keeps_matching_rows (df self) [(c, v)]
               ltac:(discriminate) Hq Hfs) in H.
    cbn [obind] in H. rewrite Hagg in H. cbn in H.
    inversion H; subst res. exists rec. split; [reflexivity |].
    unfold record_key in Hk. cbn [map] in Hk.
    destruct (field rec c) as [x |]; inversion Hk; reflexivity.
  - destruct (matching_rows [(c, v)] (df self)); [contradiction |].
    discriminate.
  - intros k Hk. apply in_map_iff in Hk. destruct Hk as [r [Hr Hin]].
    rewrite <- Hr. apply Hkey. exact Hin.
Qed.

Lemma single_entity_summary_is_one_mapping_witness :
  exists rec : record,
    One [("nama_kecamatan", Str "KOJA"); ("tidak/blm_sekolah", Int 21);
         ("strata_II", Int 2); ("strata_III", Int 1)]%string = One rec
    /\ field rec kecamatan = Some (Str "KOJA"%string).
Proof.
  apply (single_entity_summary_is_one_mapping sample kecamatan
           "KOJA"%string).
  - vm_compute. reflexivity.
  - split; [vm_compute; auto 10 | split; reflexivity].
  - vm_compute. discriminate.
  - vm_compute. reflexivity.
Defined.

(** *** Cities and districts together *)

Lemma summary_on_kept_records (g : groups) (filters : list (string * string))
    (p : record -> bool) (self : DKIEducationData) :
  filters <> [] ->
  queryable (df self) = true ->
  Forall (plain_filter (df self)) filters ->
  (forall rec, p rec = matches filters rec) ->
  fst (summary_total_by g filters self)
  = fst (summary_total_by g [] (keep_records p self)).
Proof.
  intros Hne Hq H Hp.
  cbv [summary_total_by bind get_df lift ret].
  rewrite (aggregate_plain_filters g filters (df self) Hne Hq H).
  unfold aggregate at 1. cbn [List.length Nat.eqb].
  replace (df (keep_records p self))
    with (mkDF (columns (df self)) (matching_rows filters (df self))).
  - destruct (groupby_sum_records g _) as [data | e | ]; try reflexivity.
    destruct (Nat.eqb (List.length data) 1); try reflexivity.
    destruct (pop data) as [[r rest] | ]; reflexivity.
  - unfold keep_records, matching_rows. cbn [df]. f_equal.
    apply filter_ext. intros r. symmetry. apply Hp.
Qed.

Lemma existsb_map {A B} (f : A -> B) (p : B -> bool) (l : list A) :
  existsb p (map f l) = existsb (fun a => p (f a)) l.
Proof.
  induction l as [| a l IH]; cbn [map existsb];
    [reflexivity | rewrite IH; reflexivity].
Qed.

(** X16.  [summary_sub_districts] with cities and districts keeps the
    rows whose city is one of the decoded cities or whose district is
    one of the decoded districts -- the union, not the rows that meet
    both -- and sums them by the columns [get_column_names] gave; this
    for decoded values that are plain and string columns. *)
Theorem sub_district_filters_select_a_union :
  forall (self : DKIEducationData) (cities districts : list string)
         (gs : list string),
    queryable (df self) = true ->
    In (kabupaten_kota, object) (columns (df self)) ->
    In (kecamatan, object) (columns (df self)) ->
    Forall (fun x => plain_value (unquote x) = true) (cities ++ districts) ->
    cities ++ districts <> [] ->
    get_column_names default_from kelurahan self = (Ok gs, self) ->
    fst (Controller.summary_sub_districts cities districts self)
    = fst (summary_total_by (ByNames gs) []
             (keep_records
                (fun rec =>
                   existsb (fun x => holds (kabupaten_kota, unquote x) rec)
                           cities
                   || existsb (fun x => holds (kecamatan, unquote x) rec)
                              districts)
                self)).
Proof.
  intros self cities districts gs Hq Hcity Hdist Hplain Hne Hgs.
  unfold Controller.summary_sub_districts. unfold bind at 1. rewrite Hgs.
  apply Forall_app in Hplain. destruct Hplain as [Hpc Hpd].
  apply summary_on_kept_records.
  - destruct cities; [destruct districts; [contradiction |] |]; discriminate.
  - exact Hq.
  - apply Forall_app. split; apply Forall_forall; intros f Hf;
      apply in_map_iff in Hf; destruct Hf as [x [Hx Hin]]; subst f.
    + split; [exact Hcity | split; [reflexivity |]].
      apply (proj1 (Forall_forall _ _) Hpc x Hin).
    + split; [exact Hdist | split; [reflexivity |]].
      apply (proj1 (Forall_forall _ _) Hpd x Hin).
  - intros rec. unfold matches. rewrite existsb_app, !existsb_map.
    reflexivity.
Qed.

Lemma sub_district_filters_select_a_union_witness :
  fst (Controller.summary_sub_districts
         ["JAKARTA%20BARAT"%string] ["GAMBIR"%string] sample)
  = fst (summary_total_by
           (ByNames ["nama_provinsi"; "nama_kabupaten/kota";
                     "nama_kecamatan"; "nama_kelurahan"]%string) []
           (keep_records
              (fun rec =>
                 existsb (fun x => holds (kabupaten_kota, unquote x) rec)
                         ["JAKARTA%20BARAT"%string]
                 || existsb (fun x => holds (kecamatan, unquote x) rec)
                            ["GAMBIR"%string])
              sample)).
Proof.
  apply (sub_district_filters_select_a_union sample
           ["JAKARTA%20BARAT"%string] ["GAMBIR"%string]).
  - vm_compute. reflexivity.
  - vm_compute. auto 10.
  - vm_compute. auto 10.
  - repeat constructor.
  - discriminate.
  - vm_compute. reflexivity.
Defined.

(** *** Decoding path and query values *)

Lemma concat_cons (x : string) (l : list string) :
  String.concat EmptyString (x :: l)
  = (x ++ String.concat EmptyString l)%string.
Proof.
  destruct l as [| y l]; cbn [String.concat].
  - symmetry. apply append_empty.
  - reflexivity.
Qed.

Lemma unquote_to_bytes_plain (s : string) :
  has_char (chr 37) s = false -> unquote_to_bytes s = s.
Proof.
  induction s as [| c s IH]; intros H; [reflexivity |].
  cbn [has_char] in H. apply orb_false_iff in H. destruct H as [Hc Hs].
  cbn [unquote_to_bytes]. rewrite Hc, (IH Hs). reflexivity.
Qed.

Lemma decode_replace_ascii (s : string) :
  all_chars is_ascii s = true -> decode_replace s = s.
Proof.
  induction s as [| c s IH]; intros H; [reflexivity |].
  cbn [all_chars] in H. apply andb_true_iff in H. destruct H as [Hc Hs].
  cbn [decode_replace]. unfold is_ascii in Hc. rewrite Hc, (IH Hs).
  reflexivity.
Qed.

(** The runs of a text without [%]: none holds a [%], and those flagged
    as ASCII hold ASCII characters only. *)
Lemma runs_without_percent (s : string) :
  has_char (chr 37) s = false ->
  Forall (fun r : bool * string =>
            has_char (chr 37) (snd r) = false
            /\ (fst r = true -> all_chars is_ascii (snd r) = true))
         (ascii_runs s).
Proof.
  induction s as [| c s IH]; intros H; [constructor |].
  cbn [has_char] in H. apply orb_false_iff in H. destruct H as [Hc Hs].
  specialize (IH Hs). cbn [ascii_runs].
  assert (H1 : has_char (chr 37) (str1 c) = false
               /\ (is_ascii c = true -> all_chars is_ascii (str1 c) = true)).
  { split; [cbn [str1 has_char]; rewrite Hc; reflexivity |].
    intros Ha. cbn [str1 all_chars]. rewrite Ha. reflexivity. }
  destruct (ascii_runs s) as [| [b r] rest].
  - constructor; [exact H1 | constructor].
  - inversion IH as [| ? ? [Hr2 Hr3] Hrest]; subst. cbn [fst snd] in *.
    destruct (Bool.eqb (is_ascii c) b) eqn:E.
    + apply Bool.eqb_prop in E.
      constructor; [| exact Hrest]. cbn [fst snd]. split.
      * cbn [has_char]. rewrite Hc, Hr2. reflexivity.
      * intros Hb. cbn [all_chars]. rewrite E, Hb, (Hr3 Hb). reflexivity.
    + constructor; [exact H1 | exact IH].
Qed.

Lemma runs_concat (s : string) :
  String.concat EmptyString (map snd (ascii_runs s)) = s.
Proof.
  induction s as [| c s IH]; [reflexivity |].
  cbn [ascii_runs]. destruct (ascii_runs s) as [| [b r] rest].
  - cbn in IH |- *. rewrite <- IH. reflexivity.
  - destruct (Bool.eqb (is_ascii c) b).
    + cbn [map snd] in *. rewrite concat_cons in *.
      cbn [append]. rewrite IH. reflexivity.
    + cbn [map snd] in *. rewrite concat_cons.
      cbn [str1 append]. rewrite IH. reflexivity.
Qed.

(** [unquote] leaves a text without a percent sign as it is, whatever
    else it holds. *)
Lemma unquote_without_percent (s : string) :
  has_char (chr 37) s = false -> unquote s = s.
Proof.
  intros H. unfold unquote.
  pose proof (runs_without_percent s H) as Hruns.
  rewrite <- (runs_concat s) at 2. f_equal.
  apply map_ext_in. intros [b r] Hr.
  destruct (proj1 (Forall_forall _ _) Hruns _ Hr) as [Hp Ha].
  cbn [fst snd] in *. destruct b; [| reflexivity].
  rewrite (unquote_to_bytes_plain r Hp).
  apply decode_replace_ascii. apply Ha. reflexivity.
Qed.

(** X17.  A path value without a percent sign reaches the data access
    layer as it is, whatever else it holds: the three single-entity
    methods of the controller then filter on the very text they were
    given. *)
Theorem value_without_percent_is_the_filter_value :
  forall v : string,
    has_char (chr 37) v = false ->
    Controller.summary_city v
    = summary_total_by (ByName kabupaten_kota) [(kabupaten_kota, v)]
    /\ Controller.summary_district v
       = summary_total_by (ByName kecamatan) [(kecamatan, v)]
    /\ Controller.summary_sub_district v
       = summary_total_by (ByName kelurahan) [(kelurahan, v)].
Proof.
  intros v H.
  unfold Controller.summary_city, Controller.summary_district,
    Controller.summary_sub_district.
  rewrite (unquote_without_percent v H). repeat split.
Qed.

Lemma value_without_percent_is_the_filter_value_witness :
  Controller.summary_city "JAKARTA UTARA"
  = summary_total_by (ByName kabupaten_kota)
      [(kabupaten_kota, "JAKARTA UTARA"%string)]
  /\ Controller.summary_district "JAKARTA UTARA"
     = summary_total_by (ByName kecamatan)
         [(kecamatan, "JAKARTA UTARA"%string)]
  /\ Controller.summary_sub_district "JAKARTA UTARA"
     = summary_total_by (ByName kelurahan)
         [(kelurahan, "JAKARTA UTARA"%string)].
Proof.
  apply (value_without_percent_is_the_filter_value "JAKARTA UTARA"%string).
  reflexivity.
Defined.

(** *** The levels of the summaries *)

(** A call that groups, without filters, by the header from
    ['nama_provinsi'] to a column right of it sums every numeric column
    outside that stretch to its total over the table. *)
Lemma level_totals (self self' : DKIEducationData) (until : string)
    (a j i : nat) (m : string) (t : dtype) (res : result) :
  cleaned (df self) = true ->
  rectangular (df self) = true ->
  NoDup (names (df self)) ->
  nth_error (names (df self)) a = Some default_from ->
  nth_error (names (df self)) j = Some until ->
  (i < a \/ j < i)%nat ->
  nth_error (columns (df self)) i = Some (m, t) -> t <> object ->
  (gs <- get_column_names default_from until ;;
   summary_total_by (ByNames gs) []) self = (Ok res, self') ->
  field_total m (records_of res) = column_total (df self) i.
Proof.
  intros Hc Hrect Hnd Ha Hj Hout Hi Ht H.
  cbv [bind get_column_names get_df lift loc_columns get_slice_bound] in H.
  rewrite (positions_unique default_from _ Hnd 0 a Ha) in H.
  rewrite (positions_unique until _ Hnd 0 j Hj) in H.
  cbn [obind Nat.add] in H.
  set (gs := firstn (S j - a) (skipn a (names (df self)))) in H.
  change (summary_total_by (ByNames gs) [] self = (Ok res, self')) in H.
  apply summary_records in H. unfold aggregate in H.
  cbn [List.length Nat.eqb] in H.
  apply (groupby_totals (ByNames gs) (df self) _ i m t H);
    try assumption; [apply cleaned_no_nulls; exact Hc |].
  cbn [keys_of]. intros Hin.
  apply In_nth_error in Hin. destruct Hin as [k Hk].
  unfold gs in Hk. rewrite nth_error_firstn, nth_error_skipn in Hk.
  destruct (Nat.ltb_spec k (S j - a)) as [Hlt |]; [| discriminate].
  assert (Hm : nth_error (names (df self)) i = Some m).
  { unfold names. rewrite nth_error_map, Hi. reflexivity. }
  assert (E : i = (a + k)%nat).
  { apply (proj1 (NoDup_nth_error (names (df self))) Hnd).
    - apply nth_error_Some. rewrite Hm. discriminate.
    - rewrite Hm, Hk. reflexivity. }
  lia.
Qed.

(** X20.  On a cleaned table with one cell per column and unique column
    names, the four summaries of all entities, called without filters,
    add up to the same totals: for a numeric column that lies outside
    the stretch of group columns, the values of the province summary,
    of the city summary, of the district summary and of the
    sub-district summary each sum to the column's total over the
    table. *)
Theorem unfiltered_summaries_share_totals :
  forall (self s1 s2 s3 s4 : DKIEducationData) (r1 r2 r3 r4 : result)
         (a j1 j2 j3 i : nat) (m : string) (t : dtype),
    cleaned (df self) = true ->
    rectangular (df self) = true ->
    NoDup (names (df self)) ->
    nth_error (names (df self)) a = Some default_from ->
    nth_error (names (df self)) j1 = Some kabupaten_kota ->
    nth_error (names (df self)) j2 = Some kecamatan ->
    nth_error (names (df self)) j3 = Some kelurahan ->
    (i < a \/ (a < i /\ j1 < i /\ j2 < i /\ j3 < i))%nat ->
    nth_error (columns (df self)) i = Some (m, t) -> t <> object ->
    Controller.summary self = (Ok r1, s1) ->
    Controller.summary_cities self = (Ok r2, s2) ->
    Controller.summary_districts [] self = (Ok r3, s3) ->
    Controller.summary_sub_districts [] [] self = (Ok r4, s4) ->
    field_total m (records_of r1) = column_total (df self) i
    /\ field_total m (records_of r2) = column_total (df self) i
    /\ field_total m (records_of r3) = column_total (df self) i
    /\ field_total m (records_of r4) = column_total (df self) i.
Proof.
  intros self s1 s2 s3 s4 r1 r2 r3 r4 a j1 j2 j3 i m t
         Hc Hrect Hnd Ha H1 H2 H3 Hout Hi Ht R1 R2 R3 R4.
  split; [| split; [| split]].
  - unfold Controller.summary in R1. apply summary_records in R1.
    unfold aggregate in R1. cbn [List.length Nat.eqb] in R1.
    apply (groupby_totals _ (df self) _ i m t R1); try assumption;
      [apply cleaned_no_nulls; exact Hc |].
    cbn [keys_of]. intros [E | []].
    assert (Hm : nth_error (names (df self)) i = Some m).
    { unfold names. rewrite nth_error_map, Hi. reflexivity. }
    assert (E' : i = a).
    { apply (proj1 (NoDup_nth_error (names (df self))) Hnd).
      - apply nth_error_Some. rewrite Hm. discriminate.
      - rewrite Hm, Ha, <- E. reflexivity. }
    lia.
  - apply (level_totals self s2 kabupaten_kota a j1 i m t r2);
      try assumption. lia.
  - apply (level_totals self s3 kecamatan a j2 i m t r3);
      try assumption. lia.
  - apply (level_totals self s4 kelurahan a j3 i m t r4);
      try assumption. lia.
Qed.

Lemma unfiltered_summaries_share_totals_witness :
  exists r1 r2 r3 r4 : result,
    Controller.summary sample = (Ok r1, sample)
    /\ Controller.summary_cities sample = (Ok r2, sample)
    /\ Controller.summary_districts [] sample = (Ok r3, sample)
    /\ Controller.summary_sub_districts [] [] sample = (Ok r4, sample)
    /\ field_total "strata_II" (records_of r1) = column_total (df sample) 5
    /\ field_total "strata_II" (records_of r2) = column_total (df sample) 5
    /\ field_total "strata_II" (records_of r3) = column_total (df sample) 5
    /\ field_total "strata_II" (records_of r4) = column_total (df sample) 5.
Proof.
  do 4 eexists.
  split; [lazy; reflexivity |].
  split; [lazy; reflexivity |].
  split; [lazy; reflexivity |].
  split; [lazy; reflexivity |].
  apply (unfiltered_summaries_share_totals sample sample sample sample sample
           _ _ _ _ 0%nat 1%nat 2%nat 3%nat 5%nat "strata_II"%string int64).
  - vm_compute. reflexivity.
  - vm_compute. reflexivity.
  - vm_compute. repeat constructor; simpl; intuition discriminate.
  - reflexivity.
  - reflexivity.
  - reflexivity.
  - reflexivity.
  - lia.
  - reflexivity.
  - discriminate.
  - vm_compute. reflexivity.
  - vm_compute. reflexivity.
  - vm_compute. reflexivity.
  - vm_compute. reflexivity.
Defined.

(** *** A filter that matches no row *)

Lemma no_match_returns_empty_list_witness :
  summary_total_by (ByName kelurahan) [(kecamatan, "MENTENG"%string)] sample
  = (Ok (Many []), sample).
Proof.
  apply (no_match_returns_empty_list (ByName kelurahan)
           [(kecamatan, "MENTENG"%string)] sample).
  - discriminate.
  - vm_compute. reflexivity.
  - constructor; [split; [vm_compute; auto 10 | split; reflexivity] |].
    constructor.
  - vm_compute. reflexivity.
  - discriminate.
  - reflexivity.
  - constructor; [vm_compute; auto 10 | constructor].
  - vm_compute. discriminate.
Defined.
